(** * Fire-Smoke-Dispersion-DT: incident-to-plume orchestration and layer fusion

    A shallow embedding of the Python back end

    - [backend/simulators/smoke_simulator.py]  (wind normalisation, the
      three-horizon run, the per-incident bundle),
    - [backend/ingest/fire_ingester.py]        (the day snapshot cache),
    - [backend/api/transform_to_geojson.py]    (ring extraction, layer fusion),
    - [backend/api/arcgis_api.py]              (EsriJSON projection, fires layer),
    - [backend/api/data_api.py]                (latest snapshot, metadata endpoint),
    - [backend/ingest/weather.py]              (choice of the forecast entry),

    followed by the properties stated about them.

    Conventions.  Python [str] is [string], a character being a code point
    below 256 classified as Unicode classifies it; Python [int] is [Z];
    Python [float] is a binary64 [float]; a Python exception is a value of
    [exn] carried by [res]; the file system, the clock and the external
    processes live in an explicit [World] that every effectful function
    threads. *)

From Stdlib Require Import Floats.PrimFloat ZArith Ascii String List Lia Bool.
From stdpp Require Import gmap strings list.
From Stdlib Require OrderedTypeEx.
From Equations Require Import Equations.
Import ListNotations.

Local Open Scope string_scope.
Local Open Scope Z_scope.

(* ===================================================================== *)
(** ** Exceptions and results *)
(* ===================================================================== *)

(** The exceptions the modelled code can raise. *)
Inductive exn : Type :=
| IndexError
| KeyError
| ValueError
| TypeError
| AttributeError
| FileNotFoundError
| RuntimeError (msg : string)
| HTTPException (status : Z) (detail : string).

Inductive res (A : Type) : Type :=
| Ok (a : A)
| Raise (e : exn).
Arguments Ok {A} a.
Arguments Raise {A} e.

Definition res_bind {A B} (r : res A) (k : A -> res B) : res B :=
  match r with
  | Ok a => k a
  | Raise e => Raise e
  end.

Definition is_ok {A} (r : res A) : bool :=
  match r with Ok _ => true | Raise _ => false end.

Declare Scope res_scope.
Delimit Scope res_scope with res.
Notation "'let?' x ':=' r 'in' k" := (res_bind r (fun x => k))
  (at level 10, x pattern, r at level 100, k at level 200) : res_scope.

(* ===================================================================== *)
(** ** Python string primitives *)
(* ===================================================================== *)

Module PyStr.

(** [str.isspace] below 256: TAB..CR, FS..US, SPACE, NEL (133) and the
    no-break space (160). *)
Definition is_space (c : ascii) : bool :=
  let n := nat_of_ascii c in
  ((9 <=? n) && (n <=? 13) || (28 <=? n) && (n <=? 32)
   || (n =? 133) || (n =? 160))%nat.

(** The decimal digits [0]..[9], the characters [int] reads. *)
Definition is_decimal (c : ascii) : bool :=
  let n := nat_of_ascii c in ((48 <=? n) && (n <=? 57))%nat.

(** [str.isdigit] on one character, below 256: the decimal digits and the
    superscripts two, three (178, 179) and one (185). *)
Definition is_digit (c : ascii) : bool :=
  let n := nat_of_ascii c in
  (is_decimal c || (n =? 178) || (n =? 179) || (n =? 185))%nat.

Definition is_empty (s : string) : bool :=
  match s with EmptyString => true | String _ _ => false end.

Fixpoint all_chars (p : ascii -> bool) (s : string) : bool :=
  match s with
  | EmptyString => true
  | String c s' => p c && all_chars p s'
  end.

(** [s.isdigit()]: at least one character and all of them digits. *)
Definition isdigit (s : string) : bool :=
  negb (is_empty s) && all_chars is_digit s.

Definition digit_val (c : ascii) : Z := Z.of_nat (nat_of_ascii c) - 48.

Fixpoint int_acc (acc : Z) (s : string) : Z :=
  match s with
  | EmptyString => acc
  | String c s' => int_acc (10 * acc + digit_val c) s'
  end.

(** [s.isdecimal()]. *)
Definition isdecimal (s : string) : bool :=
  negb (is_empty s) && all_chars is_decimal s.

(** CPython's default limit on the digits of a decimal literal
    ([sys.int_info.default_max_str_digits]). *)
Definition max_str_digits : nat := 4300.

(** The value of a string of decimal digits. *)
Definition int_of_digits (s : string) : Z := int_acc 0 s.

(** [int(s)] for a string without sign, blank or underscore (one that passed
    [isdigit] has none): [ValueError] on a character that is no decimal
    digit and on more than [max_str_digits] digits. *)
Definition int (s : string) : res Z :=
  if isdecimal s && (String.length s <=? max_str_digits)%nat
  then Ok (int_of_digits s)
  else Raise ValueError.

Definition snoc (s : string) (c : ascii) : string := s ++ String c EmptyString.

(** [s.split()]: maximal runs of non-blank characters, in order. *)
Fixpoint split_ws_from (cur : string) (s : string) : list string :=
  match s with
  | EmptyString => if is_empty cur then [] else [cur]
  | String c s' =>
      if is_space c
      then (if is_empty cur then split_ws_from EmptyString s'
            else cur :: split_ws_from EmptyString s')
      else split_ws_from (snoc cur c) s'
  end.

Definition split_ws (s : string) : list string := split_ws_from EmptyString s.

(** [s.strip()] is only used before [split_ws], where it changes nothing
    (leading and trailing blanks produce no token). *)

(** [s.split(sep)] for a non-empty separator: the pieces between the
    non-overlapping occurrences of [sep], scanning from the left.  [skip]
    counts the characters of a matched separator still to be passed over;
    [cur] is the piece being built.  (Python raises [ValueError] on an empty
    separator; the code only splits on the literals "," and "q=".) *)
Fixpoint split_from (sep : string) (skip : nat) (cur : string) (s : string)
  : list string :=
  match s with
  | EmptyString => [cur]
  | String c s' =>
      match skip with
      | S k => split_from sep k cur s'
      | O =>
          if String.prefix sep s
          then cur :: split_from sep (String.length sep - 1) EmptyString s'
          else split_from sep O (snoc cur c) s'
      end
  end.

Definition split (sep s : string) : list string :=
  split_from sep O EmptyString s.

(** [x in xs] for a list of strings. *)
Definition contains (xs : list string) (x : string) : bool :=
  existsb (String.eqb x) xs.

(** [xs.index(x)]: position of the first element equal to [x]
    ([ValueError] when there is none). *)
Fixpoint index_from (i : nat) (xs : list string) (x : string) : res nat :=
  match xs with
  | [] => Raise ValueError
  | y :: ys => if String.eqb y x then Ok i else index_from (S i) ys x
  end.

Definition index (xs : list string) (x : string) : res nat := index_from O xs x.

(** [xs[i]] ([IndexError] out of range). *)
Definition item {A} (xs : list A) (i : nat) : res A :=
  match nth_error xs i with
  | Some a => Ok a
  | None => Raise IndexError
  end.

End PyStr.

(* ===================================================================== *)
(** ** Data model *)
(* ===================================================================== *)

(** Scalars that travel through the configuration and the JSON files. *)
Inductive jval : Type :=
| JInt (z : Z)
| JFloat (f : float)
| JStr (s : string).

(** A coordinate tuple as the geometry library yields it: two or three floats. *)
Definition coord : Type := list float.
Definition ring : Type := list coord.

(** The shared configuration object [conf] ([config.yaml] is not part of the
    sources, so its entries are fields of a record passed around). *)
Record FSConfig : Type := mkFSConfig {
  project_root : string;
  data_dir : string;
  ingest_output_subdir : string;
  vsmoke_output_subdir : string;
  vsmoke_meta_subdir : string;
  geojson_output_subdir : string;
  geojson_save_to_disk : bool;
  vsmoke_acres_default : jval;
  vsmoke_mix_height_ft : jval;
  vsmoke_stability_class : jval;
  vsmoke_plume_rise_fraction : jval
}.

(** One [rss.channel.item] of the normalised feed. *)
Record Item : Type := mkItem {
  it_guid : string;                 (* it["guid"]["#text"] *)
  it_title : string;
  it_description : option string;
  it_pubDate : option string;
  it_link : string
}.

(** [rss.channel.item] is a single object or a list of them. *)
Inductive ItemField : Type :=
| OneItem (it : Item)
| ItemList (its : list Item).

Record Feed : Type := mkFeed { rss_channel_item : ItemField }.

(** The two keys [get_hourly_wx] returns. *)
Record WxObs : Type := mkWxObs {
  windSpeed : string;
  windDirection : string
}.

(** The dict [_wx_block] returns. *)
Record WxBlock : Type := mkWxBlock {
  wb_wspd : Z;
  wb_wdir : Z
}.

(** The per-horizon dict [meta] of [_single_horizon]; [m_kml] is [None] until
    the key "kml" is set. *)
Record Meta : Type := mkMeta {
  m_stem : string;
  m_guid : string;
  m_lat : float;
  m_lon : float;
  m_acres : jval;
  m_mix : jval;
  m_stclass : jval;
  m_frise : jval;
  m_horizon_min : jval;
  m_erate : jval;
  m_hrate : jval;
  m_name : string;
  m_wspd : Z;
  m_wdir : Z;
  m_kml : option string
}.

(** The per-incident bundle; [b_horizons] keeps the dict's insertion order. *)
Record Bundle : Type := mkBundle {
  b_guid : string;
  b_lat : float;
  b_lon : float;
  b_horizons : list (string * Meta)
}.

(** Geometries of the parsed KML, by [geom_type]. *)
Inductive geom : Type :=
| Polygon (exterior : ring) (interiors : list ring)
| MultiPolygon (polys : list (ring * list ring))
| GeometryCollection (geoms : list geom)
| OtherGeom (geom_type : string).

(** A node of the parsed feature tree: its [geometry] attribute (absent on
    containers) and its child features (none on placemarks). *)
Inductive feature : Type :=
| KmlFeature (geometry : option geom) (features : list feature).

(** What the two readers see of one KML artifact: the feature tree of the
    structured parser, and the text of the first [LinearRing/coordinates]
    element of the raw document ([None]: no such element; the empty string
    also stands for an element without text). *)
Record KmlDoc : Type := mkKmlDoc {
  kml_features : list feature;
  kml_coordinates : option string
}.

(** GeoJSON geometries built by the fusion layer.  The single ring of a plume
    polygon is whatever [_kml_ring] returned, [None] included. *)
Inductive GjGeometry : Type :=
| GjPoint (coordinates : list float)
| GjPolygon (coordinates : list (option ring)).

(** A GeoJSON feature; [properties] keeps the dict's insertion order. *)
Record Feature : Type := mkFeature {
  f_geometry : GjGeometry;
  f_properties : list (string * jval)
}.

Record FeatureCollection : Type := mkFC {
  fc_title : string;
  fc_features : list Feature
}.

(** [d[k]] on an insertion-ordered dict. *)
Fixpoint prop_get {A} (k : string) (d : list (string * A)) : option A :=
  match d with
  | [] => None
  | (k', v) :: d' => if String.eqb k' k then Some v else prop_get k d'
  end.

(* ===================================================================== *)
(** ** The world: files, clock, external processes *)
(* ===================================================================== *)

(** What a file holds, by the shape of its JSON or KML content. *)
Inductive File : Type :=
| FSnapshot (doc : Feed)
| FInput (m : Meta)
| FBundle (b : Bundle)
| FKml (k : KmlDoc)
| FGeoJson (gj : FeatureCollection).

(** Observable effects, most recent first in [trace]. *)
Inductive event : Type :=
| Wrote (path : string) (content : File)
| Fetched
| AskedWx (lat lon : float)
| RanSolver
| RanConverter (ipt : string)
| Printed (line : string).

Record World : Type := mkWorld {
  files : gmap string File;
  today : string;            (* [datetime.now().date()], ISO text *)
  ticks : nat;               (* external calls made so far *)
  trace : list event
}.

(** The installed fastkml, by its interface (the docstring of [_kml_ring]
    names both).  In 0.x, [features] is a method that returns a generator and
    [from_string] fills the document it is called on.  From 1.0 on,
    [features] is a list and [from_string] is a constructor: called on an
    instance it returns a new document and leaves the instance as it was. *)
Inductive FastkmlApi : Type :=
| Fastkml0
| Fastkml1.

(** The collaborators outside the sources.  Each answer may depend on how
    many external calls came before ([ticks]), so successive calls can differ. *)
Record Env : Type := mkEnv {
  fastkml_api : FastkmlApi;
  (** [float(s)]; [None] is [ValueError]. *)
  pyfloat : string -> option float;
  (** [datetime.strptime(s, "%Y-%m-%d").date()] as ISO text; [None] is
      [ValueError]. *)
  strptime_date : string -> option string;
  (** [_fetch_rss()]: the HTTP GET and the XML parse. *)
  fetch_rss : nat -> res Feed;
  (** [get_hourly_wx(lat, lon)]. *)
  get_hourly_wx : nat -> float -> float -> res WxObs;
  (** The solver process: return code and captured output. *)
  solver : nat -> Z * string;
  (** The converter process on the path of an input descriptor: return code,
      captured output, and the KML it produces, if any. *)
  converter : nat -> string -> Z * string * option KmlDoc;
  (** Truth value of a geometry object ([if geom:]). *)
  geom_truthy : geom -> bool
}.

(** Effectful computations: exceptions over explicit state.  The world after
    a raised exception keeps every effect made before it. *)
Definition M (A : Type) : Type := World -> res A * World.

Definition ret {A} (a : A) : M A := fun w => (Ok a, w).
Definition raise {A} (e : exn) : M A := fun w => (Raise e, w).
Definition bind {A B} (m : M A) (k : A -> M B) : M B :=
  fun w => match m w with
           | (Ok a, w') => k a w'
           | (Raise e, w') => (Raise e, w')
           end.
Definition lift {A} (r : res A) : M A := fun w => (r, w).

Declare Scope m_scope.
Delimit Scope m_scope with M.
Notation "'let!' x ':=' m 'in' k" := (bind m (fun x => k))
  (at level 10, x pattern, m at level 100, k at level 200) : m_scope.

Definition log (e : event) : M unit :=
  fun w => (Ok tt, mkWorld (files w) (today w) (ticks w) (e :: trace w)).

Definition tick : M nat :=
  fun w => (Ok (ticks w), mkWorld (files w) (today w) (S (ticks w)) (trace w)).

(** [path.write_text(json.dumps(content))]. *)
Definition write_text (path : string) (content : File) : M unit :=
  fun w => (Ok tt, mkWorld (<[path := content]> (files w)) (today w) (ticks w)
                           (Wrote path content :: trace w)).

(** [path.read_text()] followed by the parse. *)
Definition read_file (path : string) : M File :=
  fun w => match files w !! path with
           | Some f => (Ok f, w)
           | None => (Raise FileNotFoundError, w)
           end.

Definition path_exists (path : string) : M bool :=
  fun w => (Ok (bool_decide (is_Some (files w !! path))), w).

Definition now_date : M string := fun w => (Ok (today w), w).

Definition print (line : string) : M unit := log (Printed line).

(** [a / b] on paths, for a relative [b]. *)
Definition path_join (a b : string) : string := a ++ "/" ++ b.

(** Directories derived from the configuration (utils/paths.py). *)
Definition DATA_D (conf : FSConfig) : string := data_dir conf.
Definition INGEST_D (conf : FSConfig) : string :=
  path_join (DATA_D conf) (ingest_output_subdir conf).
Definition PLUMES_D (conf : FSConfig) : string :=
  path_join (DATA_D conf) (vsmoke_output_subdir conf).
Definition META_D (conf : FSConfig) : string :=
  path_join (DATA_D conf) (vsmoke_meta_subdir conf).
Definition GEOJSON_D (conf : FSConfig) : string :=
  path_join (DATA_D conf) (geojson_output_subdir conf).

(* ===================================================================== *)
(** ** Paths and small shared parsers *)
(* ===================================================================== *)

Definition newline : string := String (ascii_of_nat 10) EmptyString.

Module PyPath.

(** [p.name]: the last component. *)
Definition name (p : string) : string := List.last (PyStr.split "/" p) EmptyString.

(** [p.stem]: the name without its last suffix; a dot that starts or ends
    the name begins no suffix. *)
Definition stem (p : string) : string :=
  let nm := name p in
  let parts := PyStr.split "." nm in
  let front := String.concat "." (List.removelast parts) in
  let back := List.last parts EmptyString in
  if (1 <? List.length parts)%nat && negb (PyStr.is_empty front)
     && negb (PyStr.is_empty back)
  then front else nm.

Fixpoint strip_prefix (pre s : string) : option string :=
  match pre, s with
  | EmptyString, _ => Some s
  | String a pre', String b s' =>
      if Ascii.eqb a b then strip_prefix pre' s' else None
  | String _ _, EmptyString => None
  end.

(** [p.relative_to(root)] ([ValueError] when [p] is not below [root]). *)
Definition relative_to (root p : string) : res string :=
  match strip_prefix (root ++ "/") p with
  | Some rest => Ok rest
  | None => Raise ValueError
  end.

End PyPath.

Fixpoint lstrip (s : string) : string :=
  match s with
  | EmptyString => EmptyString
  | String c s' => if PyStr.is_space c then lstrip s' else s
  end.

(** [s.strip()]. *)
Definition strip (s : string) : string :=
  String.rev (lstrip (String.rev (lstrip s))).

Section Parsers.
Variable env : Env.

Definition float_of (s : string) : res float :=
  match pyfloat env s with
  | Some f => Ok f
  | None => Raise ValueError
  end.

(** [a, b = map(float, toks)]: exactly two tokens, both parsed; a wrong
    count and a failed [float] are both [ValueError]. *)
Definition unpack_two_floats (toks : list string) : res (float * float) :=
  match toks with
  | [a; b] =>
      (let? x := float_of a in
       let? y := float_of b in
       Ok (x, y))%res
  | _ => Raise ValueError
  end.

(** [map(float, link.split("q=")[1].split(","))] unpacked into [(lat, lon)];
    the expression shared by [process_firemap] and [_read_incidents]. *)
Definition link_lat_lon (link : string) : res (float * float) :=
  (let? after := PyStr.item (PyStr.split "q=" link) 1 in
   unpack_two_floats (PyStr.split "," after))%res.

End Parsers.

(** The items of a snapshot: [data if isinstance(data, list) else [data]]. *)
Definition items_of (doc : Feed) : list Item :=
  match rss_channel_item doc with
  | OneItem it => [it]
  | ItemList its => its
  end.

(** [for x in xs: body(x)]: stops at the first exception. *)
Fixpoint for_each {A} (body : A -> M unit) (xs : list A) : M unit :=
  match xs with
  | [] => ret tt
  | x :: xs' => (let! _ := body x in for_each body xs')%M
  end.

(* ===================================================================== *)
(** ** backend/simulators/smoke_simulator.py *)
(* ===================================================================== *)

Module smoke_simulator.

(** Lookup tables from the legacy script. *)
Definition _dirs : list string :=
  PyStr.split_ws "N NNE NE ENE E ESE SE SSE S SSW SW WSW W WNW NW NNW".

Definition _angles : list Z :=
  [0; 25; 45; 65; 90; 115; 135; 155; 180; 205; 225; 245; 270; 295; 315; 335].

(** The speed half of [_wx_block]: [raw = windSpeed.split()[0]],
    [int(raw) if raw.isdigit() else 0], then the clamp to 1. *)
Definition wspd_of (windSpeed : string) : res Z :=
  (let? raw := PyStr.item (PyStr.split_ws windSpeed) 0 in
   let? wspd := if PyStr.isdigit raw then PyStr.int raw else Ok 0 in
   Ok (if wspd <? 1 then 1 else wspd))%res.

(** The direction half of [_wx_block]. *)
Definition wdir_of (windDirection : string) : res Z :=
  (let dir_txt :=
     if negb (PyStr.contains _dirs windDirection) then "N" else windDirection in
   let? i := PyStr.index _dirs dir_txt in
   let? wdir := PyStr.item _angles i in
   Ok (if wdir =? 0 then 360 else wdir))%res.

Section WithEnv.
Variable env : Env.
Variable conf : FSConfig.

Definition _wx_block (lat lon : float) : M WxBlock :=
  (let! t := tick in
   let! _ := log (AskedWx lat lon) in
   let! wx := lift (get_hourly_wx env t lat lon) in
   let! wspd := lift (wspd_of (windSpeed wx)) in
   let! wdir := lift (wdir_of (windDirection wx)) in
   ret (mkWxBlock wspd wdir))%M.

(** Writes the per-horizon descriptor as [<stem>.json]. *)
Definition _build_input (meta : Meta) : M string :=
  (let ipt := path_join (META_D conf) (m_stem meta ++ ".json") in
   let! _ := write_text ipt (FInput meta) in
   ret ipt)%M.

(** Modelled from the spec: the artifact-conversion step
    ([backend.simulators.runvsmoke], not among the sources) turns the
    engine's raw output into a polygon document named from the input
    descriptor, [<name>.kml] under the plume directory. *)
Definition converter_leaves (ipt : string) (kml : option KmlDoc) : M unit :=
  fun w =>
    match kml, files w !! ipt with
    | Some k, Some (FInput m) =>
        write_text (path_join (PLUMES_D conf) (m_name m ++ ".kml")) (FKml k) w
    | _, _ => (Ok tt, w)
    end.

Definition _run_vsmoke (ipt : string) : M string :=
  (* 1) Fortran solver *)
  (let! t := tick in
   let! _ := log RanSolver in
   let '(returncode, stdout) := solver env t in
   if negb (returncode =? 0)
   then raise (RuntimeError ("VSmoke solver failed:" ++ newline ++ strip stdout))
   else
     (* 2) KML converter *)
     let! t := tick in
     let! _ := log (RanConverter ipt) in
     let '(returncode, stdout, kml) := converter env t ipt in
     let! _ := converter_leaves ipt kml in
     if negb (returncode =? 0)
     then raise (RuntimeError ("runvsmoke.py failed:" ++ newline ++ strip stdout))
     else
       (* 3) resolve final KML path *)
       let! f := read_file ipt in
       match f with
       | FInput m => ret (path_join (PLUMES_D conf) (m_name m ++ ".kml"))
       | _ => raise KeyError
       end)%M.

(** Produce a plume for one horizon and return its metadata snippet. *)
Definition _single_horizon (guid : string) (lat lon : float)
           (tag : string) (minutes_ahead : Z) : M Meta :=
  (let! date := now_date in
   let stem := date ++ "_" ++ guid ++ "_" ++ tag in
   let! wx := _wx_block lat lon in
   let meta :=
     {| m_stem := stem; m_guid := guid; m_lat := lat; m_lon := lon;
        m_acres := vsmoke_acres_default conf;
        m_mix := vsmoke_mix_height_ft conf;
        m_stclass := vsmoke_stability_class conf;
        m_frise := vsmoke_plume_rise_fraction conf;
        m_horizon_min := JInt minutes_ahead;
        m_erate := JFloat 4.77;
        m_hrate := JFloat 5.18;
        m_name := stem;
        m_wspd := wb_wspd wx; m_wdir := wb_wdir wx;
        m_kml := None |} in
   let! ipt := _build_input meta in
   let! kml := _run_vsmoke ipt in
   let! rel := lift (PyPath.relative_to (project_root conf) kml) in
   ret {| m_stem := m_stem meta; m_guid := m_guid meta;
          m_lat := m_lat meta; m_lon := m_lon meta;
          m_acres := m_acres meta; m_mix := m_mix meta;
          m_stclass := m_stclass meta; m_frise := m_frise meta;
          m_horizon_min := m_horizon_min meta;
          m_erate := m_erate meta; m_hrate := m_hrate meta;
          m_name := m_name meta;
          m_wspd := m_wspd meta; m_wdir := m_wdir meta;
          m_kml := Some rel |})%M.

(** Where the bundle of one incident goes. *)
Definition bundle_path (firemap_json guid : string) : string :=
  path_join (META_D conf) (PyPath.stem firemap_json ++ "_" ++ guid ++ ".json").

(** The body of the loop of [process_firemap]: three horizons, then the
    bundle.  (The printed line is the source's, without its check mark.) *)
Definition process_item (firemap_json : string) (it : Item) : M unit :=
  (let guid := it_guid it in
   let! lat_lon := lift (link_lat_lon env (it_link it)) in
   let lat := fst lat_lon in
   let lon := snd lat_lon in
   let! h1 := _single_horizon guid lat lon "1" 30 in
   let! h2 := _single_horizon guid lat lon "2" 90 in
   let! h3 := _single_horizon guid lat lon "3" 150 in
   let bundle :=
     {| b_guid := guid; b_lat := lat; b_lon := lon;
        b_horizons := [("0.5h", h1); ("1.5h", h2); ("2.5h", h3)] |} in
   let out := bundle_path firemap_json guid in
   let! _ := write_text out (FBundle bundle) in
   print ("3-horizon plume: " ++ PyPath.name out))%M.

(** Iterate through the items and generate three horizons each. *)
Definition process_firemap (firemap_json : string) : M unit :=
  (let! f := read_file firemap_json in
   match f with
   | FSnapshot doc => for_each (process_item firemap_json) (items_of doc)
   | _ => raise KeyError
   end)%M.

End WithEnv.

End smoke_simulator.

(* ===================================================================== *)
(** ** backend/ingest/fire_ingester.py *)
(* ===================================================================== *)

Module fire_ingester.

Section WithEnv.
Variable env : Env.
Variable conf : FSConfig.

Definition _fetch_rss : M Feed :=
  (let! t := tick in
   let! _ := log Fetched in
   lift (fetch_rss env t))%M.

Definition _target (day : string) : string :=
  path_join (INGEST_D conf) ("FireMap_" ++ day ++ ".json").

(** [datetime.strptime(day_str, "%Y-%m-%d") if day_str else datetime.now()],
    kept as the date it denotes. *)
Definition day_of (day_str : option string) : M string :=
  match day_str with
  | Some s =>
      if PyStr.is_empty s then now_date
      else match strptime_date env s with
           | Some d => ret d
           | None => raise ValueError
           end
  | None => now_date
  end.

Definition run (day_str : option string) : M string :=
  (let! day := day_of day_str in
   let out := _target day in
   let! there := path_exists out in
   let! now := now_date in
   (* Skip fetch if archive already on disk *)
   if there && negb (String.eqb day now)
   then ret out
   else
     let! rss_json := _fetch_rss in
     let! _ := write_text out (FSnapshot rss_json) in
     ret out)%M.

End WithEnv.

End fire_ingester.

(* ===================================================================== *)
(** ** backend/api/transform_to_geojson.py *)
(* ===================================================================== *)

(** A list comprehension whose element expression may raise. *)
Fixpoint map_res {A B} (f : A -> res B) (xs : list A) : res (list B) :=
  match xs with
  | [] => Ok []
  | x :: xs' =>
      (let? y := f x in
       let? ys := map_res f xs' in
       Ok (y :: ys))%res
  end.

(** The features below [f]; [queue.extend(_children(feat))] appends them,
    whether [_children] hands them over as a list or as a generator. *)
Definition children (f : feature) : list feature :=
  match f with KmlFeature _ fs => fs end.

(** What [_children] hands back: [list(feats)] when [features] is a list,
    the generator [feats()], unconverted, when it is callable. *)
Inductive Children : Type :=
| AsList (feats : list feature)
| AsGenerator (feats : list feature).

Definition geometry_of (f : feature) : option geom :=
  match f with KmlFeature g _ => g end.

Fixpoint feature_size (f : feature) : nat :=
  match f with KmlFeature _ fs => S (list_sum (map feature_size fs)) end.

Definition forest_size (q : list feature) : nat := list_sum (map feature_size q).

(** [if ring:] on a value that is a list or [None]. *)
Definition ring_truthy (r : option ring) : bool :=
  match r with
  | Some (_ :: _) => true
  | _ => false
  end.

(** [name] matches the pattern [<pre>*<suf>]. *)
Definition name_matches (pre suf name : string) : bool :=
  String.prefix pre name
  && String.prefix (String.rev suf) (String.rev name)
  && (String.length pre + String.length suf <=? String.length name)%nat.

Definition in_dir_matching (dir pre suf path : string) : bool :=
  match PyPath.strip_prefix (dir ++ "/") path with
  | Some name =>
      (List.length (PyStr.split "/" name) =? 1)%nat && name_matches pre suf name
  | None => false
  end.

(** [dir.glob(pre + "*" + suf)]: the matching files, in the directory's
    listing order (here the enumeration order of the file map). *)
Definition glob (dir pre suf : string) : M (list string) :=
  fun w =>
    (Ok (List.filter (in_dir_matching dir pre suf) (map fst (map_to_list (files w)))), w).

Inductive BuildResult : Type :=
| Built (gj : FeatureCollection)
| Saved (out : string).

Module transform_to_geojson.

(** Return first polygon exterior coords from any geometry type. *)
Fixpoint _extract_ring (g : geom) : res (option ring) :=
  match g with
  | Polygon exterior _ => Ok (Some exterior)
  | MultiPolygon polys =>
      (let? first := PyStr.item polys 0 in Ok (Some (fst first)))%res
  | GeometryCollection geoms =>
      (fix members (gs : list geom) : res (option ring) :=
         match gs with
         | [] => Ok None
         | g' :: gs' =>
             (let? r := _extract_ring g' in
              if ring_truthy r then Ok r else members gs')%res
         end) geoms
  | OtherGeom _ => Ok None
  end.

Section WithEnv.
Variable env : Env.
Variable conf : FSConfig.

Definition incident_feature (it : Item) : res Feature :=
  (let? lat_lon := link_lat_lon env (it_link it) in
   let lat := fst lat_lon in
   let lon := snd lat_lon in
   Ok {| f_geometry := GjPoint [lon; lat];
         f_properties :=
           [("layer", JStr "incidents");
            ("guid", JStr (it_guid it));
            ("title", JStr (it_title it));
            ("description", JStr (default EmptyString (it_description it)));
            ("pubDate", JStr (default EmptyString (it_pubDate it)))] |})%res.

Definition _read_incidents (day : string) : M (list Feature) :=
  (let fp := path_join (INGEST_D conf) ("FireMap_" ++ day ++ ".json") in
   let! f := read_file fp in
   match f with
   | FSnapshot doc => lift (map_res incident_feature (items_of doc))
   | _ => raise KeyError
   end)%M.

(** What one step of the search finds at [feat]: its geometry, when
    present and true, goes through [_extract_ring]; a ring counts when it
    is a non-empty list. *)
Definition ring_at (feat : feature) : res (option ring) :=
  match geometry_of feat with
  | Some g =>
      if geom_truthy env g
      then (let? r := _extract_ring g in
            Ok (if ring_truthy r then r else None))%res
      else Ok None
  | None => Ok None
  end.

(** The [while queue:] loop: pop the front, try it, append its children. *)
Equations? search (queue : list feature) : res (option ring)
  by wf (forest_size queue) lt :=
  search [] := Ok None;
  search (feat :: queue) with ring_at feat := {
    | Raise e := Raise e;
    | Ok (Some r) := Ok (Some r);
    | Ok None := search (queue ++ children feat) }.
Proof.
  unfold forest_size. rewrite map_app, list_sum_app.
  destruct feat; simpl. unfold forest_size. lia.
Qed.

(** fallback: parse first <coordinates> manually. *)
Definition parse_pair (p : string) : res coord :=
  map_res (float_of env) (firstn 2 (PyStr.split "," p)).

Definition fallback_ring (coord_text : option string) : res (option ring) :=
  match coord_text with
  | None => Ok None
  | Some txt =>
      if PyStr.is_empty txt then Ok None
      else
        (let? pairs := map_res parse_pair (PyStr.split_ws (strip txt)) in
         Ok (match pairs with [] => None | _ :: _ => Some pairs end))%res
  end.

(** [doc] after [doc = fastkml.KML(); doc.from_string(...)], for a file
    that parses to [k]: the parsed features under 0.x; under 1.x the parsed
    document is the discarded return value and [doc] has no feature. *)
Definition loaded (k : KmlDoc) : list feature :=
  match fastkml_api env with
  | Fastkml0 => kml_features k
  | Fastkml1 => []
  end.

Definition _children (feats : list feature) : Children :=
  match fastkml_api env with
  | Fastkml0 => AsGenerator feats
  | Fastkml1 => AsList feats
  end.

(** The body of [_kml_ring] on a parsed file.  A generator is true and has
    no [pop]: there the first pass through the loop raises.  On a list the
    loop is [search]; only a list ever reaches its [queue.extend]. *)
Definition kml_ring_of (k : KmlDoc) : res (option ring) :=
  match _children (loaded k) with
  | AsGenerator _ => Raise AttributeError
  | AsList queue =>
      (let? found := search queue in
       match found with
       | Some r => Ok (Some r)
       | None => fallback_ring (kml_coordinates k)
       end)%res
  end.

Definition _kml_ring (kml_path : string) : M (option ring) :=
  (let! f := read_file kml_path in
   match f with
   | FKml k => lift (kml_ring_of k)
   | _ => raise ValueError
   end)%M.

Definition plume_feature (guid title horizon : string) (r : option ring) : Feature :=
  {| f_geometry := GjPolygon [r];
     f_properties :=
       [("layer", JStr "plumes");
        ("guid", JStr guid);
        ("title", JStr title);
        ("horizon_type", JStr horizon)] |}.

Definition meta_feature (guid title horizon : string) (lat lon : float)
           (hdict : Meta) : Feature :=
  {| f_geometry := GjPoint [lon; lat];
     f_properties :=
       [("layer", JStr "meta");
        ("guid", JStr guid);
        ("title", JStr title);
        ("horizon_type", JStr horizon);
        ("acres", m_acres hdict);
        ("mix", m_mix hdict);
        ("stclass", m_stclass hdict);
        ("frise", m_frise hdict);
        ("horizon_min", m_horizon_min hdict);
        ("erate", m_erate hdict);
        ("hrate", m_hrate hdict);
        ("wspd", JInt (m_wspd hdict));
        ("wdir", JInt (m_wdir hdict))] |}.

(** The two lists the reader appends to. *)
Definition Layers : Type := (list Feature * list Feature)%type.

(** One turn of the inner loop, on one [(label, hdict)] of a bundle. *)
Definition horizon_step (bundle : Bundle) (acc : Layers)
           (entry : string * Meta) : M Layers :=
  (let lat := b_lat bundle in
   let lon := b_lon bundle in
   let title := b_guid bundle in
   let guid := b_guid bundle in
   let horizon := fst entry in
   let hdict := snd entry in
   match m_kml hdict with
   | None => raise KeyError
   | Some kml_rel =>
       let kml_abs := path_join (project_root conf) kml_rel in
       let! there := path_exists kml_abs in
       if negb there
       then (* safety guard *)
         let! _ := print ("KML missing -> " ++ kml_abs) in
         ret acc
       else
         let! r := _kml_ring kml_abs in
         ret ((fst acc ++ [plume_feature guid title horizon r])%list,
              (snd acc ++ [meta_feature guid title horizon lat lon hdict])%list)
   end)%M.

Fixpoint fold_m {A B} (step : B -> A -> M B) (acc : B) (xs : list A) : M B :=
  match xs with
  | [] => ret acc
  | x :: xs' => (let! acc' := step acc x in fold_m step acc' xs')%M
  end.

(** One turn of the outer loop, on one bundle file. *)
Definition bundle_step (acc : Layers) (mfp : string) : M Layers :=
  (let! f := read_file mfp in
   match f with
   | FBundle bundle => fold_m (horizon_step bundle) acc (b_horizons bundle)
   | _ => raise KeyError
   end)%M.

Definition _read_plumes_and_meta (day : string) : M Layers :=
  (let! mfps := glob (META_D conf) ("FireMap_" ++ day ++ "_") ".json" in
   fold_m bundle_step ([], []) mfps)%M.

Definition build (day : string) (save : option bool) : M BuildResult :=
  (let save := match save with
               | None => geojson_save_to_disk conf
               | Some b => b
               end in
   let! features := _read_incidents day in
   let! layers := _read_plumes_and_meta day in
   let plumes := fst layers in
   let meta := snd layers in
   let features := ((features ++ plumes) ++ meta)%list in
   let gj := {| fc_title := "FireSmokeMap_" ++ day; fc_features := features |} in
   if save
   then
     let out := path_join (GEOJSON_D conf) ("FireSmokeMap_" ++ day ++ ".geojson") in
     let! _ := write_text out (FGeoJson gj) in
     ret (Saved out)
   else ret (Built gj))%M.

End WithEnv.

End transform_to_geojson.

(* ===================================================================== *)
(** ** backend/api/arcgis_api.py *)
(* ===================================================================== *)

(** A geometry's [__geo_interface__] dict, by its "type". *)
Inductive GeoInterface : Type :=
| GeoPolygon (coordinates : list (list coord))
| GeoMultiPolygon (coordinates : list (list (list coord)))
| GeoOther (type : string).

Record EsriFeature : Type := mkEsriFeature {
  ef_rings : list (list (list float));
  ef_attributes : list (string * jval)
}.

Record EsriJson : Type := mkEsriJson {
  geometryType : string;
  spatialReference_wkid : Z;
  esri_features : list EsriFeature
}.

(** [max(paths)]; [None] on an empty list ([ValueError] in Python). *)
Fixpoint max_path (ps : list string) : option string :=
  match ps with
  | [] => None
  | p :: ps' =>
      match max_path ps' with
      | None => Some p
      | Some q => Some (if String.ltb p q then q else p)
      end
  end.

Module arcgis_api.

(** [[y, x] for x, y in ...]: each point unpacks into exactly two values. *)
Definition swap_xy (pt : coord) : res (list float) :=
  match pt with
  | [x; y] => Ok [y; x]
  | _ => Raise ValueError
  end.

Definition swap_ring (r : list coord) : res (list (list float)) :=
  map_res swap_xy r.

Definition to_esrijson (geo : GeoInterface) : res EsriJson :=
  (let? rings :=
     match geo with
     | GeoPolygon coordinates => map_res swap_ring coordinates
     | GeoMultiPolygon coordinates => map_res swap_ring (concat coordinates)
     | GeoOther _ => Raise ValueError
     end in
   Ok {| geometryType := "esriGeometryPolygon";
         spatialReference_wkid := 4326;
         esri_features := [ {| ef_rings := rings; ef_attributes := [] |} ] |})%res.

Section WithEnv.
Variable env : Env.
Variable conf : FSConfig.

Definition _pick_latest (folder suffix day : string) : M string :=
  if String.eqb day "latest"
  then
    (let! found := glob folder EmptyString suffix in
     match max_path found with
     | Some p => ret p
     | None => raise (HTTPException 404 "No data")
     end)%M
  else if String.eqb suffix ".json"
       then ret (path_join folder ("FireMap_" ++ day ++ suffix))
       else ret (path_join folder (day ++ suffix)).

(** The "coordinates" entry of a fires feature: lon first, then lat. *)
Definition fires_point (link : string) : res (list float) :=
  (let? lon_txt := PyStr.item (PyStr.split "," link) 1 in
   let? lon := float_of env lon_txt in
   let? head := PyStr.item (PyStr.split "," link) 0 in
   let? lat_txt := PyStr.item (PyStr.split "q=" head) 1 in
   let? lat := float_of env lat_txt in
   Ok [lon; lat])%res.

Definition fires_feature (it : Item) : res Feature :=
  (let? point := fires_point (it_link it) in
   Ok {| f_geometry := GjPoint point;
         f_properties := [("title", JStr (it_title it));
                          ("guid", JStr (it_guid it))] |})%res.

(** The [layer == "fires"] branch of the endpoint. *)
Definition layer_fires (day : string) : M (list Feature) :=
  (let! fp := _pick_latest (INGEST_D conf) ".json" day in
   let! f := read_file fp in
   match f with
   | FSnapshot doc => lift (map_res fires_feature (items_of doc))
   | _ => raise KeyError
   end)%M.

End WithEnv.

End arcgis_api.

(* ===================================================================== *)
(** ** Vocabulary of the statements *)
(* ===================================================================== *)

Definition not_space (c : ascii) : bool := negb (PyStr.is_space c).

(** A token of [n] sevens. *)
Definition long_digits (n : nat) : string :=
  string_of_list_ascii (List.repeat "7"%char n).

(** The superscript two (code point 178). *)
Definition superscript_two : ascii := ascii_of_nat 178.

(** A tail that cannot extend the token before it: empty, or led by a blank. *)
Definition token_end (tail : string) : bool :=
  match tail with
  | EmptyString => true
  | String c _ => PyStr.is_space c
  end.

(** The engine's angle for a table angle: 0 becomes 360. *)
Definition remap0 (a : Z) : Z := if a =? 0 then 360 else a.

(** The sixteen angles the resolver can return. *)
Definition compass_angles : list Z :=
  [360; 25; 45; 65; 90; 115; 135; 155; 180; 205; 225; 245; 270; 295; 315; 335].

(** The claim's table: the sixteen compass labels, each with its fixed
    angle. *)
Definition compass_rose : list (string * Z) :=
  [("N", 0); ("NNE", 25); ("NE", 45); ("ENE", 65);
   ("E", 90); ("ESE", 115); ("SE", 135); ("SSE", 155);
   ("S", 180); ("SSW", 205); ("SW", 225); ("WSW", 245);
   ("W", 270); ("WNW", 295); ("NW", 315); ("NNW", 335)].

Fixpoint rose_angle (rose : list (string * Z)) (label : string) : option Z :=
  match rose with
  | [] => None
  | (l, a) :: rest => if String.eqb label l then Some a else rose_angle rest label
  end.

(** The angle the claim gives a label: its angle in the table, the angle of
    "N" for a label outside it, and 360 in place of 0. *)
Definition claimed_angle (label : string) : Z :=
  remap0 (match rose_angle compass_rose label with
          | Some a => a
          | None => 0
          end).

(** [sep] starts at no position of [a] when [a] is followed by [t]. *)
Fixpoint clean (sep a t : string) : bool :=
  match a with
  | EmptyString => true
  | String _ a' => negb (String.prefix sep (a ++ t)) && clean sep a' t
  end.

(** [sep] occurs somewhere in [s]. *)
Fixpoint occurs (sep s : string) : bool :=
  String.prefix sep s ||
  match s with
  | EmptyString => false
  | String _ s' => occurs sep s'
  end.

Definition has_char (c : ascii) (s : string) : bool :=
  negb (PyStr.all_chars (fun x => negb (Ascii.eqb x c)) s).

Abbreviation comma := (","%char) (only parsing).

Definition leads (c : ascii) (t : string) : bool :=
  match t with
  | String x _ => Ascii.eqb x c
  | EmptyString => false
  end.

Definition res_map {A B} (f : A -> B) (r : res A) : res B :=
  match r with
  | Ok a => Ok (f a)
  | Raise e => Raise e
  end.

(** A link with exactly one "q=" marker, no comma before it and exactly one
    comma after it, between [lat] and [lon]. *)
Definition plain_link (link pre lat lon : string) : Prop :=
  link = pre ++ "q=" ++ lat ++ "," ++ lon
  /\ has_char comma pre = false
  /\ has_char comma lat = false
  /\ has_char comma lon = false
  /\ occurs "q=" pre = false
  /\ occurs "q=" lat = false
  /\ occurs "q=" lon = false.

(** An incident with the given link. *)
Definition item_with_link (link : string) : Item :=
  {| it_guid := "A1"; it_title := "fire"; it_description := None;
     it_pubDate := None; it_link := link |}.

(** An item whose link has a comma before the marker. *)
Definition comma_link : Item :=
  {| it_guid := "A1"; it_title := "fire"; it_description := None;
     it_pubDate := None; it_link := "a,b?q=1,2" |}.

(** A point given as a pair, in the two axis orders. *)
Definition point_xy (p : float * float) : coord := [fst p; snd p].
Definition point_yx (p : float * float) : list float := [snd p; fst p].

(** The EsriJSON document around a ring list. *)
Definition esri_of (rings : list (list (list float))) : EsriJson :=
  {| geometryType := "esriGeometryPolygon";
     spatialReference_wkid := 4326;
     esri_features := [ {| ef_rings := rings; ef_attributes := [] |} ] |}.

Definition is_fetch (e : event) : bool :=
  match e with Fetched => true | _ => false end.

(** The fetch-count spy. *)
Definition fetches (w : World) : nat := List.length (List.filter is_fetch (trace w)).

(** [run] once the day is known. *)
Definition run_on (env : Env) (conf : FSConfig) (d : string) (w : World)
  : res string * World :=
  let out := fire_ingester._target conf d in
  if bool_decide (is_Some (files w !! out)) && negb (String.eqb d (today w))
  then (Ok out, w)
  else
    match fetch_rss env (ticks w) with
    | Ok doc =>
        (Ok out,
         mkWorld (<[out := FSnapshot doc]> (files w)) (today w) (S (ticks w))
                 (Wrote out (FSnapshot doc) :: Fetched :: trace w))
    | Raise e =>
        (Raise e, mkWorld (files w) (today w) (S (ticks w)) (Fetched :: trace w))
    end.

Definition bundle_of_event (e : event) : list (string * Bundle) :=
  match e with
  | Wrote p (FBundle b) => [(p, b)]
  | _ => []
  end.

(** The bundle writes of a stretch of trace, most recent first. *)
Definition bundle_writes (evs : list event) : list (string * Bundle) :=
  flat_map bundle_of_event evs.

(** The descriptor path of horizon [tag] of incident [guid]. *)
Definition input_path (conf : FSConfig) (date guid tag : string) : string :=
  path_join (META_D conf) ((date ++ "_" ++ guid ++ "_" ++ tag) ++ ".json").

(** A stretch of execution that wrote no bundle and left the date alone. *)
Definition quiet (w w' : World) : Prop :=
  today w' = today w
  /\ exists evs, trace w' = (evs ++ trace w)%list /\ bundle_writes evs = [].

(** A bundle that holds all three horizon results. *)
Definition complete3 (b : Bundle) : Prop :=
  map fst (b_horizons b) = ["0.5h"; "1.5h"; "2.5h"]
  /\ Forall (fun h => is_Some (m_kml (snd h))) (b_horizons b).

(** Both processes of the [k]-th horizon (tag [tag]) of an incident whose
    processing starts in [w] exit with code 0. *)
Definition engine_ok (env : Env) (conf : FSConfig) (w : World)
           (guid : string) (k : nat) (tag : string) : Prop :=
  fst (solver env (ticks w + 3 * k + 1)%nat) = 0
  /\ fst (fst (converter env (ticks w + 3 * k + 2)%nat
                         (input_path conf (today w) guid tag))) = 0.

(** The order in which the [while queue:] loop visits the features. *)
Equations? bfs_order (queue : list feature) : list feature
  by wf (forest_size queue) lt :=
  bfs_order [] := [];
  bfs_order (feat :: queue) := feat :: bfs_order (queue ++ children feat).
Proof.
  unfold forest_size. rewrite map_app, list_sum_app.
  destruct feat; simpl. unfold forest_size. lia.
Qed.

(** First outcome that is an exception or a ring, scanning from the left. *)
Fixpoint first_hit (rs : list (res (option ring))) : res (option ring) :=
  match rs with
  | [] => Ok None
  | Raise e :: _ => Raise e
  | Ok (Some r) :: _ => Ok (Some r)
  | Ok None :: rs' => first_hit rs'
  end.

(** A geometry without any polygon in it. *)
Fixpoint polygon_free (g : geom) : bool :=
  match g with
  | Polygon _ _ => false
  | MultiPolygon _ => false
  | GeometryCollection gs => forallb polygon_free gs
  | OtherGeom _ => true
  end.

Definition feature_polygon_free (f : feature) : bool :=
  match geometry_of f with
  | Some g => polygon_free g
  | None => true
  end.

(** First member outcome that is an exception or a non-empty ring. *)
Fixpoint first_member (rs : list (res (option ring))) : res (option ring) :=
  match rs with
  | [] => Ok None
  | Raise e :: _ => Raise e
  | Ok r :: rs' => if ring_truthy r then Ok r else first_member rs'
  end.

(** What a token "x,y" or "x,y,..." parses to. *)
Definition pair_of (env : Env) (x y : string) : res coord :=
  (let? a := float_of env x in
   let? b := float_of env y in
   Ok [a; b])%res.

Definition layers_app (a b : transform_to_geojson.Layers) : transform_to_geojson.Layers :=
  ((fst a ++ fst b)%list, (snd a ++ snd b)%list).

Section FusionSpec.
Variable env : Env.
Variable conf : FSConfig.
Variable fs : gmap string File.

(** Where the artifact of a horizon entry is looked for. *)
Definition kml_abs_of (hdict : Meta) : option string :=
  match m_kml hdict with
  | Some kml_rel => Some (path_join (project_root conf) kml_rel)
  | None => None
  end.

(** The artifact of a horizon entry is on disk. *)
Definition present (entry : string * Meta) : bool :=
  match kml_abs_of (snd entry) with
  | Some p => bool_decide (is_Some (fs !! p))
  | None => false
  end.

Definition meta_of (b : Bundle) (entry : string * Meta) : Feature :=
  transform_to_geojson.meta_feature (b_guid b) (b_guid b) (fst entry) (b_lat b) (b_lon b) (snd entry).

(** What one [(label, hdict)] of bundle [b] adds to the two lists. *)
Definition pair_out (b : Bundle) (entry : string * Meta) : res transform_to_geojson.Layers :=
  match m_kml (snd entry) with
  | None => Raise KeyError
  | Some kml_rel =>
      match fs !! path_join (project_root conf) kml_rel with
      | None => Ok ([], [])
      | Some (FKml k) =>
          (let? r := transform_to_geojson.kml_ring_of env k in
           Ok ([transform_to_geojson.plume_feature (b_guid b) (b_guid b) (fst entry) r],
               [meta_of b entry]))%res
      | Some _ => Raise ValueError
      end
  end.

Fixpoint fold_res {A B} (step : B -> A -> res B) (acc : B) (xs : list A) : res B :=
  match xs with
  | [] => Ok acc
  | x :: xs' => (let? acc' := step acc x in fold_res step acc' xs')%res
  end.

Definition pair_step (b : Bundle) (acc : transform_to_geojson.Layers) (entry : string * Meta) : res transform_to_geojson.Layers :=
  (let? o := pair_out b entry in Ok (layers_app acc o))%res.

Definition bundle_out (acc : transform_to_geojson.Layers) (mfp : string) : res transform_to_geojson.Layers :=
  match fs !! mfp with
  | Some (FBundle b) => fold_res (pair_step b) acc (b_horizons b)
  | Some _ => Raise KeyError
  | None => Raise FileNotFoundError
  end.

(** The two lists as a function of the files alone. *)
Definition fusion_out (mfps : list string) : res transform_to_geojson.Layers :=
  fold_res bundle_out ([], []) mfps.

End FusionSpec.

Definition glob_list (dir pre suf : string) (fs : gmap string File) : list string :=
  List.filter (in_dir_matching dir pre suf) (map fst (map_to_list fs)).

Definition bundle_files (conf : FSConfig) (day : string) (fs : gmap string File)
  : list string :=
  glob_list (META_D conf) ("FireMap_" ++ day ++ "_") ".json" fs.

(** The [(bundle, entry)] pairs read from a list of bundle files, in order. *)
Definition pairs_read (fs : gmap string File) (mfps : list string)
  : list (Bundle * (string * Meta)) :=
  flat_map (fun p => match fs !! p with
                     | Some (FBundle b) => map (pair b) (b_horizons b)
                     | _ => []
                     end) mfps.

(** Those of them whose artifact is on disk. *)
Definition present_pairs (conf : FSConfig) (fs : gmap string File)
           (mfps : list string) : list (Bundle * (string * Meta)) :=
  List.filter (fun be => present conf fs (snd be)) (pairs_read fs mfps).

Definition meta_of_pair (be : Bundle * (string * Meta)) : Feature :=
  meta_of (fst be) (snd be).

(** [f] is the plume feature of the pair [be]: its ring is what the extractor
    returns on the pair's artifact. *)
Definition plume_of_pair (env : Env) (conf : FSConfig) (fs : gmap string File)
           (be : Bundle * (string * Meta)) (f : Feature) : Prop :=
  exists p k r,
    kml_abs_of conf (snd (snd be)) = Some p
    /\ fs !! p = Some (FKml k)
    /\ transform_to_geojson.kml_ring_of env k = Ok r
    /\ f = transform_to_geojson.plume_feature (b_guid (fst be)) (b_guid (fst be)) (fst (snd be)) r.

(** ** Concrete instances used by the examples *)

Definition digit_float (c : ascii) : float :=
  match PyStr.digit_val c with
  | 1 => 1 | 2 => 2 | 3 => 3 | 4 => 4 | 5 => 5
  | 6 => 6 | 7 => 7 | 8 => 8 | 9 => 9 | _ => 0
  end%float.

Fixpoint digits_float (acc : float) (s : string) : float :=
  match s with
  | EmptyString => acc
  | String c s' => digits_float (acc * 10 + digit_float c)%float s'
  end.

Fixpoint pow10 (n : nat) : float :=
  match n with
  | O => 1%float
  | S n' => (10 * pow10 n')%float
  end.

(** A reader of plain decimal literals ([-]digits[.digits]), standing in for
    [float] on the concrete inputs of the examples. *)
Definition decimal_float (s : string) : option float :=
  let negative := String.prefix "-" s in
  let body := if negative then String.substring 1 (String.length s - 1) s else s in
  let signed (f : float) := if negative then (- f)%float else f in
  match PyStr.split "." body with
  | [i] => if PyStr.isdecimal i then Some (signed (digits_float 0 i)) else None
  | [i; f] =>
      if PyStr.isdecimal i && PyStr.isdecimal f
      then Some (signed (digits_float 0 (i ++ f) / pow10 (String.length f))%float)
      else None
  | _ => None
  end.

(** A geometry counts as true when it has coordinates. *)
Fixpoint geom_nonempty (g : geom) : bool :=
  match g with
  | Polygon exterior _ => negb (bool_decide (exterior = []))
  | MultiPolygon polys => existsb (fun p => negb (bool_decide (fst p = []))) polys
  | GeometryCollection geoms => existsb geom_nonempty geoms
  | OtherGeom _ => true
  end.

Definition demo_item : Item :=
  {| it_guid := "A1"; it_title := "Brush fire";
     it_description := Some "grass"; it_pubDate := None;
     it_link := "http://maps.google.com/?q=30.30,-97.73" |}.

Definition demo_feed : Feed := {| rss_channel_item := OneItem demo_item |}.

Definition demo_ring : ring := [[0; 0]; [0; 1]; [1; 1]; [0; 0]]%float.

(** A KML 2.0 document, as the legacy converter writes it: one placemark
    whose collection holds one polygon; its ring text carries altitudes. *)
Definition demo_kml : KmlDoc :=
  {| kml_features :=
       [KmlFeature None
          [KmlFeature (Some (GeometryCollection [Polygon demo_ring []])) []]];
     kml_coordinates := Some "0,0,0 0,1,0 1,1,0 0,0,0" |}.

(** The same placemark in a KML 2.2 document: the fallback's search, which
    looks in the 2.0 namespace, finds no ring text there. *)
Definition kml22_polygon : KmlDoc :=
  {| kml_features :=
       [KmlFeature None
          [KmlFeature (Some (GeometryCollection [Polygon demo_ring []])) []]];
     kml_coordinates := None |}.

(** A document without any polygon or ring text. *)
Definition ringless_kml : KmlDoc :=
  {| kml_features := [KmlFeature None [KmlFeature (Some (OtherGeom "Point")) []]];
     kml_coordinates := None |}.

(** Every collaborator answers; both processes exit with 0. *)
Definition demo_env : Env :=
  {| fastkml_api := Fastkml1;
     pyfloat := decimal_float;
     strptime_date := fun s => Some s;
     fetch_rss := fun _ => Ok demo_feed;
     get_hourly_wx := fun _ _ _ => Ok {| windSpeed := "4 mph"; windDirection := "S" |};
     solver := fun _ => (0, "done");
     converter := fun _ _ => (0, "done", Some demo_kml);
     geom_truthy := geom_nonempty |}.

(** As [demo_env], with fastkml 0.x. *)
Definition legacy_env : Env :=
  {| fastkml_api := Fastkml0;
     pyfloat := decimal_float;
     strptime_date := fun s => Some s;
     fetch_rss := fun _ => Ok demo_feed;
     get_hourly_wx := fun _ _ _ => Ok {| windSpeed := "4 mph"; windDirection := "S" |};
     solver := fun _ => (0, "done");
     converter := fun _ _ => (0, "done", Some demo_kml);
     geom_truthy := geom_nonempty |}.

(** As [demo_env], but the solver of the second horizon exits with 1. *)
Definition failing_env : Env :=
  {| fastkml_api := Fastkml1;
     pyfloat := decimal_float;
     strptime_date := fun s => Some s;
     fetch_rss := fun _ => Ok demo_feed;
     get_hourly_wx := fun _ _ _ => Ok {| windSpeed := "4 mph"; windDirection := "S" |};
     solver := fun t => if (t =? 4)%nat then (1, "U < 0.1 mph") else (0, "done");
     converter := fun _ _ => (0, "done", Some demo_kml);
     geom_truthy := geom_nonempty |}.

Definition demo_conf : FSConfig :=
  {| project_root := "/srv/fs";
     data_dir := "/srv/fs/data";
     ingest_output_subdir := "ingest";
     vsmoke_output_subdir := "plumes";
     vsmoke_meta_subdir := "meta";
     geojson_output_subdir := "geojson";
     geojson_save_to_disk := false;
     vsmoke_acres_default := JInt 10;
     vsmoke_mix_height_ft := JInt 1500;
     vsmoke_stability_class := JInt 4;
     vsmoke_plume_rise_fraction := JFloat (-0.75) |}.

Definition demo_snapshot_path : string := "/srv/fs/data/ingest/FireMap_2025-05-11.json".
Definition demo_bundle_path : string := "/srv/fs/data/meta/FireMap_2025-05-11_A1.json".
Definition demo_kml_path : string := "/srv/fs/data/plumes/2025-05-11_A1_1.kml".

Definition demo_hdict : Meta :=
  {| m_stem := "2025-05-11_A1_1"; m_guid := "A1";
     m_lat := 30.30; m_lon := (-97.73);
     m_acres := JInt 10; m_mix := JInt 1500; m_stclass := JInt 4;
     m_frise := JFloat (-0.75); m_horizon_min := JInt 30;
     m_erate := JFloat 4.77; m_hrate := JFloat 5.18;
     m_name := "2025-05-11_A1_1"; m_wspd := 4; m_wdir := 180;
     m_kml := Some "data/plumes/2025-05-11_A1_1.kml" |}.

(** A bundle with a single horizon entry. *)
Definition demo_bundle : Bundle :=
  {| b_guid := "A1"; b_lat := 30.30; b_lon := (-97.73);
     b_horizons := [("0.5h", demo_hdict)] |}.

Definition world_of (day : string) (fs : list (string * File)) : World :=
  {| files := list_to_map fs; today := day; ticks := 0; trace := [] |}.

(** A day after the snapshot, the bundle and its artifact were written; the
    artifact holds a polygon. *)
Definition plume_world : World :=
  world_of "2025-05-12"
    [(demo_snapshot_path, FSnapshot demo_feed);
     (demo_bundle_path, FBundle demo_bundle);
     (demo_kml_path, FKml demo_kml)].

(** The same, but the artifact holds no ring. *)
Definition ringless_world : World :=
  world_of "2025-05-12"
    [(demo_snapshot_path, FSnapshot demo_feed);
     (demo_bundle_path, FBundle demo_bundle);
     (demo_kml_path, FKml ringless_kml)].

(** The same, but the artifact is not on disk. *)
Definition missing_world : World :=
  world_of "2025-05-12"
    [(demo_snapshot_path, FSnapshot demo_feed);
     (demo_bundle_path, FBundle demo_bundle)].

(** The morning of the day, with only the snapshot on disk. *)
Definition fresh_world : World :=
  world_of "2025-05-11" [(demo_snapshot_path, FSnapshot demo_feed)].

Definition no_layers : transform_to_geojson.Layers := ([], []).

(** What fusion reads from [plume_world]. *)
Definition plume_world_layers : transform_to_geojson.Layers :=
  ([transform_to_geojson.plume_feature "A1" "A1" "0.5h" (Some demo_ring)],
   [meta_of_pair (demo_bundle, ("0.5h", demo_hdict))]).

(** The collection fusion builds from [plume_world]. *)
Definition plume_world_collection : FeatureCollection :=
  {| fc_title := "FireSmokeMap_2025-05-11";
     fc_features :=
       [ {| f_geometry := GjPoint [-97.73; 30.30]%float;
            f_properties :=
              [("layer", JStr "incidents"); ("guid", JStr "A1");
               ("title", JStr "Brush fire"); ("description", JStr "grass");
               ("pubDate", JStr "")] |};
         transform_to_geojson.plume_feature "A1" "A1" "0.5h" (Some demo_ring);
         meta_of_pair (demo_bundle, ("0.5h", demo_hdict)) ] |}.

(** The feature carries the layer tag [l]. *)
Definition layer_is (l : string) (f : Feature) : Prop :=
  prop_get "layer" (f_properties f) = Some (JStr l).

(** The collection a call of [build] produced: returned, or written to the
    day's file. *)
Definition produced (r : BuildResult) (w' : World) (gj : FeatureCollection) : Prop :=
  r = Built gj
  \/ exists out, r = Saved out /\ files w' !! out = Some (FGeoJson gj).

(** The paths written during a stretch of trace, oldest first. *)
Definition written_paths (evs : list event) : list string :=
  flat_map (fun e => match e with Wrote p _ => [p] | _ => [] end) (rev evs).

(** An entry the reader gets through: its "kml" key is set, and its artifact
    is either absent or a KML on which extraction returns. *)
Definition readable (env : Env) (conf : FSConfig) (fs : gmap string File)
           (entry : string * Meta) : Prop :=
  exists kml_rel,
    m_kml (snd entry) = Some kml_rel
    /\ (fs !! path_join (project_root conf) kml_rel = None
        \/ exists k r, fs !! path_join (project_root conf) kml_rel = Some (FKml k)
                       /\ transform_to_geojson.kml_ring_of env k = Ok r).

(** ** Further instances and vocabulary *)

(** Every point of every ring has exactly two components. *)
Definition all_pairs (rings : list (list coord)) : bool :=
  forallb (forallb (fun p : coord => (List.length p =? 2)%nat)) rings.

(** As [demo_env], but the feed cannot be fetched. *)
Definition offline_env : Env :=
  {| fastkml_api := Fastkml1;
     pyfloat := decimal_float;
     strptime_date := fun s => if PyStr.isdigit (String.substring 0 4 s) then Some s else None;
     fetch_rss := fun _ => Raise (RuntimeError "503 Server Error");
     get_hourly_wx := fun _ _ _ => Raise (RuntimeError "NWS Points API error 503: ");
     solver := fun _ => (0, "done");
     converter := fun _ _ => (0, "done", None);
     geom_truthy := geom_nonempty |}.

(** The descriptor [_single_horizon] writes before it starts the engine. *)
Definition descriptor (conf : FSConfig) (date guid : string) (lat lon : float)
           (tag : string) (minutes_ahead wspd wdir : Z) : Meta :=
  {| m_stem := date ++ "_" ++ guid ++ "_" ++ tag;
     m_guid := guid; m_lat := lat; m_lon := lon;
     m_acres := vsmoke_acres_default conf;
     m_mix := vsmoke_mix_height_ft conf;
     m_stclass := vsmoke_stability_class conf;
     m_frise := vsmoke_plume_rise_fraction conf;
     m_horizon_min := JInt minutes_ahead;
     m_erate := JFloat 4.77;
     m_hrate := JFloat 5.18;
     m_name := date ++ "_" ++ guid ++ "_" ++ tag;
     m_wspd := wspd; m_wdir := wdir;
     m_kml := None |}.

(** [_wx_block] on the answer of the forecast lookup. *)
Definition smoke_simulator_wx (r : res WxObs) : res WxBlock :=
  (let? wx := r in
   let? wspd := smoke_simulator.wspd_of (windSpeed wx) in
   let? wdir := smoke_simulator.wdir_of (windDirection wx) in
   Ok (mkWxBlock wspd wdir))%res.

(** [meta[kml] = rel]. *)
Definition with_kml (m : Meta) (rel : string) : Meta :=
  {| m_stem := m_stem m; m_guid := m_guid m; m_lat := m_lat m; m_lon := m_lon m;
     m_acres := m_acres m; m_mix := m_mix m; m_stclass := m_stclass m;
     m_frise := m_frise m; m_horizon_min := m_horizon_min m;
     m_erate := m_erate m; m_hrate := m_hrate m; m_name := m_name m;
     m_wspd := m_wspd m; m_wdir := m_wdir m; m_kml := Some rel |}.

(** A second incident, and a snapshot holding both. *)
Definition second_item : Item :=
  {| it_guid := "B2"; it_title := "Grass fire";
     it_description := None; it_pubDate := None;
     it_link := "http://maps.google.com/?q=30.41,-97.60" |}.

Definition two_feed : Feed := {| rss_channel_item := ItemList [demo_item; second_item] |}.

Definition two_world : World :=
  world_of "2025-05-11" [(demo_snapshot_path, FSnapshot two_feed)].

(** The same two incidents in the other order. *)
Definition swapped_feed : Feed := {| rss_channel_item := ItemList [second_item; demo_item] |}.

Definition swapped_world : World :=
  world_of "2025-05-11" [(demo_snapshot_path, FSnapshot swapped_feed)].

(** The world after the simulator has run over the day's snapshot. *)
Definition simulated (w : World) : World :=
  snd (smoke_simulator.process_firemap demo_env demo_conf demo_snapshot_path w).

(** The incident ids of the features tagged [l], in the order of the list. *)
Definition layer_guids (l : string) (fs : list Feature) : list (option jval) :=
  map (fun f => prop_get "guid" (f_properties f))
      (List.filter (fun f => match prop_get "layer" (f_properties f) with
                             | Some (JStr x) => String.eqb x l
                             | _ => false
                             end) fs).


(* ===================================================================== *)
(** ** backend/api/data_api.py *)
(* ===================================================================== *)

(** [json.loads(fp.read_text())]: a KML artifact is no JSON text. *)
Definition json_loads (f : File) : res File :=
  match f with
  | FKml _ => Raise ValueError
  | _ => Ok f
  end.

Module data_api.

Section WithEnv.
Variable conf : FSConfig.



Definition meta (day guid : string) : M File :=
  (let js := path_join (META_D conf) ("FireMap_" ++ day ++ "_" ++ guid ++ ".json") in
   let! there := path_exists js in
   if negb there
   then raise (HTTPException 404 "Metadata not found")
   else
     let! f := read_file js in
     lift (json_loads f))%M.

End WithEnv.

End data_api.


(** The name has no directory separator and no dot, as a date or an
    incident id has none. *)
Definition plain_name (s : string) : bool :=
  negb (has_char "/" s) && negb (has_char "." s).

(** The text has none of the characters that are special in a glob pattern,
    so that inside a pattern it stands for itself. *)
Definition glob_literal (s : string) : bool :=
  negb (has_char "*" s) && negb (has_char "?" s) && negb (has_char "[" s).

(* ===================================================================== *)
(** ** backend/ingest/weather.py *)
(* ===================================================================== *)

(** One entry of the hourly forecast.  [p_startTime] is the instant
    [datetime.fromisoformat(p["startTime"])] denotes, as seconds, or the
    exception that parsing or comparing it raises. *)
Record Period : Type := mkPeriod {
  p_startTime : res Z;
  p_windSpeed : string;
  p_windDirection : string
}.

(** The service as the module sees it: the answer of the points lookup (the
    hourly forecast's URL, when the payload has one), the periods behind a
    URL, and the clock.  A failed request is a [RuntimeError]. *)
Record Nws : Type := mkNws {
  points : float -> float -> res (option string);
  hourly : string -> res (list Period);
  utcnow : Z
}.

Module weather.

(** The first forecast not in the past, scanning in order. *)
Fixpoint first_current (now : Z) (periods : list Period) : res (option Period) :=
  match periods with
  | [] => Ok None
  | p :: rest =>
      (let? start := p_startTime p in
       if now <=? start then Ok (Some p) else first_current now rest)%res
  end.

(** The labels the fallback accepts (the tuple written out in the test
    [wind_dir not in (...)]). *)
Definition wind_dirs : list string :=
  PyStr.split_ws "N NNE NE ENE E ESE SE SSE S SSW SW WSW W WNW NW NNW".

(** The fallback's normalisation of the last entry. *)
Definition normalise (p : Period) : res WxObs :=
  (let? speed_txt := PyStr.item (PyStr.split_ws (p_windSpeed p)) 0 in
   let wind_speed := if PyStr.isdigit speed_txt then speed_txt ++ " mph" else "0 mph" in
   let wind_dir :=
     if negb (PyStr.contains wind_dirs (p_windDirection p))
     then "N" else p_windDirection p in
   Ok {| windSpeed := wind_speed; windDirection := wind_dir |})%res.

Definition get_hourly_wx (nws : Nws) (lat lon : float) : res WxObs :=
  (* 1) Resolve the forecast office + gridpoint *)
  (let? meta := points nws lat lon in
   match meta with
   | None => Ok {| windSpeed := "0 mph"; windDirection := "N" |}
   | Some hourly_url =>
       (* 2) Pull the hourly forecast *)
       let? periods := hourly nws hourly_url in
       match periods with
       | [] => Raise (RuntimeError "Empty hourly forecast from NWS")
       | first :: _ =>
           (* 3) Find the first forecast not in the past *)
           let? hit := first_current (utcnow nws) periods in
           match hit with
           | Some p => Ok {| windSpeed := p_windSpeed p;
                             windDirection := p_windDirection p |}
           | None =>
               (* Fallback: the last item, normalised *)
               normalise (List.last periods first)
           end
       end
   end)%res.

End weather.

(** The entry as the loop returns it, unnormalised. *)
Definition raw_wx (p : Period) : WxObs :=
  {| windSpeed := p_windSpeed p; windDirection := p_windDirection p |}.

(** The entry starts before [now]. *)
Definition in_the_past (now : Z) (p : Period) : Prop :=
  exists t, p_startTime p = Ok t /\ t < now.

Definition stale_period : Period :=
  {| p_startTime := Ok 100; p_windSpeed := "12 mph"; p_windDirection := "Calm" |}.

Definition current_period : Period :=
  {| p_startTime := Ok 300; p_windSpeed := "Calm"; p_windDirection := "SW" |}.

Definition demo_nws (periods : list Period) : Nws :=
  {| points := fun _ _ => Ok (Some "https://api.weather.gov/gridpoints/EWX/1,2/forecast/hourly");
     hourly := fun _ => Ok periods;
     utcnow := 200 |}.

(* ===================================================================== *)
(** * Properties *)
(* ===================================================================== *)

(** ** Checks of the primitives on concrete inputs *)

Example split_ws_mph : PyStr.split_ws "4 mph" = ["4"; "mph"].
Proof. reflexivity. Qed.

Example split_ws_blank : PyStr.split_ws "  " = [].
Proof. reflexivity. Qed.

Example split_q : PyStr.split "q=" "http://maps/?q=30.30,-97.73" = ["http://maps/?"; "30.30,-97.73"].
Proof. reflexivity. Qed.

Example split_comma : PyStr.split "," "a,,b," = ["a"; ""; "b"; ""].
Proof. reflexivity. Qed.

Example split_overlap : PyStr.split "aa" "aaa" = [""; "a"].
Proof. reflexivity. Qed.

Example stem_firemap : PyPath.stem "/srv/data/ingest/FireMap_2025-05-11.json" = "FireMap_2025-05-11".
Proof. reflexivity. Qed.

Example stem_hidden : PyPath.stem "/srv/.json" = ".json".
Proof. reflexivity. Qed.

Example wx_scenario :
  (smoke_simulator.wspd_of "4 mph", smoke_simulator.wdir_of "S") = (Ok 4, Ok 180).
Proof. reflexivity. Qed.

Example wx_calm :
  (smoke_simulator.wspd_of "Calm", smoke_simulator.wdir_of "Calm") = (Ok 1, Ok 360).
Proof. reflexivity. Qed.

Example esri_scenario :
  arcgis_api.to_esrijson
    (GeoPolygon [[[0; 0]; [0; 1]; [1; 1]; [0; 0]]])%float
  = Ok {| geometryType := "esriGeometryPolygon";
          spatialReference_wkid := 4326;
          esri_features :=
            [ {| ef_rings := [[[0; 0]; [1; 0]; [1; 1]; [0; 0]]]%float;
                 ef_attributes := [] |} ] |}.
Proof. reflexivity. Qed.

(** ** Strings *)

Lemma app_cons a s t : String a s ++ t = String a (s ++ t).
Proof. reflexivity. Qed.

Lemma app_nil_l s : "" ++ s = s.
Proof. reflexivity. Qed.

Lemma app_empty_r s : s ++ "" = s.
Proof. induction s as [|a s IH]; [reflexivity | now rewrite app_cons, IH]. Qed.

Lemma app_assoc_s (a b c : string) : (a ++ b) ++ c = a ++ b ++ c.
Proof. induction a as [|x a IH]; [reflexivity | now rewrite !app_cons, IH]. Qed.

Lemma snoc_app cur c s : PyStr.snoc cur c ++ s = cur ++ String c s.
Proof.
  unfold PyStr.snoc. induction cur as [|a cur IH]; [reflexivity|].
  rewrite !app_cons. now rewrite IH.
Qed.

Lemma is_empty_app_char cur c s : PyStr.is_empty (cur ++ String c s) = false.
Proof. destruct cur; reflexivity. Qed.

Lemma split_ws_from_token raw : forall cur tail,
  PyStr.all_chars not_space raw = true ->
  token_end tail = true ->
  PyStr.is_empty (cur ++ raw) = false ->
  PyStr.split_ws_from cur (raw ++ tail) = (cur ++ raw) :: PyStr.split_ws tail.
Proof.
  induction raw as [|c raw IH]; intros cur tail Hraw Hend Hne.
  - rewrite app_nil_l. rewrite app_empty_r in *. destruct tail as [|b tail]; simpl.
    + now rewrite Hne.
    + simpl in Hend. rewrite Hend, Hne. unfold PyStr.split_ws. simpl.
      now rewrite Hend.
  - simpl in Hraw. apply andb_true_iff in Hraw as [Hc Hraw].
    unfold not_space in Hc. apply negb_true_iff in Hc.
    rewrite app_cons. simpl. rewrite Hc. rewrite IH; auto.
    + now rewrite snoc_app.
    + rewrite snoc_app. apply is_empty_app_char.
Qed.

Lemma split_ws_from_pad pad : forall s,
  PyStr.all_chars PyStr.is_space pad = true ->
  PyStr.split_ws_from "" (pad ++ s) = PyStr.split_ws_from "" s.
Proof.
  induction pad as [|c pad IH]; intros s Hpad; [reflexivity|].
  simpl in Hpad. apply andb_true_iff in Hpad as [Hc Hpad].
  rewrite app_cons. simpl. rewrite Hc. auto.
Qed.

(** The first token of a text: what follows the leading blanks, up to the
    next blank. *)
Lemma split_ws_leading pad raw tail :
  PyStr.all_chars PyStr.is_space pad = true ->
  PyStr.is_empty raw = false ->
  PyStr.all_chars not_space raw = true ->
  token_end tail = true ->
  PyStr.split_ws (pad ++ raw ++ tail) = raw :: PyStr.split_ws tail.
Proof.
  intros Hpad Hne Hraw Hend. unfold PyStr.split_ws.
  rewrite split_ws_from_pad by assumption.
  now rewrite split_ws_from_token.
Qed.

Lemma contains_In xs x : PyStr.contains xs x = true -> In x xs.
Proof.
  unfold PyStr.contains. rewrite existsb_exists.
  intros [y [Hy Heq]]. apply String.eqb_eq in Heq. subst. exact Hy.
Qed.

Lemma nth_error_contains xs i d :
  nth_error xs i = Some d -> PyStr.contains xs d = true.
Proof.
  intros H. unfold PyStr.contains. apply existsb_exists.
  exists d. split; [eapply nth_error_In; eauto | apply String.eqb_refl].
Qed.

(** ** Wind normalisation *)

(** C6, as stated, fails in three ways.  On a text without any token,
    [windSpeed.split()[0]] has no element to take: [IndexError].  On a
    leading token of 4301 decimal digits, [isdigit] holds and [int] refuses
    the literal as too long: [ValueError].  On the token made of the
    superscript two (code point 178), [isdigit] holds and [int] finds no decimal digit: [ValueError].
    In none of them the resolver returns a speed. *)
Lemma wspd_of_raises :
  smoke_simulator.wspd_of "" = Raise IndexError
  /\ smoke_simulator.wspd_of (long_digits 4301 ++ " mph") = Raise ValueError
  /\ smoke_simulator.wspd_of (String superscript_two " mph") = Raise ValueError
  /\ PyStr.isdigit (long_digits 4301) = true
  /\ PyStr.isdigit (String superscript_two "") = true.
Proof. vm_compute. repeat split. Qed.

Lemma isdigit_int raw :
  PyStr.isdecimal raw = true ->
  (String.length raw <= PyStr.max_str_digits)%nat ->
  PyStr.int raw = Ok (PyStr.int_of_digits raw).
Proof.
  intros Hd Hl. unfold PyStr.int. rewrite Hd.
  apply Nat.leb_le in Hl. now rewrite Hl.
Qed.

(** C6 (amended): for every wind observation text that holds at least one
    whitespace-separated token -- leading blanks [pad], then the token [raw],
    then nothing or a blank -- and whose leading token, when it consists of
    digit characters only, consists of at most 4300 decimal digits, the
    normalised speed is an integer that is at least 1: the leading token is
    taken, a token that is not all digits yields 0, and a value below 1 is
    clamped up to 1. *)
Theorem wspd_of_leading_token (pad raw tail : string) :
  PyStr.all_chars PyStr.is_space pad = true ->
  PyStr.is_empty raw = false ->
  PyStr.all_chars not_space raw = true ->
  token_end tail = true ->
  (PyStr.isdigit raw = true ->
   PyStr.isdecimal raw = true /\ (String.length raw <= 4300)%nat) ->
  exists n,
    smoke_simulator.wspd_of (pad ++ raw ++ tail) = Ok n
    /\ 1 <= n
    /\ n = Z.max 1 (if PyStr.isdigit raw then PyStr.int_of_digits raw else 0)
    /\ (PyStr.isdigit raw = false -> n = 1).
Proof.
  intros Hpad Hne Hraw Hend Hint. unfold smoke_simulator.wspd_of.
  rewrite (split_ws_leading pad raw tail Hpad Hne Hraw Hend).
  cbn [PyStr.item nth_error res_bind].
  destruct (PyStr.isdigit raw).
  - destruct (Hint eq_refl) as [Hd Hl]. rewrite (isdigit_int raw Hd Hl).
    cbn [res_bind]. eexists. split; [reflexivity|].
    destruct (Z.ltb_spec (PyStr.int_of_digits raw) 1);
      repeat split; try lia; intros; discriminate.
  - cbn [res_bind]. exists 1. repeat split; lia.
Qed.

Lemma wspd_of_leading_token_witness :
  exists n,
    smoke_simulator.wspd_of (" " ++ "4" ++ " mph") = Ok n
    /\ 1 <= n
    /\ n = Z.max 1 (if PyStr.isdigit "4" then PyStr.int_of_digits "4" else 0)
    /\ (PyStr.isdigit "4" = false -> n = 1).
Proof.
  apply (wspd_of_leading_token " " "4" " mph"); try reflexivity.
  intros _. split; [reflexivity|]. simpl. lia.
Defined.

Lemma rose_angle_outside rose label :
  PyStr.contains (map fst rose) label = false -> rose_angle rose label = None.
Proof.
  unfold PyStr.contains. induction rose as [|[l a] rose IH]; [reflexivity|].
  simpl. intros H. apply orb_false_iff in H as [Hl Hrest].
  rewrite Hl. now apply IH.
Qed.

(** C7: for every wind-direction label the resolved angle is one of the
    sixteen fixed angles with 0 remapped to 360: each of the sixteen compass
    labels maps to its fixed angle (N 360, NNE 25, NE 45, ENE 65, E 90,
    ESE 115, SE 135, SSE 155, S 180, SSW 205, SW 225, WSW 245, W 270,
    WNW 295, NW 315, NNW 335), any other label gets the angle of "N", and the
    result is never 0, so it lies in [1,360]. *)
Theorem wdir_in_compass_set (label : string) :
  exists w,
    smoke_simulator.wdir_of label = Ok w
    /\ w = claimed_angle label
    /\ map smoke_simulator.wdir_of
         ["N"; "NNE"; "NE"; "ENE"; "E"; "ESE"; "SE"; "SSE";
          "S"; "SSW"; "SW"; "WSW"; "W"; "WNW"; "NW"; "NNW"]
       = map Ok [360; 25; 45; 65; 90; 115; 135; 155;
                 180; 205; 225; 245; 270; 295; 315; 335]
    /\ In w compass_angles
    /\ 1 <= w <= 360
    /\ w <> 0
    /\ (PyStr.contains smoke_simulator._dirs label = false -> w = 360)
    /\ (forall i a, nth_error smoke_simulator._dirs i = Some label ->
                    nth_error smoke_simulator._angles i = Some a -> w = remap0 a)
    /\ List.length smoke_simulator._dirs = 16%nat
    /\ List.length smoke_simulator._angles = 16%nat.
Proof.
  destruct (PyStr.contains smoke_simulator._dirs label) eqn:Hin.
  - apply contains_In in Hin. vm_compute in Hin.
    repeat (destruct Hin as [<- | Hin];
      [ eexists; split; [vm_compute; reflexivity|];
        split; [vm_compute; reflexivity|];
        split; [vm_compute; reflexivity|];
        split; [vm_compute; tauto|]; split; [lia|]; split; [lia|];
        split; [intros; discriminate|];
        split; [|split; reflexivity];
        intros i a Hi Ha;
        do 16 (destruct i as [|i];
               [vm_compute in Hi; try discriminate;
                vm_compute in Ha; injection Ha as <-; reflexivity|]);
        destruct i; discriminate
      | ]).
    destruct Hin.
  - exists 360. unfold smoke_simulator.wdir_of. rewrite Hin. simpl negb. cbv iota.
    split; [vm_compute; reflexivity|].
    split.
    { unfold claimed_angle.
      rewrite (rose_angle_outside compass_rose label); [reflexivity|].
      change (map fst compass_rose) with smoke_simulator._dirs. exact Hin. }
    split; [vm_compute; reflexivity|].
    split; [vm_compute; tauto|]. split; [lia|]. split; [lia|].
    split; [reflexivity|].
    split; [|split; reflexivity].
    intros i a Hi _. apply nth_error_contains in Hi. congruence.
Qed.

(** ** The two link parsers *)

Lemma split_from_clean sep a : forall cur t,
  clean sep a t = true ->
  PyStr.split_from sep 0 cur (a ++ t) = PyStr.split_from sep 0 (cur ++ a) t.
Proof.
  induction a as [|c a IH]; intros cur t H.
  - now rewrite app_nil_l, app_empty_r.
  - cbn [clean] in H. apply andb_true_iff in H as [Hp Hc].
    apply negb_true_iff in Hp.
    rewrite app_cons in *. cbn [PyStr.split_from]. rewrite Hp.
    rewrite IH by assumption. now rewrite snoc_app.
Qed.

Lemma split_from_skip sep u : forall cur t,
  PyStr.split_from sep (String.length u) cur (u ++ t) = PyStr.split_from sep 0 cur t.
Proof.
  induction u as [|c u IH]; intros cur t; [reflexivity|].
  rewrite app_cons. simpl. apply IH.
Qed.

Lemma prefix_app sep t : String.prefix sep (sep ++ t) = true.
Proof.
  induction sep as [|c sep IH]; [destruct t; reflexivity|].
  rewrite app_cons. simpl. rewrite IH.
  destruct (ascii_dec c c); [reflexivity | congruence].
Qed.

(** Splitting at the first occurrence of a separator. *)
Lemma split_first c sep' a t :
  clean (String c sep') a (String c sep' ++ t) = true ->
  PyStr.split (String c sep') (a ++ String c sep' ++ t)
  = a :: PyStr.split (String c sep') t.
Proof.
  intros H. unfold PyStr.split.
  rewrite split_from_clean by assumption. rewrite app_nil_l.
  rewrite app_cons. cbn [PyStr.split_from].
  rewrite <- app_cons. rewrite prefix_app.
  f_equal.
  replace (String.length (String c sep') - 1)%nat with (String.length sep') by (simpl; lia).
  apply split_from_skip.
Qed.

Lemma split_none sep a :
  clean sep a "" = true -> PyStr.split sep a = [a].
Proof.
  intros H. unfold PyStr.split.
  rewrite <- (app_empty_r a) at 1. rewrite split_from_clean by assumption.
  reflexivity.
Qed.

Lemma clean_app sep a b t :
  clean sep (a ++ b) t = clean sep a (b ++ t) && clean sep b t.
Proof.
  induction a as [|c a IH]; [reflexivity|].
  rewrite app_cons. cbn [clean]. rewrite IH. rewrite <- !app_cons.
  rewrite app_assoc_s. now rewrite andb_assoc.
Qed.

Lemma has_char_app c a b :
  has_char c (a ++ b) = has_char c a || has_char c b.
Proof.
  unfold has_char. induction a as [|x a IH]; [reflexivity|].
  rewrite app_cons. simpl. destruct (Ascii.eqb x c); simpl; [reflexivity|].
  exact IH.
Qed.

Lemma prefix_one c x s :
  String.prefix (String c "") (String x s) = Ascii.eqb x c.
Proof.
  simpl. destruct (ascii_dec c x) as [->|Hne].
  - rewrite Ascii.eqb_refl. now destruct s.
  - symmetry. apply Ascii.eqb_neq. congruence.
Qed.

Lemma clean_char c a t :
  has_char c a = false -> clean (String c "") a t = true.
Proof.
  unfold has_char. induction a as [|x a IH]; intros H; [reflexivity|].
  simpl in H. apply negb_false_iff in H. apply andb_true_iff in H as [Hx Ha].
  cbn [clean]. rewrite app_cons, prefix_one.
  rewrite Hx. simpl. apply IH. now rewrite Ha.
Qed.

Lemma prefix_two c d x s :
  String.prefix (String c (String d "")) (String x s)
  = Ascii.eqb x c && leads d s.
Proof.
  cbn [String.prefix]. destruct (ascii_dec c x) as [->|Hne].
  - rewrite Ascii.eqb_refl. simpl. destruct s as [|y s]; [reflexivity|].
    simpl. destruct (ascii_dec d y) as [->|Hne].
    + rewrite Ascii.eqb_refl. now destruct s.
    + symmetry. apply Ascii.eqb_neq. congruence.
  - assert (Ascii.eqb x c = false) as -> by (apply Ascii.eqb_neq; congruence).
    reflexivity.
Qed.

Lemma leads_app d a t :
  leads d (a ++ t) = match a with EmptyString => leads d t | String _ _ => leads d a end.
Proof. destruct a; reflexivity. Qed.

Lemma clean_two c d a t :
  occurs (String c (String d "")) a = false ->
  leads d t = false ->
  clean (String c (String d "")) a t = true.
Proof.
  intros Hocc Ht. induction a as [|x a IH]; [reflexivity|].
  cbn [occurs] in Hocc. apply orb_false_iff in Hocc as [Hp Hocc].
  cbn [clean]. rewrite app_cons, prefix_two.
  rewrite prefix_two in Hp. rewrite leads_app.
  rewrite IH by assumption. rewrite andb_true_r.
  destruct a; [rewrite Ht, andb_false_r; reflexivity|].
  now rewrite Hp.
Qed.

Section LinkParsers.
Variable env : Env.

Lemma plain_link_split_comma link pre lat lon :
  plain_link link pre lat lon ->
  PyStr.split "," link = [pre ++ "q=" ++ lat; lon].
Proof.
  intros (-> & Hp & Hl & Hn & _).
  replace (pre ++ "q=" ++ lat ++ "," ++ lon)
    with ((pre ++ "q=" ++ lat) ++ String comma "" ++ lon)
    by (now rewrite !app_assoc_s).
  rewrite (split_first comma "" (pre ++ "q=" ++ lat) lon).
  - rewrite split_none; [reflexivity | now apply clean_char].
  - apply clean_char. rewrite !has_char_app, Hp, Hl. reflexivity.
Qed.

Lemma plain_link_head_split pre lat :
  occurs "q=" pre = false -> occurs "q=" lat = false ->
  PyStr.split "q=" (pre ++ "q=" ++ lat) = [pre; lat].
Proof.
  intros Hp Hl.
  rewrite (split_first "q"%char "=" pre lat) by (now apply clean_two).
  rewrite split_none; [reflexivity | now apply clean_two].
Qed.

Lemma plain_link_split_q link pre lat lon :
  plain_link link pre lat lon ->
  PyStr.split "q=" link = [pre; lat ++ "," ++ lon].
Proof.
  intros (-> & _ & _ & _ & Hp & Hl & Hn).
  rewrite (split_first "q"%char "=" pre (lat ++ "," ++ lon)) by (now apply clean_two).
  rewrite split_none; [reflexivity|].
  rewrite clean_app. apply andb_true_iff. split.
  - now apply clean_two.
  - change ("," ++ lon) with (String comma lon). cbn [clean].
    rewrite app_cons, prefix_two. simpl.
    now apply clean_two.
Qed.

Lemma plain_link_tail_split lat lon :
  has_char comma lat = false -> has_char comma lon = false ->
  PyStr.split "," (lat ++ "," ++ lon) = [lat; lon].
Proof.
  intros Hl Hn.
  rewrite (split_first comma "" lat lon) by (now apply clean_char).
  rewrite split_none; [reflexivity | now apply clean_char].
Qed.

Lemma fires_point_plain link pre lat lon :
  plain_link link pre lat lon ->
  arcgis_api.fires_point env link
  = (let? y := float_of env lon in
     let? x := float_of env lat in
     Ok [y; x])%res.
Proof.
  intros H. unfold arcgis_api.fires_point.
  rewrite (plain_link_split_comma _ _ _ _ H). simpl.
  destruct (float_of env lon); [|reflexivity]. simpl.
  destruct H as (_ & _ & _ & _ & Hp & Hl & _).
  rewrite plain_link_head_split by assumption. reflexivity.
Qed.

Lemma link_lat_lon_plain link pre lat lon :
  plain_link link pre lat lon ->
  link_lat_lon env link
  = (let? x := float_of env lat in
     let? y := float_of env lon in
     Ok (x, y))%res.
Proof.
  intros H. unfold link_lat_lon.
  rewrite (plain_link_split_q _ _ _ _ H). simpl.
  destruct H as (_ & _ & Hl & Hn & _).
  rewrite plain_link_tail_split by assumption. reflexivity.
Qed.

End LinkParsers.

(** C10, as stated, fails on a link that carries the marker twice.  In
    "x?q=1q=5,2" no comma stands before the first marker and exactly one
    after it: the fires layer reads lon 2 and lat 1, the fusion reader
    raises [ValueError] (the text between its first two markers has no
    comma).  In "x?q=1,2q=3" it is the fires layer that raises, on the lon
    text "2q=3", and the fusion reader that returns a point. *)
Lemma double_marker_links_disagree :
  ("x?q=1q=5,2" = "x?" ++ "q=" ++ "1q=5" ++ "," ++ "2"
   /\ has_char comma "x?" = false
   /\ has_char comma "1q=5" = false
   /\ has_char comma "2" = false)
  /\ res_map f_geometry (arcgis_api.fires_feature demo_env (item_with_link "x?q=1q=5,2"))
     = Ok (GjPoint [2; 1]%float)
  /\ res_map f_geometry
       (transform_to_geojson.incident_feature demo_env (item_with_link "x?q=1q=5,2"))
     = Raise ValueError
  /\ res_map f_geometry (arcgis_api.fires_feature demo_env (item_with_link "x?q=1,2q=3"))
     = Raise ValueError
  /\ res_map f_geometry
       (transform_to_geojson.incident_feature demo_env (item_with_link "x?q=1,2q=3"))
     = Ok (GjPoint [2; 1]%float).
Proof. vm_compute. repeat split. Qed.

(** C10 (amended): for every incident item whose link carries the "q="
    marker exactly once, with no comma before it and exactly one comma after
    it (separating "lat,lon"), the point of the fires layer (whole link split
    on commas, second segment as lon) equals the point of the fusion reader
    (split on "q=" first, then on the comma); and for a link with a comma
    before the marker the two disagree (as soon as "1" and "2" read as
    floats). *)
Theorem fires_layer_matches_fusion (env : Env) :
  (forall (it : Item) (pre lat lon : string),
      plain_link (it_link it) pre lat lon ->
      res_map f_geometry (arcgis_api.fires_feature env it)
      = res_map f_geometry (transform_to_geojson.incident_feature env it)
      /\ (forall x y, pyfloat env lat = Some x -> pyfloat env lon = Some y ->
            res_map f_geometry (arcgis_api.fires_feature env it) = Ok (GjPoint [y; x])))
  /\ (is_Some (pyfloat env "1") -> is_Some (pyfloat env "2") ->
      exists (it : Item) (pre rest : string),
        it_link it = pre ++ "q=" ++ rest
        /\ has_char comma pre = true
        /\ occurs "q=" pre = false
        /\ res_map f_geometry (arcgis_api.fires_feature env it)
           <> res_map f_geometry (transform_to_geojson.incident_feature env it)).
Proof.
  split.
  - intros it pre lat lon H.
    unfold arcgis_api.fires_feature, transform_to_geojson.incident_feature.
    rewrite (fires_point_plain env _ _ _ _ H), (link_lat_lon_plain env _ _ _ _ H).
    unfold float_of. split.
    + destruct (pyfloat env lon), (pyfloat env lat); reflexivity.
    + intros x y -> ->. reflexivity.
  - intros [x Hx] [y Hy].
    exists comma_link, "a,b?", "1,2".
    split; [reflexivity|]. split; [reflexivity|]. split; [reflexivity|].
    unfold arcgis_api.fires_feature, transform_to_geojson.incident_feature.
    unfold link_lat_lon, arcgis_api.fires_point.
    change (it_link comma_link) with "a,b?q=1,2".
    change (PyStr.split "q=" "a,b?q=1,2") with ["a,b?"; "1,2"].
    change (PyStr.split "," "a,b?q=1,2") with ["a"; "b?q=1"; "2"].
    cbn [PyStr.item nth_error res_bind].
    change (PyStr.split "," "1,2") with ["1"; "2"].
    change (PyStr.split "q=" "a") with ["a"].
    cbn [PyStr.item nth_error res_bind unpack_two_floats].
    unfold float_of. rewrite Hx, Hy.
    destruct (pyfloat env "b?q=1"); simpl; discriminate.
Qed.

(** ** EsriJSON projection *)

Lemma swap_ring_pairs (r : list (float * float)) :
  arcgis_api.swap_ring (map point_xy r) = Ok (map point_yx r).
Proof.
  unfold arcgis_api.swap_ring. induction r as [|[x y] r IH]; [reflexivity|].
  simpl. rewrite IH. reflexivity.
Qed.

Lemma swap_rings_pairs (rs : list (list (float * float))) :
  map_res arcgis_api.swap_ring (map (map point_xy) rs) = Ok (map (map point_yx) rs).
Proof.
  induction rs as [|r rs IH]; [reflexivity|].
  simpl. rewrite swap_ring_pairs. simpl. rewrite IH. reflexivity.
Qed.

(** C9: on a Polygon the projection swaps every point of every ring from
    (x,y) to (y,x); on a MultiPolygon it does the same on the rings of all
    member polygons, flattened into one ring list; any other geometry type
    raises [ValueError]; and a successful result always carries wkid 4326,
    geometryType "esriGeometryPolygon" and one feature with no attributes. *)
Theorem to_esrijson_projects :
  (forall rings : list (list (float * float)),
      arcgis_api.to_esrijson (GeoPolygon (map (map point_xy) rings))
      = Ok (esri_of (map (map point_yx) rings)))
  /\ (forall polys : list (list (list (float * float))),
      arcgis_api.to_esrijson (GeoMultiPolygon (map (map (map point_xy)) polys))
      = Ok (esri_of (map (map point_yx) (concat polys))))
  /\ (forall type, arcgis_api.to_esrijson (GeoOther type) = Raise ValueError)
  /\ (forall geo out, arcgis_api.to_esrijson geo = Ok out ->
        spatialReference_wkid out = 4326
        /\ geometryType out = "esriGeometryPolygon"
        /\ exists rings, esri_features out = [ {| ef_rings := rings; ef_attributes := [] |} ]).
Proof.
  split; [|split; [|split]].
  - intros rings. unfold arcgis_api.to_esrijson. rewrite swap_rings_pairs. reflexivity.
  - intros polys. unfold arcgis_api.to_esrijson.
    rewrite <- concat_map. rewrite swap_rings_pairs. reflexivity.
  - reflexivity.
  - intros geo out H. unfold arcgis_api.to_esrijson in H.
    destruct (match geo with GeoPolygon c => _ | GeoMultiPolygon c => _ | GeoOther _ => _ end) as [rings|e];
      simpl in H; [|discriminate].
    injection H as <-. simpl. eauto.
Qed.

(** ** The snapshot cache *)

Lemma day_of_world env day_str w : snd (fire_ingester.day_of env day_str w) = w.
Proof.
  unfold fire_ingester.day_of. destruct day_str as [s|]; [|reflexivity].
  destruct (PyStr.is_empty s); [reflexivity|].
  destruct (strptime_date env s); reflexivity.
Qed.


Lemma run_unfold env conf day_str d w :
  fst (fire_ingester.day_of env day_str w) = Ok d ->
  fire_ingester.run env conf day_str w = run_on env conf d w.
Proof.
  intros Hd. unfold fire_ingester.run, bind.
  pose proof (day_of_world env day_str w) as Hw.
  destruct (fire_ingester.day_of env day_str w) as [r w0]. simpl in Hd, Hw. subst r w0.
  unfold run_on, path_exists, now_date.
  destruct (bool_decide _ && negb _); [reflexivity|].
  unfold fire_ingester._fetch_rss, bind, tick, log, lift, write_text, ret. simpl.
  destruct (fetch_rss env (ticks w)); reflexivity.
Qed.


(** ** Three horizons, then the bundle *)

Lemma quiet_refl w : quiet w w.
Proof. split; [reflexivity|]. exists []. split; reflexivity. Qed.

Lemma quiet_trans w1 w2 w3 : quiet w1 w2 -> quiet w2 w3 -> quiet w1 w3.
Proof.
  intros [Hd1 (e1 & He1 & Hb1)] [Hd2 (e2 & He2 & Hb2)].
  split; [congruence|]. exists (e2 ++ e1)%list. split.
  - rewrite He2, He1. now rewrite app_assoc.
  - unfold bundle_writes in *. rewrite flat_map_app, Hb1, Hb2. reflexivity.
Qed.

Lemma quiet_step w fs tk e :
  bundle_of_event e = [] ->
  quiet w (mkWorld fs (today w) tk (e :: trace w)).
Proof.
  intros He. split; [reflexivity|]. exists [e]. split; [reflexivity|].
  unfold bundle_writes. simpl. now rewrite He.
Qed.

Section Horizons.
Variable env : Env.
Variable conf : FSConfig.

Lemma wx_block_spec lat lon w :
  let w' := snd (smoke_simulator._wx_block env lat lon w) in
  quiet w w' /\ ticks w' = S (ticks w).
Proof.
  unfold smoke_simulator._wx_block, bind, tick, log, lift, ret. simpl.
  destruct (get_hourly_wx env (ticks w) lat lon) as [wx|e]; simpl;
    [|split; [now apply quiet_step | reflexivity]].
  destruct (smoke_simulator.wspd_of (windSpeed wx)); simpl;
    [|split; [now apply quiet_step | reflexivity]].
  destruct (smoke_simulator.wdir_of (windDirection wx)); simpl;
    split; first [now apply quiet_step | reflexivity].
Qed.

Lemma converter_leaves_spec ipt kml w :
  let w' := snd (smoke_simulator.converter_leaves conf ipt kml w) in
  fst (smoke_simulator.converter_leaves conf ipt kml w) = Ok tt
  /\ quiet w w' /\ ticks w' = ticks w.
Proof.
  unfold smoke_simulator.converter_leaves, write_text.
  destruct kml as [k|]; [|simpl; auto using quiet_refl].
  destruct (files w !! ipt) as [[]|]; simpl; auto using quiet_refl.
  split; [reflexivity|]. split; [|reflexivity]. now apply quiet_step.
Qed.

Lemma run_vsmoke_spec ipt w :
  let r := fst (smoke_simulator._run_vsmoke env conf ipt w) in
  let w' := snd (smoke_simulator._run_vsmoke env conf ipt w) in
  quiet w w'
  /\ (forall kml, r = Ok kml ->
        ticks w' = S (S (ticks w))
        /\ fst (solver env (ticks w)) = 0
        /\ fst (fst (converter env (S (ticks w)) ipt)) = 0).
Proof.
  unfold smoke_simulator._run_vsmoke, bind, tick, log. simpl.
  destruct (solver env (ticks w)) as [rc out] eqn:Hs.
  destruct (Z.eqb_spec rc 0) as [->|Hrc]; simpl;
    [|unfold raise; simpl; split; [now apply quiet_step | discriminate]].
  destruct (converter env (S (ticks w)) ipt) as [[rc2 out2] kml] eqn:Hc.
  set (w2 := {| files := files w; today := today w; ticks := S (S (ticks w));
                trace := RanConverter ipt :: RanSolver :: trace w |}).
  assert (quiet w w2) as Hq02.
  { split; [reflexivity|]. exists [RanConverter ipt; RanSolver].
    split; reflexivity. }
  pose proof (converter_leaves_spec ipt kml w2) as (Hok & Hq & Ht).
  destruct (smoke_simulator.converter_leaves conf ipt kml w2) as [r3 w3]. simpl in Hok, Hq, Ht.
  subst r3.
  assert (quiet w w3) as Hq03 by (eapply quiet_trans; eauto).
  destruct (Z.eqb_spec rc2 0) as [->|Hrc2]; simpl;
    [|unfold raise; simpl; split; [assumption | discriminate]].
  unfold read_file. destruct (files w3 !! ipt) as [f|]; simpl.
  2: { split; [assumption | discriminate]. }
  destruct f; unfold raise, ret; simpl; split; try assumption; try discriminate.
  intros _ _. rewrite Ht. simpl. auto.
Qed.

Lemma single_horizon_spec guid lat lon tag mins w :
  let r := fst (smoke_simulator._single_horizon env conf guid lat lon tag mins w) in
  let w' := snd (smoke_simulator._single_horizon env conf guid lat lon tag mins w) in
  quiet w w'
  /\ (forall m, r = Ok m ->
        ticks w' = (ticks w + 3)%nat
        /\ is_Some (m_kml m)
        /\ fst (solver env (ticks w + 1)%nat) = 0
        /\ fst (fst (converter env (ticks w + 2)%nat
                               (input_path conf (today w) guid tag))) = 0).
Proof.
  unfold smoke_simulator._single_horizon, bind, now_date. simpl.
  pose proof (wx_block_spec lat lon w) as [Hq1 Ht1].
  destruct (smoke_simulator._wx_block env lat lon w) as [[wx|e] w1]; simpl in *;
    [|split; [assumption | discriminate]].
  unfold smoke_simulator._build_input, bind, write_text, ret. simpl.
  match goal with
  | |- context [smoke_simulator._run_vsmoke env conf ?ipt ?w2] =>
      pose proof (run_vsmoke_spec ipt w2) as [Hq2 Hok]; set (wb := w2) in *
  end.
  assert (quiet w1 wb) as Hq1b.
  { subst wb. destruct Hq1 as [Hd _]. now apply quiet_step. }
  destruct (smoke_simulator._run_vsmoke env conf _ wb) as [[kml|e] w3]; simpl in *;
    [|split; [eauto using quiet_trans | discriminate]].
  specialize (Hok kml eq_refl) as (Ht3 & Hs & Hc).
  unfold lift. destruct (PyPath.relative_to (project_root conf) kml); simpl;
    (split; [eauto using quiet_trans|]); [|discriminate].
  intros m [= <-]. simpl. subst wb. simpl in *.
  rewrite Ht3, Ht1. rewrite Ht1 in Hs, Hc.
  replace (ticks w + 1)%nat with (S (ticks w)) by lia.
  replace (ticks w + 2)%nat with (S (S (ticks w))) by lia.
  repeat split; try lia; eauto.
Qed.

End Horizons.

Section Bundles.
Variable env : Env.
Variable conf : FSConfig.
Variable firemap_json : string.

Lemma process_item_spec it w :
  let r := fst (smoke_simulator.process_item env conf firemap_json it w) in
  let w' := snd (smoke_simulator.process_item env conf firemap_json it w) in
  let out := smoke_simulator.bundle_path conf firemap_json (it_guid it) in
  today w' = today w /\
  exists evs,
    trace w' = (evs ++ trace w)%list
    /\ ((exists b,
           r = Ok tt
           /\ bundle_writes evs = [(out, b)]
           /\ complete3 b
           /\ files w' !! out = Some (FBundle b)
           /\ engine_ok env conf w (it_guid it) 0 "1"
           /\ engine_ok env conf w (it_guid it) 1 "2"
           /\ engine_ok env conf w (it_guid it) 2 "3")
        \/ (exists e, r = Raise e /\ bundle_writes evs = [])).
Proof.
  unfold smoke_simulator.process_item, bind, lift. simpl.
  destruct (link_lat_lon env (it_link it)) as [[lat lon]|e]; simpl.
  2: { split; [reflexivity|]. exists []. split; [reflexivity|]. right. eauto. }
  pose proof (single_horizon_spec env conf (it_guid it) lat lon "1" 30 w) as [Hq1 Hk1].
  destruct (smoke_simulator._single_horizon env conf (it_guid it) lat lon "1" 30 w) as [[h1|e] w1];
    simpl in *.
  2: { destruct Hq1 as [Hd (evs & Ht & Hb)]. split; [assumption|].
       exists evs. split; [assumption|]. right. eauto. }
  specialize (Hk1 h1 eq_refl) as (Ht1 & Hm1 & Hs1 & Hc1).
  pose proof (single_horizon_spec env conf (it_guid it) lat lon "2" 90 w1) as [Hq2 Hk2].
  destruct (smoke_simulator._single_horizon env conf (it_guid it) lat lon "2" 90 w1) as [[h2|e] w2];
    simpl in *.
  2: { destruct (quiet_trans _ _ _ Hq1 Hq2) as [Hd (evs & Ht & Hb)].
       split; [assumption|].
       exists evs. split; [assumption|]. right. eauto. }
  specialize (Hk2 h2 eq_refl) as (Ht2 & Hm2 & Hs2 & Hc2).
  pose proof (single_horizon_spec env conf (it_guid it) lat lon "3" 150 w2) as [Hq3 Hk3].
  destruct (smoke_simulator._single_horizon env conf (it_guid it) lat lon "3" 150 w2) as [[h3|e] w3];
    simpl in *.
  2: { destruct (quiet_trans _ _ _ (quiet_trans _ _ _ Hq1 Hq2) Hq3)
         as [Hd (evs & Ht & Hb)].
       split; [assumption|].
       exists evs. split; [assumption|]. right. eauto. }
  specialize (Hk3 h3 eq_refl) as (Ht3 & Hm3 & Hs3 & Hc3).
  destruct (quiet_trans _ _ _ (quiet_trans _ _ _ Hq1 Hq2) Hq3)
    as [Hd (evs & Ht & Hb)].
  destruct Hq1 as [Hd1 _]. destruct Hq2 as [Hd2 _].
  split; [assumption|].
  eexists (_ :: _ :: evs). split; [simpl; rewrite Ht; reflexivity|].
  left. eexists. split; [reflexivity|].
  split; [unfold bundle_writes in *; simpl; rewrite Hb; reflexivity|].
  split; [split; [reflexivity | repeat constructor; assumption]|].
  split; [apply lookup_insert_eq|].
  unfold engine_ok. rewrite Hd2, Hd1 in Hc3. rewrite Hd1 in Hc2.
  rewrite Ht2, Ht1 in Hs3, Hc3. rewrite Ht1 in Hs2, Hc2.
  replace (ticks w + 3 * 0 + 1)%nat with (ticks w + 1)%nat by lia.
  replace (ticks w + 3 * 0 + 2)%nat with (ticks w + 2)%nat by lia.
  replace (ticks w + 3 * 1 + 1)%nat with (ticks w + 3 + 1)%nat by lia.
  replace (ticks w + 3 * 1 + 2)%nat with (ticks w + 3 + 2)%nat by lia.
  replace (ticks w + 3 * 2 + 1)%nat with (ticks w + 3 + 3 + 1)%nat by lia.
  replace (ticks w + 3 * 2 + 2)%nat with (ticks w + 3 + 3 + 2)%nat by lia.
  auto.
Qed.

Lemma for_each_items_spec its : forall w,
  exists evs,
    trace (snd (for_each (smoke_simulator.process_item env conf firemap_json) its w))
    = (evs ++ trace w)%list
    /\ Forall (fun pb => complete3 (snd pb)) (bundle_writes evs).
Proof.
  induction its as [|it its IH]; intros w.
  - exists []. split; [reflexivity | constructor].
  - simpl. unfold bind.
    pose proof (process_item_spec it w) as (_ & evs & Ht & Hcase).
    destruct (smoke_simulator.process_item env conf firemap_json it w) as [[[]|e] w1]; simpl in *.
    + destruct Hcase as [(b & _ & Hb & Hc & _) | (e & [=] & _)].
      destruct (IH w1) as (evs2 & Ht2 & Hall).
      exists (evs2 ++ evs)%list. split; [rewrite Ht2, Ht; now rewrite app_assoc|].
      unfold bundle_writes in *. rewrite flat_map_app. apply Forall_app. split; [assumption|].
      rewrite Hb. constructor; [exact Hc | constructor].
    + destruct Hcase as [(b & [=] & _) | (e' & _ & Hb)].
      exists evs. split; [assumption|]. rewrite Hb. constructor.
Qed.

End Bundles.

(** C1: the bundle of an incident is written only after all three horizon
    results have been produced.  Processing one incident either succeeds,
    having written exactly one bundle, which holds the three horizon results,
    or raises, having written no bundle at all; and if the solver or the
    converter of any of the three horizons exits non-zero, it raises and no
    bundle is written.  Hence every bundle a whole run writes holds all three
    horizon results. *)
Theorem bundle_written_after_all_horizons
        (env : Env) (conf : FSConfig) (firemap_json : string) :
  (forall (it : Item) (w : World),
      let r := fst (smoke_simulator.process_item env conf firemap_json it w) in
      let w' := snd (smoke_simulator.process_item env conf firemap_json it w) in
      let out := smoke_simulator.bundle_path conf firemap_json (it_guid it) in
      exists evs,
        trace w' = (evs ++ trace w)%list
        /\ ((exists b,
               r = Ok tt
               /\ bundle_writes evs = [(out, b)]
               /\ complete3 b
               /\ files w' !! out = Some (FBundle b))
            \/ (exists e, r = Raise e /\ bundle_writes evs = []))
        /\ (forall k tag, In (k, tag) [(0%nat, "1"); (1%nat, "2"); (2%nat, "3")] ->
              ~ engine_ok env conf w (it_guid it) k tag ->
              is_ok r = false /\ bundle_writes evs = []))
  /\ (forall w : World,
        exists evs,
          trace (snd (smoke_simulator.process_firemap env conf firemap_json w)) = (evs ++ trace w)%list
          /\ Forall (fun pb => complete3 (snd pb)) (bundle_writes evs)).
Proof.
  split.
  - intros it w.
    pose proof (process_item_spec env conf firemap_json it w) as (_ & evs & Ht & Hcase).
    simpl in *. exists evs. split; [assumption|]. split.
    + destruct Hcase as [(b & Hr & Hb & Hc & Hf & _) | (e & Hr & Hb)]; [left|right]; eauto.
    + intros k tag Hin Hbad.
      destruct Hcase as [(b & Hr & Hb & Hc & Hf & H1 & H2 & H3) | (e & Hr & Hb)].
      * exfalso. simpl in Hin.
        destruct Hin as [[= <- <-]|[[= <- <-]|[[= <- <-]|[]]]]; auto.
      * rewrite Hr. auto.
  - intros w. unfold smoke_simulator.process_firemap, bind, read_file.
    destruct (files w !! firemap_json) as [f|]; simpl.
    2: { exists []. split; [reflexivity | constructor]. }
    destruct f; unfold raise; simpl;
      try (exists []; split; [reflexivity | constructor]).
    apply for_each_items_spec.
Qed.

(** ** Ring extraction *)

Lemma bfs_order_app q : forall r,
  bfs_order (q ++ r) = (q ++ bfs_order (r ++ flat_map children q))%list.
Proof.
  induction q as [|f q IH]; intros r.
  - simpl. now rewrite app_nil_r.
  - simpl. simp bfs_order. f_equal.
    rewrite <- app_assoc. rewrite IH. now rewrite <- app_assoc.
Qed.

Lemma bfs_order_levels q :
  bfs_order q = (q ++ bfs_order (flat_map children q))%list.
Proof.
  rewrite <- (app_nil_r q) at 1. rewrite bfs_order_app. reflexivity.
Qed.

Section Search.
Variable env : Env.

Lemma search_first_hit q :
  transform_to_geojson.search env q = first_hit (map (transform_to_geojson.ring_at env) (bfs_order q)).
Proof.
  funelim (transform_to_geojson.search env q); simp bfs_order; simpl.
  all: try rewrite Heq; simpl; try reflexivity.
  assumption.
Qed.

Lemma first_hit_found rs1 r rs2 :
  Forall (fun x => x = Ok None) rs1 ->
  first_hit (rs1 ++ Ok (Some r) :: rs2) = Ok (Some r).
Proof.
  induction 1 as [|x rs1 -> _ IH]; [reflexivity | exact IH].
Qed.

Lemma first_hit_none rs :
  Forall (fun x => x = Ok None) rs -> first_hit rs = Ok None.
Proof.
  induction 1 as [|x rs -> _ IH]; [reflexivity | exact IH].
Qed.

Lemma search_found q fs1 f fs2 r :
  bfs_order q = (fs1 ++ f :: fs2)%list ->
  Forall (fun f' => transform_to_geojson.ring_at env f' = Ok None) fs1 ->
  transform_to_geojson.ring_at env f = Ok (Some r) ->
  transform_to_geojson.search env q = Ok (Some r).
Proof.
  intros Hq Hnone Hf. rewrite search_first_hit, Hq, map_app. simpl. rewrite Hf.
  apply first_hit_found. apply Forall_map. exact Hnone.
Qed.

Lemma search_none q :
  Forall (fun f' => transform_to_geojson.ring_at env f' = Ok None) (bfs_order q) ->
  transform_to_geojson.search env q = Ok None.
Proof.
  intros H. rewrite search_first_hit. apply first_hit_none.
  apply Forall_map. exact H.
Qed.

End Search.

Lemma extract_ring_collection gs :
  transform_to_geojson._extract_ring (GeometryCollection gs) = first_member (map transform_to_geojson._extract_ring gs).
Proof.
  simpl. induction gs as [|g gs IH]; [reflexivity|].
  simpl. destruct (transform_to_geojson._extract_ring g) as [r|e]; simpl; [|reflexivity].
  destruct (ring_truthy r); [reflexivity | exact IH].
Qed.

Lemma extract_ring_polygon_free : forall g,
  polygon_free g = true -> transform_to_geojson._extract_ring g = Ok None.
Proof.
  fix IH 1. intros [ext ints|polys|gs|t] H; try discriminate; try reflexivity.
  rewrite extract_ring_collection. simpl in H.
  induction gs as [|g gs IHgs]; [reflexivity|].
  simpl in H. apply andb_true_iff in H as [Hg Hgs].
  simpl. rewrite (IH g Hg). simpl. apply IHgs. exact Hgs.
Qed.

Section Fallback.
Variable env : Env.

Lemma ring_at_polygon_free f :
  feature_polygon_free f = true -> transform_to_geojson.ring_at env f = Ok None.
Proof.
  unfold feature_polygon_free, transform_to_geojson.ring_at. destruct (geometry_of f) as [g|]; [|reflexivity].
  intros H. rewrite (extract_ring_polygon_free g H). simpl.
  now destruct (geom_truthy env g).
Qed.

Lemma kml_ring_of_api k :
  transform_to_geojson.kml_ring_of env k
  = match fastkml_api env with
    | Fastkml0 => Raise AttributeError
    | Fastkml1 => transform_to_geojson.fallback_ring env (kml_coordinates k)
    end.
Proof.
  unfold transform_to_geojson.kml_ring_of, transform_to_geojson._children,
    transform_to_geojson.loaded.
  destruct (fastkml_api env); [reflexivity|].
  now simp search.
Qed.

Lemma fallback_ring_blank txt :
  PyStr.split_ws (strip txt) = [] -> transform_to_geojson.fallback_ring env (Some txt) = Ok None.
Proof.
  intros H. unfold transform_to_geojson.fallback_ring. destruct (PyStr.is_empty txt); [reflexivity|].
  now rewrite H.
Qed.

End Fallback.

Section ParsePair.
Variable env : Env.

Lemma parse_pair_two x y :
  has_char comma x = false -> has_char comma y = false ->
  transform_to_geojson.parse_pair env (x ++ "," ++ y) = pair_of env x y.
Proof.
  intros Hx Hy. unfold transform_to_geojson.parse_pair.
  rewrite plain_link_tail_split by assumption. simpl. unfold pair_of.
  destruct (float_of env x); [|reflexivity]. simpl.
  destruct (float_of env y); reflexivity.
Qed.

Lemma parse_pair_more x y rest :
  has_char comma x = false -> has_char comma y = false ->
  transform_to_geojson.parse_pair env (x ++ "," ++ y ++ "," ++ rest) = pair_of env x y.
Proof.
  intros Hx Hy. unfold transform_to_geojson.parse_pair.
  rewrite (split_first comma "" x (y ++ "," ++ rest)) by (now apply clean_char).
  rewrite (split_first comma "" y rest) by (now apply clean_char).
  simpl. unfold pair_of.
  destruct (float_of env x); [|reflexivity]. simpl.
  destruct (float_of env y); reflexivity.
Qed.

End ParsePair.

(** C2 fails on the code.  The loop of [_kml_ring] is the search the claim
    describes: on a list it returns the ring of the first feature, in
    breadth-first order, whose geometry yields one.  But it is never started
    on the parsed tree.  With fastkml 1.x the parsed document is the return
    value of [from_string], which the code drops, so the queue is empty and
    only the text fallback runs; with fastkml 0.x the queue is a generator,
    which is true and has no [pop], so the first pass raises
    [AttributeError].  On a KML 2.2 document with one polygon, where the
    search would return the polygon's ring, the code returns none, or
    raises. *)
Theorem kml_ring_tree_never_searched (env : Env) :
  (* what the loop does when it is given a list *)
  (forall q,
      transform_to_geojson.search env q
      = first_hit (map (transform_to_geojson.ring_at env) (bfs_order q)))
  /\ (forall q, bfs_order q = (q ++ bfs_order (flat_map children q))%list)
  /\ (forall geoms,
        transform_to_geojson._extract_ring (GeometryCollection geoms)
        = first_member (map transform_to_geojson._extract_ring geoms))
  (* what it is given *)
  /\ (forall k,
        transform_to_geojson.kml_ring_of env k
        = match fastkml_api env with
          | Fastkml0 => Raise AttributeError
          | Fastkml1 => transform_to_geojson.fallback_ring env (kml_coordinates k)
          end)
  (* the failing input *)
  /\ transform_to_geojson.search demo_env (kml_features kml22_polygon)
     = Ok (Some demo_ring)
  /\ transform_to_geojson.kml_ring_of demo_env kml22_polygon = Ok None
  /\ transform_to_geojson.kml_ring_of legacy_env kml22_polygon = Raise AttributeError.
Proof.
  split; [apply search_first_hit|].
  split; [apply bfs_order_levels|].
  split; [apply extract_ring_collection|].
  split; [apply kml_ring_of_api|].
  split; [|split; reflexivity].
  rewrite search_first_hit. reflexivity.
Qed.

(** ** Layer fusion *)

Section FusionProofs.
Variable env : Env.
Variable conf : FSConfig.

Lemma kml_ring_run p w :
  transform_to_geojson._kml_ring env p w =
  (match files w !! p with
   | Some (FKml k) => transform_to_geojson.kml_ring_of env k
   | Some _ => Raise ValueError
   | None => Raise FileNotFoundError
   end, w).
Proof.
  unfold transform_to_geojson._kml_ring, bind, read_file. destruct (files w !! p) as [[]|]; reflexivity.
Qed.

Lemma horizon_step_run b acc entry w :
  fst (transform_to_geojson.horizon_step env conf b acc entry w) = pair_step env conf (files w) b acc entry
  /\ files (snd (transform_to_geojson.horizon_step env conf b acc entry w)) = files w.
Proof.
  unfold transform_to_geojson.horizon_step, pair_step, pair_out. destruct acc as [ps ms].
  destruct (m_kml (snd entry)) as [rel|]; [|split; reflexivity].
  unfold bind, path_exists. simpl.
  destruct (files w !! path_join (project_root conf) rel) as [f|] eqn:Hf.
  - rewrite bool_decide_eq_true_2 by eauto. simpl.
    rewrite kml_ring_run, Hf.
    destruct f; simpl; try (split; reflexivity).
    destruct (transform_to_geojson.kml_ring_of env k); split; reflexivity.
  - rewrite bool_decide_eq_false_2 by (intros [? [=]]). simpl.
    unfold layers_app. simpl. rewrite !app_nil_r. split; reflexivity.
Qed.

Lemma horizons_run b entries : forall acc w,
  fst (transform_to_geojson.fold_m (transform_to_geojson.horizon_step env conf b) acc entries w)
  = fold_res (pair_step env conf (files w) b) acc entries
  /\ files (snd (transform_to_geojson.fold_m (transform_to_geojson.horizon_step env conf b) acc entries w)) = files w.
Proof.
  induction entries as [|e es IH]; intros acc w; [split; reflexivity|].
  simpl. unfold bind.
  pose proof (horizon_step_run b acc e w) as [Hr Hf].
  destruct (transform_to_geojson.horizon_step env conf b acc e w) as [[acc'|err] w1]; simpl in *.
  - rewrite <- Hr. simpl. destruct (IH acc' w1) as [IH1 IH2].
    rewrite IH1, IH2, Hf. split; reflexivity.
  - rewrite <- Hr. split; [reflexivity | assumption].
Qed.

Lemma bundle_step_run acc mfp w :
  fst (transform_to_geojson.bundle_step env conf acc mfp w) = bundle_out env conf (files w) acc mfp
  /\ files (snd (transform_to_geojson.bundle_step env conf acc mfp w)) = files w.
Proof.
  unfold transform_to_geojson.bundle_step, bundle_out, bind, read_file.
  destruct (files w !! mfp) as [f|]; [|split; reflexivity].
  destruct f; try (split; reflexivity).
  apply horizons_run.
Qed.

Lemma bundles_run mfps : forall acc w,
  fst (transform_to_geojson.fold_m (transform_to_geojson.bundle_step env conf) acc mfps w)
  = fold_res (bundle_out env conf (files w)) acc mfps
  /\ files (snd (transform_to_geojson.fold_m (transform_to_geojson.bundle_step env conf) acc mfps w)) = files w.
Proof.
  induction mfps as [|p ps IH]; intros acc w; [split; reflexivity|].
  simpl. unfold bind.
  pose proof (bundle_step_run acc p w) as [Hr Hf].
  destruct (transform_to_geojson.bundle_step env conf acc p w) as [[acc'|err] w1]; simpl in *.
  - rewrite <- Hr. simpl. destruct (IH acc' w1) as [IH1 IH2].
    rewrite IH1, IH2, Hf. split; reflexivity.
  - rewrite <- Hr. split; [reflexivity | assumption].
Qed.

(** The reader computes [fusion_out] of the files it finds and changes no file. *)
Lemma read_plumes_and_meta_run day w :
  fst (transform_to_geojson._read_plumes_and_meta env conf day w)
  = fusion_out env conf (files w) (bundle_files conf day (files w))
  /\ files (snd (transform_to_geojson._read_plumes_and_meta env conf day w)) = files w.
Proof.
  unfold transform_to_geojson._read_plumes_and_meta, bind, glob. simpl.
  apply bundles_run.
Qed.

End FusionProofs.

Section FusionOk.
Variable env : Env.
Variable conf : FSConfig.
Variable fs : gmap string File.

Lemma pair_out_ok b e o :
  pair_out env conf fs b e = Ok o ->
  (present conf fs e = false /\ o = ([], []))
  \/ (present conf fs e = true
      /\ snd o = [meta_of b e]
      /\ exists f, fst o = [f] /\ plume_of_pair env conf fs (b, e) f).
Proof.
  unfold pair_out, present, kml_abs_of, plume_of_pair. simpl.
  destruct (m_kml (snd e)) as [rel|] eqn:Hk; [|discriminate].
  destruct (fs !! path_join (project_root conf) rel) as [f|] eqn:Hf.
  - rewrite bool_decide_eq_true_2 by eauto.
    destruct f; try discriminate.
    destruct (transform_to_geojson.kml_ring_of env k) as [r|] eqn:Hr; [|discriminate].
    simpl. intros [= <-]. right. split; [reflexivity|]. split; [reflexivity|].
    eexists. split; [reflexivity|]. exists (path_join (project_root conf) rel), k, r.
    unfold kml_abs_of. rewrite Hk. repeat split; assumption.
  - rewrite bool_decide_eq_false_2 by (intros [? [=]]).
    intros [= <-]. left. auto.
Qed.

Lemma pairs_fold_ok b entries : forall acc acc',
  fold_res (pair_step env conf fs b) acc entries = Ok acc' ->
  let shown := List.filter (present conf fs) entries in
  snd acc' = (snd acc ++ map (meta_of b) shown)%list
  /\ exists plumes,
       fst acc' = (fst acc ++ plumes)%list
       /\ Forall2 (fun e f => plume_of_pair env conf fs (b, e) f) shown plumes.
Proof.
  induction entries as [|e es IH]; intros acc acc' H; simpl in H.
  - injection H as <-. simpl. rewrite app_nil_r. split; [reflexivity|].
    exists []. rewrite app_nil_r. split; [reflexivity | constructor].
  - unfold pair_step in H at 1.
    destruct (pair_out env conf fs b e) as [o|] eqn:Ho; [|discriminate].
    simpl in H. apply IH in H as [Hm (plumes & Hp & Hall)].
    apply pair_out_ok in Ho as [[Hno ->] | (Hyes & Hmo & f & Hfo & Hf)]; simpl.
    + rewrite Hno. unfold layers_app in *. simpl in *.
      rewrite !app_nil_r in *. split; [assumption|]. exists plumes. auto.
    + rewrite Hyes. unfold layers_app in *. simpl in *.
      rewrite Hmo in Hm. rewrite Hfo in Hp. rewrite <- app_assoc in Hm, Hp.
      split; [assumption|]. exists (f :: plumes). split; [assumption|].
      constructor; assumption.
Qed.

Lemma filter_paired (b : Bundle) (es : list (string * Meta)) :
  List.filter (fun be => present conf fs (snd be)) (map (pair b) es)
  = map (pair b) (List.filter (present conf fs) es).
Proof.
  induction es as [|e es IHe]; [reflexivity|].
  simpl. destruct (present conf fs e); simpl; rewrite IHe; reflexivity.
Qed.

Lemma fusion_fold_ok mfps : forall acc acc',
  fold_res (bundle_out env conf fs) acc mfps = Ok acc' ->
  let shown := present_pairs conf fs mfps in
  snd acc' = (snd acc ++ map meta_of_pair shown)%list
  /\ exists plumes,
       fst acc' = (fst acc ++ plumes)%list
       /\ Forall2 (plume_of_pair env conf fs) shown plumes.
Proof.
  unfold present_pairs.
  induction mfps as [|p ps IH]; intros acc acc' H; simpl in H.
  - injection H as <-. simpl. rewrite app_nil_r. split; [reflexivity|].
    exists []. rewrite app_nil_r. split; [reflexivity | constructor].
  - unfold bundle_out in H at 1. simpl.
    destruct (fs !! p) as [f|]; [|discriminate].
    destruct f; try discriminate.
    destruct (fold_res (pair_step env conf fs b) acc (b_horizons b)) as [acc1|] eqn:Hb;
      [|discriminate].
    simpl in H. apply IH in H as [Hm (plumes2 & Hp2 & Hall2)].
    apply pairs_fold_ok in Hb as [Hm1 (plumes1 & Hp1 & Hall1)].
    rewrite List.filter_app. rewrite List.map_app.
    rewrite filter_paired. split.
    + rewrite Hm, Hm1. rewrite <- app_assoc. f_equal. f_equal.
      rewrite List.map_map. reflexivity.
    + exists (plumes1 ++ plumes2)%list. split.
      * rewrite Hp2, Hp1. now rewrite <- app_assoc.
      * apply Forall2_app; [|assumption].
        clear -Hall1. induction Hall1; constructor; auto.
Qed.

End FusionOk.

Lemma read_incidents_world env conf day w :
  snd (transform_to_geojson._read_incidents env conf day w) = w.
Proof.
  unfold transform_to_geojson._read_incidents, bind, read_file.
  destruct (files w !! _) as [[]|]; reflexivity.
Qed.

Lemma map_res_Forall {A B} (f : A -> res B) (P : B -> Prop) xs ys :
  (forall x y, f x = Ok y -> P y) ->
  map_res f xs = Ok ys -> Forall P ys /\ List.length ys = List.length xs.
Proof.
  intros HP. revert ys. induction xs as [|x xs IH]; intros ys H; simpl in H.
  - injection H as <-. split; [constructor | reflexivity].
  - destruct (f x) as [y|] eqn:Hy; [|discriminate]. simpl in H.
    destruct (map_res f xs) as [ys'|]; [|discriminate]. simpl in H.
    injection H as <-. destruct (IH ys' eq_refl) as [HF HL].
    split; [constructor; eauto | simpl; now rewrite HL].
Qed.

Lemma incident_feature_layer env it f :
  transform_to_geojson.incident_feature env it = Ok f -> layer_is "incidents" f.
Proof.
  unfold transform_to_geojson.incident_feature.
  destruct (link_lat_lon env (it_link it)); [|discriminate].
  simpl. intros [= <-]. reflexivity.
Qed.

Lemma plume_of_pair_layer env conf fs be f :
  plume_of_pair env conf fs be f -> layer_is "plumes" f.
Proof. intros (p & k & r & _ & _ & _ & ->). reflexivity. Qed.

Lemma Forall2_Forall_r {A B} (R : A -> B -> Prop) (P : B -> Prop) xs ys :
  (forall x y, R x y -> P y) -> Forall2 R xs ys -> Forall P ys.
Proof. intros H. induction 1; constructor; eauto. Qed.

Lemma Forall2_same_length {A B} (R : A -> B -> Prop) xs ys :
  Forall2 R xs ys -> List.length ys = List.length xs.
Proof. induction 1; simpl; congruence. Qed.

(** The reader's two lists, when it returns. *)
Lemma read_plumes_and_meta_ok env conf day w layers :
  fst (transform_to_geojson._read_plumes_and_meta env conf day w) = Ok layers ->
  let shown := present_pairs conf (files w) (bundle_files conf day (files w)) in
  snd layers = map meta_of_pair shown
  /\ Forall2 (plume_of_pair env conf (files w)) shown (fst layers).
Proof.
  intros H. destruct (read_plumes_and_meta_run env conf day w) as [Hr _].
  rewrite Hr in H. unfold fusion_out in H.
  apply fusion_fold_ok in H as [Hm (plumes & Hp & Hall)].
  simpl in *. subst. split; assumption.
Qed.

(** C3, as stated, fails: when the artifact exists and ring
    extraction returns none, the plume feature is not skipped -- it is emitted
    with a null ring -- and no warning is printed. *)
Lemma none_ring_is_not_skipped :
  transform_to_geojson._kml_ring demo_env demo_kml_path ringless_world
  = (Ok None, ringless_world)
  /\ fst (transform_to_geojson._read_plumes_and_meta
            demo_env demo_conf "2025-05-11" ringless_world)
     = Ok ([transform_to_geojson.plume_feature "A1" "A1" "0.5h" None],
           [meta_of_pair (demo_bundle, ("0.5h", demo_hdict))])
  /\ trace (snd (transform_to_geojson._read_plumes_and_meta
                   demo_env demo_conf "2025-05-11" ringless_world))
     = trace ringless_world.
Proof. vm_compute. repeat split. Qed.

Section FusionTotal.
Variable env : Env.
Variable conf : FSConfig.
Variable fs : gmap string File.

Lemma pairs_fold_total b entries :
  Forall (readable env conf fs) entries ->
  forall acc, exists acc', fold_res (pair_step env conf fs b) acc entries = Ok acc'.
Proof.
  induction 1 as [|e es (rel & Hk & Hcase) _ IH]; intros acc; [eexists; reflexivity|].
  simpl. unfold pair_step at 1. unfold pair_out. rewrite Hk.
  destruct Hcase as [-> | (k & r & -> & ->)]; simpl; apply IH.
Qed.

Lemma fusion_fold_total mfps :
  Forall (fun p => exists b, fs !! p = Some (FBundle b)
                             /\ Forall (readable env conf fs) (b_horizons b)) mfps ->
  forall acc, exists acc', fold_res (bundle_out env conf fs) acc mfps = Ok acc'.
Proof.
  induction 1 as [|p ps (b & Hb & Hes) _ IH]; intros acc; [eexists; reflexivity|].
  simpl. unfold bundle_out at 1. rewrite Hb.
  destruct (pairs_fold_total b _ Hes acc) as [acc1 ->]. simpl. apply IH.
Qed.

End FusionTotal.

(** C3 (amended): during layer fusion, for every (incident, horizon) whose
    artifact file is absent, the turn of the loop adds no feature, prints a
    warning, and returns normally; no plume feature of the output belongs to
    such a pair; and absent artifacts do not make the reader fail. *)
Theorem missing_artifact_is_skipped (env : Env) (conf : FSConfig) :
  (* one turn of the loop on an absent artifact *)
  (forall (b : Bundle) (acc : transform_to_geojson.Layers)
          (entry : string * Meta) (w : World) (kml_rel : string),
      m_kml (snd entry) = Some kml_rel ->
      files w !! path_join (project_root conf) kml_rel = None ->
      transform_to_geojson.horizon_step env conf b acc entry w
      = (Ok acc,
         mkWorld (files w) (today w) (ticks w)
                 (Printed ("KML missing -> " ++ path_join (project_root conf) kml_rel)
                    :: trace w)))
  (* no plume feature of the output belongs to a pair without artifact *)
  /\ (forall (day : string) (w : World) (layers : transform_to_geojson.Layers),
        fst (transform_to_geojson._read_plumes_and_meta env conf day w) = Ok layers ->
        forall f, In f (fst layers) ->
          exists be,
            In be (pairs_read (files w) (bundle_files conf day (files w)))
            /\ present conf (files w) (snd be) = true
            /\ plume_of_pair env conf (files w) be f)
  (* absent artifacts do not make the reader fail *)
  /\ (forall (day : string) (w : World),
        Forall (fun p => exists b, files w !! p = Some (FBundle b)
                                   /\ Forall (readable env conf (files w)) (b_horizons b))
               (bundle_files conf day (files w)) ->
        exists layers,
          fst (transform_to_geojson._read_plumes_and_meta env conf day w) = Ok layers).
Proof.
  split; [|split].
  - intros b acc entry w kml_rel Hk Hf.
    unfold transform_to_geojson.horizon_step. rewrite Hk.
    unfold bind, path_exists. simpl.
    rewrite Hf. rewrite bool_decide_eq_false_2 by (intros [? [=]]). reflexivity.
  - intros day w layers H f Hf.
    destruct (read_plumes_and_meta_ok env conf day w layers H) as [_ Hall].
    simpl in Hall. revert Hf.
    generalize (fun be => proj1 (List.filter_In (fun be => present conf (files w) (snd be)) be
                 (pairs_read (files w) (bundle_files conf day (files w))))).
    fold (present_pairs conf (files w) (bundle_files conf day (files w))).
    induction Hall as [|be f' shown plumes Hbf _ IH]; intros Hsub Hf; [destruct Hf|].
    destruct Hf as [<- | Hf].
    + exists be. destruct (Hsub be (or_introl eq_refl)) as [Hin Hp]. auto.
    + apply IH; [|exact Hf]. intros be' Hbe'. apply Hsub. now right.
  - intros day w Hall.
    destruct (read_plumes_and_meta_run env conf day w) as [-> _].
    unfold fusion_out. now apply fusion_fold_total.
Qed.

Lemma missing_artifact_is_skipped_witness :
  transform_to_geojson.horizon_step demo_env demo_conf demo_bundle no_layers
    ("0.5h", demo_hdict) missing_world
  = (Ok no_layers,
     mkWorld (files missing_world) (today missing_world) (ticks missing_world)
       (Printed ("KML missing -> "
                 ++ path_join (project_root demo_conf) "data/plumes/2025-05-11_A1_1.kml")
          :: trace missing_world))
  /\ exists layers,
       fst (transform_to_geojson._read_plumes_and_meta
              demo_env demo_conf "2025-05-11" missing_world) = Ok layers.
Proof.
  split.
  - apply (proj1 (missing_artifact_is_skipped demo_env demo_conf)); reflexivity.
  - apply (proj2 (proj2 (missing_artifact_is_skipped demo_env demo_conf))).
    change (bundle_files demo_conf "2025-05-11" (files missing_world))
      with [demo_bundle_path].
    constructor; [|constructor].
    exists demo_bundle. split; [reflexivity|].
    constructor; [|constructor].
    exists "data/plumes/2025-05-11_A1_1.kml". split; [reflexivity|].
    left. reflexivity.
Defined.

(** C5, as stated, fails: a pair found in the day's bundles whose
    artifact is not on disk gets no meta feature. *)
Lemma absent_artifact_has_no_meta_point :
  pairs_read (files missing_world)
             (bundle_files demo_conf "2025-05-11" (files missing_world))
  = [(demo_bundle, ("0.5h", demo_hdict))]
  /\ fst (transform_to_geojson._read_plumes_and_meta
            demo_env demo_conf "2025-05-11" missing_world)
     = Ok ([], []).
Proof. vm_compute. split; reflexivity. Qed.

(** C5 (amended): for every (incident, horizon) pair found in a day's bundles
    whose artifact file is on disk, layer fusion produces one Point feature
    tagged layer=meta, in the order of reading, whose coordinates are
    [lon, lat] of the bundle and whose properties are layer, guid, title (the
    guid again), horizon_type and the horizon's acres, mix, stclass, frise,
    horizon_min, erate, hrate, wspd and wdir. *)
Theorem meta_point_per_present_pair
        (env : Env) (conf : FSConfig) (day : string) (w : World)
        (layers : transform_to_geojson.Layers) :
  fst (transform_to_geojson._read_plumes_and_meta env conf day w) = Ok layers ->
  let found := pairs_read (files w) (bundle_files conf day (files w)) in
  let shown := present_pairs conf (files w) (bundle_files conf day (files w)) in
  snd layers = map meta_of_pair shown
  /\ (forall be, In be shown <-> In be found /\ present conf (files w) (snd be) = true)
  /\ (forall b label hdict,
        f_geometry (meta_of_pair (b, (label, hdict))) = GjPoint [b_lon b; b_lat b]
        /\ f_properties (meta_of_pair (b, (label, hdict)))
           = [("layer", JStr "meta");
              ("guid", JStr (b_guid b));
              ("title", JStr (b_guid b));
              ("horizon_type", JStr label);
              ("acres", m_acres hdict);
              ("mix", m_mix hdict);
              ("stclass", m_stclass hdict);
              ("frise", m_frise hdict);
              ("horizon_min", m_horizon_min hdict);
              ("erate", m_erate hdict);
              ("hrate", m_hrate hdict);
              ("wspd", JInt (m_wspd hdict));
              ("wdir", JInt (m_wdir hdict))]).
Proof.
  intros H found shown.
  destruct (read_plumes_and_meta_ok env conf day w layers H) as [Hm _].
  split; [exact Hm|]. split.
  - intros be. unfold shown, present_pairs. apply List.filter_In.
  - intros b label hdict. split; reflexivity.
Qed.

Lemma meta_point_per_present_pair_witness :
  fst (transform_to_geojson._read_plumes_and_meta
         demo_env demo_conf "2025-05-11" plume_world)
  = Ok plume_world_layers
  /\ snd plume_world_layers
     = map meta_of_pair
         (present_pairs demo_conf (files plume_world)
            (bundle_files demo_conf "2025-05-11" (files plume_world))).
Proof.
  assert (fst (transform_to_geojson._read_plumes_and_meta
                 demo_env demo_conf "2025-05-11" plume_world)
          = Ok plume_world_layers) as H by (vm_compute; reflexivity).
  split; [exact H|].
  exact (proj1 (meta_point_per_present_pair demo_env demo_conf "2025-05-11"
                  plume_world plume_world_layers H)).
Defined.

(** C4, as stated, fails on the count and on the order.  The count: with one
    incident and one (incident, horizon) pair whose artifact exists but yields
    no ring, the collection has three features (the plume feature is there,
    with a null ring), not 1 + 0 + 1; and with the artifact absent it has one
    feature (no meta point for the pair read), not 1 + 0 + 1 either.  The
    order: plume and meta features follow the listing of the bundle files,
    not the incidents of the snapshot; after a full simulator run over the
    incidents A1, B2 and over the same incidents as B2, A1, the incident
    features come in snapshot order while the plume and meta features come in
    one and the same order, which for one of the two is not the incident
    order. *)
Lemma count_and_order_not_as_claimed :
  (exists gj,
      fst (transform_to_geojson.build demo_env demo_conf "2025-05-11" None ringless_world)
      = Ok (Built gj)
      /\ List.length (fc_features gj) = 3%nat)
  /\ transform_to_geojson.kml_ring_of demo_env ringless_kml = Ok None
  /\ (exists gj,
        fst (transform_to_geojson.build demo_env demo_conf "2025-05-11" None missing_world)
        = Ok (Built gj)
        /\ List.length (fc_features gj) = 1%nat)
  /\ List.length (items_of demo_feed) = 1%nat
  /\ List.length (pairs_read (files ringless_world)
                    (bundle_files demo_conf "2025-05-11" (files ringless_world))) = 1%nat
  /\ List.length (pairs_read (files missing_world)
                    (bundle_files demo_conf "2025-05-11" (files missing_world))) = 1%nat
  /\ (exists gj gj',
        fst (transform_to_geojson.build demo_env demo_conf "2025-05-11" None
               (simulated two_world)) = Ok (Built gj)
        /\ fst (transform_to_geojson.build demo_env demo_conf "2025-05-11" None
                  (simulated swapped_world)) = Ok (Built gj')
        /\ layer_guids "incidents" (fc_features gj)
           = [Some (JStr "A1"); Some (JStr "B2")]
        /\ layer_guids "incidents" (fc_features gj')
           = [Some (JStr "B2"); Some (JStr "A1")]
        /\ layer_guids "plumes" (fc_features gj) = layer_guids "plumes" (fc_features gj')
        /\ layer_guids "meta" (fc_features gj) = layer_guids "meta" (fc_features gj')
        /\ layer_guids "plumes" (fc_features gj')
           = [Some (JStr "A1"); Some (JStr "A1"); Some (JStr "A1");
              Some (JStr "B2"); Some (JStr "B2"); Some (JStr "B2")]
        /\ layer_guids "meta" (fc_features gj')
           = [Some (JStr "A1"); Some (JStr "A1"); Some (JStr "A1");
              Some (JStr "B2"); Some (JStr "B2"); Some (JStr "B2")]).
Proof.
  split; [eexists; split; [vm_compute; reflexivity | reflexivity]|].
  split; [vm_compute; reflexivity|].
  split; [eexists; split; [vm_compute; reflexivity | reflexivity]|].
  split; [reflexivity|].
  split; [vm_compute; reflexivity|].
  split; [vm_compute; reflexivity|].
  eexists _, _. split; [vm_compute; reflexivity|]. split; [vm_compute; reflexivity|].
  vm_compute. repeat split.
Qed.

Lemma map_res_Forall2 {A B} (f : A -> res B) xs : forall ys,
  map_res f xs = Ok ys -> Forall2 (fun x y => f x = Ok y) xs ys.
Proof.
  induction xs as [|x xs IH]; intros ys H; simpl in H.
  - injection H as <-. constructor.
  - destruct (f x) as [y|] eqn:Hy; [|discriminate]. simpl in H.
    destruct (map_res f xs) as [ys'|]; [|discriminate]. simpl in H.
    injection H as <-. constructor; [exact Hy | now apply IH].
Qed.

(** C4 (amended): the features of the fused collection are the incident
    features, in the order of the snapshot's incidents, then all plume
    features, then all meta features; the plume and the meta features come in
    one and the same bundle-then-horizon order, the bundles in the order in
    which the listing of the meta directory yields the day's bundle files and
    the horizons in the order of the bundle's entries; there is one plume
    feature and one meta point per (incident, horizon) pair read whose
    artifact file is on disk, so the total is
    |incidents| + |such pairs| + |such pairs|. *)
Theorem build_orders_and_counts
        (env : Env) (conf : FSConfig) (day : string) (save : option bool)
        (w w' : World) (r : BuildResult) :
  transform_to_geojson.build env conf day save w = (Ok r, w') ->
  exists gj incidents plumes metas,
    produced r w' gj
    /\ fst (transform_to_geojson._read_incidents env conf day w) = Ok incidents
    /\ fst (transform_to_geojson._read_plumes_and_meta env conf day w) = Ok (plumes, metas)
    /\ fc_features gj = ((incidents ++ plumes) ++ metas)%list
    /\ Forall (layer_is "incidents") incidents
    /\ Forall (layer_is "plumes") plumes
    /\ Forall (layer_is "meta") metas
    /\ (exists doc,
          files w !! path_join (INGEST_D conf) ("FireMap_" ++ day ++ ".json")
          = Some (FSnapshot doc)
          /\ Forall2 (fun it f => transform_to_geojson.incident_feature env it = Ok f)
                     (items_of doc) incidents)
    /\ (let shown := present_pairs conf (files w) (bundle_files conf day (files w)) in
        Forall2 (plume_of_pair env conf (files w)) shown plumes
        /\ metas = map meta_of_pair shown
        /\ List.length (fc_features gj)
           = (List.length incidents + List.length shown + List.length shown)%nat).
Proof.
  intros H. unfold transform_to_geojson.build, bind in H.
  pose proof (read_incidents_world env conf day w) as Hw.
  destruct (transform_to_geojson._read_incidents env conf day w) as [[incidents|e] w1] eqn:Hi;
    [|discriminate].
  simpl in Hw. subst w1.
  assert (Forall (layer_is "incidents") incidents) as Hinc.
  { revert Hi. unfold transform_to_geojson._read_incidents, bind, read_file.
    destruct (files w !! _) as [[]|]; try discriminate.
    unfold lift. intros [= Hm].
    eapply (map_res_Forall _ _ _ _ (incident_feature_layer env)); eauto. }
  assert (exists doc,
             files w !! path_join (INGEST_D conf) ("FireMap_" ++ day ++ ".json")
             = Some (FSnapshot doc)
             /\ Forall2 (fun it f => transform_to_geojson.incident_feature env it = Ok f)
                        (items_of doc) incidents) as Hsnap.
  { revert Hi. unfold transform_to_geojson._read_incidents, bind, read_file.
    destruct (files w !! _) as [[doc| | | |]|]; try discriminate.
    unfold lift. intros [= Hm]. exists doc. split; [reflexivity|].
    apply map_res_Forall2.
    destruct (map_res (transform_to_geojson.incident_feature env) (items_of doc));
      [now injection Hm as -> | discriminate]. }
  pose proof (read_plumes_and_meta_run env conf day w) as [_ Hfiles].
  pose proof (read_plumes_and_meta_ok env conf day w) as Hok.
  destruct (transform_to_geojson._read_plumes_and_meta env conf day w)
    as [[[plumes metas]|e] w2] eqn:Hp; [|discriminate].
  simpl in Hfiles. specialize (Hok (plumes, metas) eq_refl) as [Hm Hall].
  simpl in Hm, Hall.
  set (gj := {| fc_title := "FireSmokeMap_" ++ day;
                fc_features := ((incidents ++ plumes) ++ metas)%list |}) in *.
  exists gj, incidents, plumes, metas.
  assert (produced r w' gj) as Hprod.
  { destruct (match save with None => geojson_save_to_disk conf | Some b => b end).
    - unfold write_text, ret in H. simpl in H. injection H as <- <-.
      right. eexists. split; [reflexivity|]. simpl. apply lookup_insert_eq.
    - unfold ret in H. injection H as <- _. now left. }
  split; [exact Hprod|]. split; [reflexivity|]. split; [reflexivity|].
  split; [reflexivity|]. split; [exact Hinc|].
  split; [eapply Forall2_Forall_r; [|exact Hall]; intros; eapply plume_of_pair_layer; eauto|].
  split; [rewrite Hm; apply List.Forall_forall; intros f Hf;
          apply in_map_iff in Hf as [be [<- _]]; reflexivity|].
  split; [exact Hsnap|].
  split; [exact Hall|]. split; [exact Hm|].
  simpl. rewrite !length_app. rewrite (Forall2_same_length _ _ _ Hall).
  rewrite Hm, length_map. reflexivity.
Qed.

Lemma build_orders_and_counts_witness :
  exists gj incidents plumes metas,
    produced (Built plume_world_collection) plume_world gj
    /\ fst (transform_to_geojson._read_incidents demo_env demo_conf "2025-05-11" plume_world)
       = Ok incidents
    /\ fst (transform_to_geojson._read_plumes_and_meta
              demo_env demo_conf "2025-05-11" plume_world) = Ok (plumes, metas)
    /\ fc_features gj = ((incidents ++ plumes) ++ metas)%list
    /\ Forall (layer_is "incidents") incidents
    /\ Forall (layer_is "plumes") plumes
    /\ Forall (layer_is "meta") metas
    /\ (exists doc,
          files plume_world
          !! path_join (INGEST_D demo_conf) ("FireMap_" ++ "2025-05-11" ++ ".json")
          = Some (FSnapshot doc)
          /\ Forall2 (fun it f => transform_to_geojson.incident_feature demo_env it = Ok f)
                     (items_of doc) incidents)
    /\ (let shown := present_pairs demo_conf (files plume_world)
                       (bundle_files demo_conf "2025-05-11" (files plume_world)) in
        Forall2 (plume_of_pair demo_env demo_conf (files plume_world)) shown plumes
        /\ metas = map meta_of_pair shown
        /\ List.length (fc_features gj)
           = (List.length incidents + List.length shown + List.length shown)%nat).
Proof.
  apply (build_orders_and_counts demo_env demo_conf "2025-05-11" (Some false)
           plume_world plume_world (Built plume_world_collection)).
  vm_compute. reflexivity.
Defined.

(** ** Instances *)


Lemma bundle_written_after_all_horizons_witness :
  ~ engine_ok failing_env demo_conf fresh_world (it_guid demo_item) 1 "2"
  /\ is_ok (fst (smoke_simulator.process_item failing_env demo_conf
                   demo_snapshot_path demo_item fresh_world)) = false.
Proof.
  assert (~ engine_ok failing_env demo_conf fresh_world (it_guid demo_item) 1 "2") as Hbad.
  { intros [H _]. vm_compute in H. discriminate. }
  split; [exact Hbad|].
  destruct (proj1 (bundle_written_after_all_horizons failing_env demo_conf
                     demo_snapshot_path) demo_item fresh_world)
    as (evs & _ & _ & Hfail).
  apply (Hfail 1%nat "2"); [simpl; auto | exact Hbad].
Defined.

Lemma fires_layer_matches_fusion_witness :
  plain_link (it_link demo_item) "http://maps.google.com/?" "30.30" "-97.73"
  /\ res_map f_geometry (arcgis_api.fires_feature demo_env demo_item)
     = res_map f_geometry (transform_to_geojson.incident_feature demo_env demo_item).
Proof.
  assert (plain_link (it_link demo_item) "http://maps.google.com/?" "30.30" "-97.73") as H
    by (repeat split; reflexivity).
  split; [exact H|].
  exact (proj1 (proj1 (fires_layer_matches_fusion demo_env) demo_item _ _ _ H)).
Defined.

(** ** Scenarios *)

(** Incident A1 at 30.30,-97.73 with wind "4 mph"/"S": three descriptors with
    stems [2025-05-11_A1_1/2/3], wind 4 mph from 180, then the bundle. *)
Example three_horizon_run :
  let w' := snd (smoke_simulator.process_firemap demo_env demo_conf
                   demo_snapshot_path fresh_world) in
  written_paths (trace w')
  = ["/srv/fs/data/meta/2025-05-11_A1_1.json";
     "/srv/fs/data/plumes/2025-05-11_A1_1.kml";
     "/srv/fs/data/meta/2025-05-11_A1_2.json";
     "/srv/fs/data/plumes/2025-05-11_A1_2.kml";
     "/srv/fs/data/meta/2025-05-11_A1_3.json";
     "/srv/fs/data/plumes/2025-05-11_A1_3.kml";
     demo_bundle_path]
  /\ (exists b, files w' !! demo_bundle_path = Some (FBundle b)
                /\ map fst (b_horizons b) = ["0.5h"; "1.5h"; "2.5h"]
                /\ map (fun h => (m_wspd (snd h), m_wdir (snd h))) (b_horizons b)
                   = [(4, 180); (4, 180); (4, 180)]).
Proof.
  split; [vm_compute; reflexivity|].
  eexists. split; [vm_compute; reflexivity|]. split; reflexivity.
Qed.

(** When the solver of the second horizon fails, no bundle file appears. *)
Example failed_horizon_leaves_no_bundle :
  let w' := snd (smoke_simulator.process_firemap failing_env demo_conf
                   demo_snapshot_path fresh_world) in
  files w' !! demo_bundle_path = None
  /\ written_paths (trace w')
     = ["/srv/fs/data/meta/2025-05-11_A1_1.json";
        "/srv/fs/data/plumes/2025-05-11_A1_1.kml";
        "/srv/fs/data/meta/2025-05-11_A1_2.json"].
Proof. vm_compute. split; reflexivity. Qed.

(** A collection holding one polygon yields that polygon's exterior ring. *)
Example collection_scenario :
  transform_to_geojson._kml_ring demo_env demo_kml_path plume_world
  = (Ok (Some demo_ring), plume_world).
Proof. vm_compute. reflexivity. Qed.

(** A fetch-count spy on two calls for a past day with a file. *)
Example second_call_fetches_nothing :
  let first := fire_ingester.run demo_env demo_conf (Some "2025-05-11") plume_world in
  let second := fire_ingester.run demo_env demo_conf (Some "2025-05-11") (snd first) in
  fst first = fst second
  /\ fetches (snd second) = 0%nat.
Proof. vm_compute. split; reflexivity. Qed.

(** For today the snapshot is fetched again. *)
Example today_is_fetched_again :
  fetches (snd (fire_ingester.run demo_env demo_conf None fresh_world)) = 1%nat.
Proof. reflexivity. Qed.

(* ===================================================================== *)
(** * Further properties of the code *)
(* ===================================================================== *)

Lemma swap_xy_rev (p : coord) :
  arcgis_api.swap_xy p
  = if (List.length p =? 2)%nat then Ok (rev p) else Raise ValueError.
Proof. destruct p as [|x [|y [|z p]]]; reflexivity. Qed.

Lemma swap_ring_rev (r : list coord) :
  arcgis_api.swap_ring r
  = if forallb (fun p : coord => (List.length p =? 2)%nat) r
    then Ok (map (@rev float) r) else Raise ValueError.
Proof.
  unfold arcgis_api.swap_ring. induction r as [|p r IH]; [reflexivity|].
  simpl. rewrite swap_xy_rev. destruct (List.length p =? 2)%nat; [|reflexivity].
  simpl. rewrite IH. now destruct (forallb _ r).
Qed.

Lemma swap_rings_rev (rs : list (list coord)) :
  map_res arcgis_api.swap_ring rs
  = if all_pairs rs then Ok (map (map (@rev float)) rs) else Raise ValueError.
Proof.
  unfold all_pairs. induction rs as [|r rs IH]; [reflexivity|].
  simpl. rewrite swap_ring_rev. destruct (forallb _ r); [|reflexivity].
  simpl. rewrite IH. now destruct (forallb _ rs).
Qed.

Lemma to_esrijson_polygon rings :
  arcgis_api.to_esrijson (GeoPolygon rings)
  = if all_pairs rings
    then Ok (esri_of (map (map (@rev float)) rings))
    else Raise ValueError.
Proof.
  unfold arcgis_api.to_esrijson. rewrite swap_rings_rev.
  now destruct (all_pairs rings).
Qed.

(** X1: the converter succeeds exactly when every point of every ring has
    two components, and then reverses each point; a point with another
    number of components (a KML point with an altitude, say) makes the
    unpacking raise [ValueError].  The same holds for a MultiPolygon over
    the concatenation of its members. *)
Theorem to_esrijson_pairs_or_value_error :
  (forall rings,
      arcgis_api.to_esrijson (GeoPolygon rings)
      = if all_pairs rings
        then Ok (esri_of (map (map (@rev float)) rings))
        else Raise ValueError)
  /\ (forall polys,
        arcgis_api.to_esrijson (GeoMultiPolygon polys)
        = if all_pairs (concat polys)
          then Ok (esri_of (map (map (@rev float)) (concat polys)))
          else Raise ValueError)
  /\ (forall x y z : float,
        arcgis_api.to_esrijson (GeoPolygon [[[x; y; z]]]) = Raise ValueError).
Proof.
  split; [|split].
  - apply to_esrijson_polygon.
  - intros polys. unfold arcgis_api.to_esrijson. rewrite swap_rings_rev.
    now destruct (all_pairs (concat polys)).
  - reflexivity.
Qed.

Lemma all_pairs_rev rings :
  all_pairs rings = true ->
  all_pairs (map (map (@rev float)) rings) = true
  /\ map (map (@rev float)) (map (map (@rev float)) rings) = rings.
Proof.
  unfold all_pairs. induction rings as [|r rings IH]; intros H; [split; reflexivity|].
  simpl in H. apply andb_true_iff in H as [Hr Hrs]. destruct (IH Hrs) as [IH1 IH2].
  assert (forallb (fun p : coord => (List.length p =? 2)%nat) (map (@rev float) r) = true
          /\ map (@rev float) (map (@rev float) r) = r) as [H1 H2].
  { clear -Hr. induction r as [|p r IHr]; [split; reflexivity|].
    simpl in Hr. apply andb_true_iff in Hr as [Hp Hr]. destruct (IHr Hr) as [A B].
    simpl. rewrite length_rev, Hp, A, rev_involutive, B. split; reflexivity. }
  simpl. rewrite H1, IH1, H2, IH2. split; reflexivity.
Qed.

(** X2: a conversion that succeeds keeps the number of rings and the number
    of points of each ring, and converting its rings once more gives the
    original coordinates back: the swap is an involution. *)
Theorem to_esrijson_twice (rings : list (list coord)) (out : EsriJson) :
  arcgis_api.to_esrijson (GeoPolygon rings) = Ok out ->
  exists swapped,
    esri_features out = [ {| ef_rings := swapped; ef_attributes := [] |} ]
    /\ List.length swapped = List.length rings
    /\ map (@List.length _) swapped = map (@List.length _) rings
    /\ arcgis_api.to_esrijson (GeoPolygon swapped) = Ok (esri_of rings).
Proof.
  intros H. rewrite to_esrijson_polygon in H.
  destruct (all_pairs rings) eqn:Hp; [|discriminate]. injection H as <-.
  destruct (all_pairs_rev rings Hp) as [Hp' Hrr].
  exists (map (map (@rev float)) rings). split; [reflexivity|].
  split; [now rewrite length_map|]. split.
  - rewrite List.map_map. apply map_ext. intros r. now rewrite length_map.
  - rewrite to_esrijson_polygon, Hp', Hrr. reflexivity.
Qed.

Lemma to_esrijson_twice_witness :
  exists swapped,
    esri_features (esri_of [[[0; 1]; [2; 3]; [4; 5]; [0; 1]]]%float)
    = [ {| ef_rings := swapped; ef_attributes := [] |} ]
    /\ List.length swapped = 1%nat
    /\ map (@List.length _) swapped = [4%nat]
    /\ arcgis_api.to_esrijson (GeoPolygon swapped)
       = Ok (esri_of [[[1; 0]; [3; 2]; [5; 4]; [1; 0]]]%float).
Proof.
  exact (to_esrijson_twice [[[1; 0]; [3; 2]; [5; 4]; [1; 0]]]%float
           (esri_of [[[0; 1]; [2; 3]; [4; 5]; [0; 1]]]%float) eq_refl).
Defined.

Lemma occurs_clean sep a : occurs sep a = false -> clean sep a "" = true.
Proof.
  induction a as [|c a IH]; intros H; [reflexivity|].
  cbn [occurs] in H. apply orb_false_iff in H as [Hp Ha].
  cbn [clean]. rewrite app_empty_r, Hp. simpl. now apply IH.
Qed.

Lemma split_absent sep s : occurs sep s = false -> PyStr.split sep s = [s].
Proof. intros H. apply split_none. now apply occurs_clean. Qed.

Lemma split_from_nonempty sep s : forall skip cur,
  PyStr.split_from sep skip cur s <> [].
Proof.
  induction s as [|c s IH]; intros skip cur; [simpl; intros H; discriminate H|].
  cbn [PyStr.split_from]. destruct skip; [|apply IH].
  destruct (String.prefix sep (String c s)); [intros H; discriminate H | apply IH].
Qed.

Lemma split_nonempty sep s : PyStr.split sep s <> [].
Proof. apply split_from_nonempty. Qed.

Lemma map_res_length {A B} (f : A -> res B) xs ys :
  map_res f xs = Ok ys -> List.length ys = List.length xs.
Proof.
  revert ys. induction xs as [|x xs IH]; intros ys H; simpl in H.
  - now injection H as <-.
  - destruct (f x); [|discriminate]. simpl in H.
    destruct (map_res f xs); [|discriminate]. simpl in H.
    injection H as <-. simpl. f_equal. now apply IH.
Qed.

Lemma map_res_each {A B} (f : A -> res B) (P : B -> Prop) xs ys :
  (forall x y, f x = Ok y -> P y) -> map_res f xs = Ok ys -> Forall P ys.
Proof.
  intros HP. revert ys. induction xs as [|x xs IH]; intros ys H; simpl in H.
  - injection H as <-. constructor.
  - destruct (f x) as [y|] eqn:Hy; [|discriminate]. simpl in H.
    destruct (map_res f xs) as [ys'|]; [|discriminate]. simpl in H.
    injection H as <-. constructor; eauto.
Qed.

Section FallbackShape.
Variable env : Env.

Lemma parse_pair_size tok c :
  transform_to_geojson.parse_pair env tok = Ok c ->
  (1 <= List.length c <= 2)%nat.
Proof.
  unfold transform_to_geojson.parse_pair. intros H.
  apply map_res_length in H. rewrite H.
  pose proof (split_nonempty "," tok) as Hne.
  destruct (PyStr.split "," tok) as [|a [|b l]]; [now destruct Hne | simpl; lia | simpl; lia].
Qed.

Lemma parse_pair_bare tok :
  has_char comma tok = false ->
  transform_to_geojson.parse_pair env tok
  = (let? a := float_of env tok in Ok [a])%res.
Proof.
  intros H. unfold transform_to_geojson.parse_pair.
  rewrite split_none by (now apply clean_char). simpl.
  now destruct (float_of env tok).
Qed.

End FallbackShape.

(** X3: a ring the text fallback returns is never empty, has one point per
    whitespace-separated token of the stripped coordinate text, and each
    point has one or two components (a third one, the altitude, is cut
    off). *)
Theorem fallback_ring_shape (env : Env) (txt : string) (r : ring) :
  transform_to_geojson.fallback_ring env (Some txt) = Ok (Some r) ->
  r <> []
  /\ List.length r = List.length (PyStr.split_ws (strip txt))
  /\ Forall (fun p : coord => (1 <= List.length p <= 2)%nat) r.
Proof.
  unfold transform_to_geojson.fallback_ring.
  destruct (PyStr.is_empty txt); [discriminate|].
  destruct (map_res _ _) as [pairs|] eqn:Hp; [|discriminate]. simpl.
  destruct pairs as [|p ps]; [discriminate|]. intros [= <-].
  split; [intros [=]|]. split.
  - now apply map_res_length in Hp.
  - eapply map_res_each; [|exact Hp]. intros x y. apply parse_pair_size.
Qed.

(** X4: the fallback does not insist on pairs: a token without a comma
    becomes a point with a single component when [float] accepts it, and a
    [ValueError] otherwise. *)
Theorem fallback_token_without_comma (env : Env) (tok : string) :
  has_char comma tok = false ->
  transform_to_geojson.parse_pair env tok
  = match pyfloat env tok with
    | Some a => Ok [a]
    | None => Raise ValueError
    end.
Proof.
  intros H. rewrite parse_pair_bare by assumption. unfold float_of.
  now destruct (pyfloat env tok).
Qed.

Lemma fallback_ring_shape_witness :
  transform_to_geojson.fallback_ring demo_env (Some " 1,2,0 3,4,0 5 ")
  = Ok (Some [[1; 2]; [3; 4]; [5]]%float)
  /\ [[1; 2]; [3; 4]; [5]]%float <> ([] : ring)
  /\ List.length [[1; 2]; [3; 4]; [5]]%float
     = List.length (PyStr.split_ws (strip " 1,2,0 3,4,0 5 "))
  /\ Forall (fun p : coord => (1 <= List.length p <= 2)%nat) [[1; 2]; [3; 4]; [5]]%float.
Proof.
  split; [reflexivity|].
  exact (fallback_ring_shape demo_env " 1,2,0 3,4,0 5 " [[1; 2]; [3; 4]; [5]]%float eq_refl).
Defined.

Lemma fallback_token_without_comma_witness :
  has_char comma "7" = false
  /\ transform_to_geojson.parse_pair demo_env "7" = Ok [7%float].
Proof.
  split; [reflexivity|].
  rewrite (fallback_token_without_comma demo_env "7" eq_refl). reflexivity.
Defined.

(** X5: a fetch that fails leaves the snapshot as it was; a day that does not
    parse raises before anything is fetched. *)
Theorem run_failure_writes_nothing (env : Env) (conf : FSConfig) :
  (forall day_str d w e,
      fst (fire_ingester.day_of env day_str w) = Ok d ->
      d = today w \/ files w !! fire_ingester._target conf d = None ->
      fetch_rss env (ticks w) = Raise e ->
      fst (fire_ingester.run env conf day_str w) = Raise e
      /\ files (snd (fire_ingester.run env conf day_str w)) = files w
      /\ fetches (snd (fire_ingester.run env conf day_str w)) = S (fetches w))
  /\ (forall s w,
        PyStr.is_empty s = false ->
        strptime_date env s = None ->
        fire_ingester.run env conf (Some s) w = (Raise ValueError, w)).
Proof.
  split.
  - intros day_str d w e Hd Hcase Hfetch.
    rewrite (run_unfold env conf day_str d w Hd). unfold run_on.
    assert (bool_decide (is_Some (files w !! fire_ingester._target conf d))
            && negb (String.eqb d (today w)) = false) as ->.
    { destruct Hcase as [-> | Hno].
      - now rewrite String.eqb_refl, andb_false_r.
      - rewrite bool_decide_eq_false_2; [reflexivity|]. rewrite Hno. intros [? [=]]. }
    rewrite Hfetch. repeat split.
  - intros s w Hs Hp. unfold fire_ingester.run, fire_ingester.day_of, bind.
    rewrite Hs, Hp. reflexivity.
Qed.

Lemma run_failure_writes_nothing_witness :
  fst (fire_ingester.run offline_env demo_conf None fresh_world)
  = Raise (RuntimeError "503 Server Error")
  /\ files (snd (fire_ingester.run offline_env demo_conf None fresh_world))
     = files fresh_world
  /\ fire_ingester.run offline_env demo_conf (Some "yesterday") fresh_world
     = (Raise ValueError, fresh_world).
Proof.
  destruct (proj1 (run_failure_writes_nothing offline_env demo_conf)
              None "2025-05-11" fresh_world (RuntimeError "503 Server Error")
              eq_refl (or_introl eq_refl) eq_refl) as (H1 & H2 & _).
  split; [exact H1|]. split; [exact H2|].
  apply (proj2 (run_failure_writes_nothing offline_env demo_conf)); reflexivity.
Defined.

(** X6: what a call that returns leaves behind: the returned path is the
    day's snapshot path, that file exists, and no other file has changed. *)
Theorem run_touches_one_file (env : Env) (conf : FSConfig)
        (day_str : option string) (w w' : World) (p : string) :
  fire_ingester.run env conf day_str w = (Ok p, w') ->
  exists d,
    fst (fire_ingester.day_of env day_str w) = Ok d
    /\ p = fire_ingester._target conf d
    /\ is_Some (files w' !! p)
    /\ (forall q, q <> p -> files w' !! q = files w !! q)
    /\ today w' = today w.
Proof.
  intros H.
  destruct (fst (fire_ingester.day_of env day_str w)) as [d|e] eqn:Hd.
  - exists d. split; [reflexivity|].
    rewrite (run_unfold env conf day_str d w Hd) in H. unfold run_on in H.
    destruct (bool_decide (is_Some (files w !! fire_ingester._target conf d))) eqn:Hex;
      simpl in H.
    + destruct (negb (String.eqb d (today w))).
      * injection H as <- <-. apply bool_decide_eq_true_1 in Hex. auto.
      * destruct (fetch_rss env (ticks w)); [|discriminate].
        injection H as <- <-. simpl. rewrite lookup_insert_eq.
        repeat split; eauto. intros q Hq. now rewrite lookup_insert_ne.
    + destruct (fetch_rss env (ticks w)); [|discriminate].
      injection H as <- <-. simpl. rewrite lookup_insert_eq.
      repeat split; eauto. intros q Hq. now rewrite lookup_insert_ne.
  - exfalso. unfold fire_ingester.run, bind in H.
    destruct (fire_ingester.day_of env day_str w) as [[d|e'] w0]; simpl in Hd;
      [discriminate|]. discriminate.
Qed.

Lemma run_touches_one_file_witness :
  exists d,
    fst (fire_ingester.day_of demo_env None fresh_world) = Ok d
    /\ demo_snapshot_path = fire_ingester._target demo_conf d
    /\ is_Some (files (snd (fire_ingester.run demo_env demo_conf None fresh_world))
                  !! demo_snapshot_path)
    /\ (forall q, q <> demo_snapshot_path ->
          files (snd (fire_ingester.run demo_env demo_conf None fresh_world)) !! q
          = files fresh_world !! q)
    /\ today (snd (fire_ingester.run demo_env demo_conf None fresh_world))
       = today fresh_world.
Proof.
  apply (run_touches_one_file demo_env demo_conf None fresh_world).
  reflexivity.
Defined.

Lemma strip_prefix_app pre : forall s rest,
  PyPath.strip_prefix pre s = Some rest -> s = pre ++ rest.
Proof.
  induction pre as [|a pre IH]; intros s rest H; simpl in H.
  - now injection H as ->.
  - destruct s as [|b s]; [discriminate|].
    destruct (Ascii.eqb_spec a b) as [->|]; [|discriminate].
    rewrite app_cons. f_equal. now apply IH.
Qed.

Lemma strip_prefix_refl pre : forall rest,
  PyPath.strip_prefix pre (pre ++ rest) = Some rest.
Proof.
  induction pre as [|a pre IH]; intros rest; [reflexivity|].
  rewrite app_cons. simpl. rewrite Ascii.eqb_refl. apply IH.
Qed.

Lemma relative_to_round_trip root p rel :
  PyPath.relative_to root p = Ok rel -> p = path_join root rel.
Proof.
  unfold PyPath.relative_to, path_join.
  destruct (PyPath.strip_prefix (root ++ "/") p) as [rest|] eqn:H; [|discriminate].
  intros [= <-]. apply strip_prefix_app in H. now rewrite app_assoc_s in H.
Qed.

Lemma wspd_of_at_least_one s n : smoke_simulator.wspd_of s = Ok n -> 1 <= n.
Proof.
  unfold smoke_simulator.wspd_of.
  destruct (PyStr.item (PyStr.split_ws s) 0) as [raw|]; [|discriminate]. simpl.
  destruct (if PyStr.isdigit raw then PyStr.int raw else Ok 0) as [v|]; [|discriminate].
  simpl. intros [= <-]. destruct (Z.ltb_spec v 1); lia.
Qed.

Lemma wdir_of_in_range label w :
  smoke_simulator.wdir_of label = Ok w -> 1 <= w <= 360.
Proof.
  destruct (PyStr.contains smoke_simulator._dirs label) eqn:Hin.
  - apply contains_In in Hin. vm_compute in Hin.
    repeat (destruct Hin as [<- | Hin]; [vm_compute; intros [= <-]; split; discriminate|]).
    destruct Hin.
  - unfold smoke_simulator.wdir_of. rewrite Hin. vm_compute.
    intros [= <-]. split; discriminate.
Qed.

Section HorizonResult.
Variable env : Env.
Variable conf : FSConfig.

Lemma wx_block_run lat lon w :
  smoke_simulator._wx_block env lat lon w
  = (smoke_simulator_wx (get_hourly_wx env (ticks w) lat lon),
     mkWorld (files w) (today w) (S (ticks w)) (AskedWx lat lon :: trace w)).
Proof.
  unfold smoke_simulator._wx_block, smoke_simulator_wx, bind, tick, log, lift, ret. simpl.
  destruct (get_hourly_wx env (ticks w) lat lon) as [wx|]; [|reflexivity]. simpl.
  destruct (smoke_simulator.wspd_of (windSpeed wx)); [|reflexivity]. simpl.
  destruct (smoke_simulator.wdir_of (windDirection wx)); reflexivity.
Qed.

Lemma run_vsmoke_ok ipt w kml w' :
  smoke_simulator._run_vsmoke env conf ipt w = (Ok kml, w') ->
  exists m,
    files w !! ipt = Some (FInput m)
    /\ files w' !! ipt = Some (FInput m)
    /\ kml = path_join (PLUMES_D conf) (m_name m ++ ".kml")
    /\ fst (solver env (ticks w)) = 0
    /\ fst (fst (converter env (S (ticks w)) ipt)) = 0.
Proof.
  unfold smoke_simulator._run_vsmoke, bind, tick, log. simpl.
  destruct (solver env (ticks w)) as [rc out].
  destruct (Z.eqb_spec rc 0) as [->|]; simpl; [|discriminate].
  destruct (converter env (S (ticks w)) ipt) as [[rc2 out2] k].
  unfold smoke_simulator.converter_leaves, write_text, read_file, raise, ret. simpl.
  destruct k as [k|].
  - destruct (files w !! ipt) as [f|] eqn:Hf.
    + destruct f; simpl;
        try (destruct (Z.eqb_spec rc2 0) as [->|]; simpl; [|discriminate];
             rewrite Hf; simpl; discriminate).
      destruct (Z.eqb_spec rc2 0) as [->|]; simpl; [|discriminate].
      destruct (decide (path_join (PLUMES_D conf) (m_name m ++ ".kml") = ipt)) as [He|Hne].
      * rewrite He, lookup_insert_eq. simpl. discriminate.
      * rewrite lookup_insert_ne by assumption. rewrite Hf. simpl.
        intros [= <- <-]. exists m. simpl. rewrite lookup_insert_ne by assumption.
        auto.
    + simpl. destruct (Z.eqb_spec rc2 0) as [->|]; simpl; [|discriminate].
      rewrite Hf. simpl. discriminate.
  - simpl. destruct (Z.eqb_spec rc2 0) as [->|]; simpl; [|discriminate].
    destruct (files w !! ipt) as [f|] eqn:Hf; simpl; [|discriminate].
    destruct f; simpl; try discriminate.
    intros [= <- <-]. exists m. simpl. auto.
Qed.

Lemma single_horizon_ok guid lat lon tag mins w m w' :
  smoke_simulator._single_horizon env conf guid lat lon tag mins w = (Ok m, w') ->
  exists wb rel,
    smoke_simulator_wx (get_hourly_wx env (ticks w) lat lon) = Ok wb
    /\ m = with_kml (descriptor conf (today w) guid lat lon tag mins
                                 (wb_wspd wb) (wb_wdir wb)) rel
    /\ path_join (project_root conf) rel
       = path_join (PLUMES_D conf) ((today w ++ "_" ++ guid ++ "_" ++ tag) ++ ".kml")
    /\ files w' !! input_path conf (today w) guid tag
       = Some (FInput (descriptor conf (today w) guid lat lon tag mins
                                  (wb_wspd wb) (wb_wdir wb))).
Proof.
  unfold smoke_simulator._single_horizon, bind, now_date. simpl.
  rewrite wx_block_run.
  destruct (smoke_simulator_wx (get_hourly_wx env (ticks w) lat lon)) as [wb|];
    [|discriminate].
  unfold smoke_simulator._build_input, bind, write_text, ret. simpl.
  match goal with
  | |- context [smoke_simulator._run_vsmoke env conf ?ipt ?w2] =>
      pose proof (run_vsmoke_ok ipt w2) as Hrun;
      destruct (smoke_simulator._run_vsmoke env conf ipt w2) as [[kml|] w3]
  end; [|discriminate].
  destruct (Hrun kml w3 eq_refl) as (m0 & Hin & Hout & -> & _). clear Hrun.
  simpl in Hin. rewrite lookup_insert_eq in Hin. injection Hin as <-.
  unfold lift.
  destruct (PyPath.relative_to (project_root conf) _) as [rel|] eqn:Hrel; [|discriminate].
  simpl. intros [= <- <-]. exists wb, rel.
  split; [reflexivity|]. split; [reflexivity|]. split.
  - symmetry. apply relative_to_round_trip. exact Hrel.
  - exact Hout.
Qed.

End HorizonResult.

Lemma single_horizon_fields (env : Env) (conf : FSConfig)
        (guid : string) (lat lon : float) (tag : string) (mins : Z)
        (w w' : World) (m : Meta) :
  smoke_simulator._single_horizon env conf guid lat lon tag mins w = (Ok m, w') ->
  m_stem m = today w ++ "_" ++ guid ++ "_" ++ tag
  /\ m_name m = m_stem m
  /\ m_guid m = guid /\ m_lat m = lat /\ m_lon m = lon
  /\ m_horizon_min m = JInt mins
  /\ 1 <= m_wspd m
  /\ 1 <= m_wdir m <= 360
  /\ kml_abs_of conf m = Some (path_join (PLUMES_D conf) (m_stem m ++ ".kml"))
  /\ exists d rel,
       m = with_kml d rel
       /\ m_kml d = None
       /\ files w' !! path_join (META_D conf) (m_stem m ++ ".json") = Some (FInput d).
Proof.
  intros H. apply single_horizon_ok in H as (wb & rel & Hwx & -> & Hrel & Hfile).
  simpl. repeat (split; [reflexivity|]).
  assert (1 <= wb_wspd wb /\ 1 <= wb_wdir wb <= 360) as [Hs Hd].
  { unfold smoke_simulator_wx in Hwx.
    destruct (get_hourly_wx env (ticks w) lat lon) as [wx|]; [|discriminate].
    simpl in Hwx.
    destruct (smoke_simulator.wspd_of (windSpeed wx)) as [s|] eqn:Es; [|discriminate].
    destruct (smoke_simulator.wdir_of (windDirection wx)) as [d|] eqn:Ed; [|discriminate].
    simpl in Hwx. injection Hwx as <-. simpl.
    split; [eapply wspd_of_at_least_one | eapply wdir_of_in_range]; eauto. }
  split; [exact Hs|]. split; [exact Hd|].
  split; [unfold kml_abs_of; simpl; now rewrite Hrel|].
  eexists _, rel. split; [reflexivity|]. split; [reflexivity|]. exact Hfile.
Qed.

(** X7: the record a successful horizon run returns: its stem and name are
    [<today>_<guid>_<tag>], it carries the incident's id and coordinates and
    the horizon's minutes, a wind speed of at least 1 and a direction within
    1..360, and its "kml" entry, resolved against the project root as layer
    fusion does, is [<stem>.kml] in the plume directory; the descriptor
    written for the engine is the same record without the "kml" entry and is
    left under [<stem>.json] in the meta directory. *)
Theorem single_horizon_result (env : Env) (conf : FSConfig)
        (guid : string) (lat lon : float) (tag : string) (mins : Z)
        (w w' : World) (m : Meta) :
  smoke_simulator._single_horizon env conf guid lat lon tag mins w = (Ok m, w') ->
  m_stem m = today w ++ "_" ++ guid ++ "_" ++ tag
  /\ m_name m = m_stem m
  /\ m_guid m = guid /\ m_lat m = lat /\ m_lon m = lon
  /\ m_horizon_min m = JInt mins
  /\ 1 <= m_wspd m
  /\ 1 <= m_wdir m <= 360
  /\ kml_abs_of conf m = Some (path_join (PLUMES_D conf) (m_stem m ++ ".kml"))
  /\ exists d rel,
       m = with_kml d rel
       /\ m_kml d = None
       /\ files w' !! path_join (META_D conf) (m_stem m ++ ".json") = Some (FInput d).
Proof. apply single_horizon_fields. Qed.

Lemma single_horizon_result_witness :
  exists m w',
    smoke_simulator._single_horizon demo_env demo_conf "A1" 30.30 (-97.73) "1" 30
      fresh_world = (Ok m, w')
    /\ m_stem m = "2025-05-11_A1_1"
    /\ m_wspd m = 4 /\ m_wdir m = 180
    /\ kml_abs_of demo_conf m = Some demo_kml_path.
Proof.
  eexists _, _. split; [vm_compute; reflexivity|].
  match goal with
  | |- m_stem ?m = _ /\ _ =>
      destruct (single_horizon_result demo_env demo_conf "A1" 30.30 (-97.73) "1" 30
                  fresh_world
                  (snd (smoke_simulator._single_horizon demo_env demo_conf "A1"
                          30.30 (-97.73) "1" 30 fresh_world))
                  m ltac:(vm_compute; reflexivity))
        as (Hstem & _ & _ & _ & _ & _ & _ & _ & Hk & _)
  end.
  split; [exact Hstem|]. split; [reflexivity|]. split; [reflexivity|]. exact Hk.
Defined.

Lemma process_item_bundle (env : Env) (conf : FSConfig) (firemap_json : string)
        (it : Item) (w w' : World) :
  smoke_simulator.process_item env conf firemap_json it w = (Ok tt, w') ->
  exists lat lon h1 h2 h3,
    link_lat_lon env (it_link it) = Ok (lat, lon)
    /\ files w' !! smoke_simulator.bundle_path conf firemap_json (it_guid it)
       = Some (FBundle {| b_guid := it_guid it; b_lat := lat; b_lon := lon;
                          b_horizons := [("0.5h", h1); ("1.5h", h2); ("2.5h", h3)] |})
    /\ map (fun h => m_stem h) [h1; h2; h3]
       = map (fun tag => today w ++ "_" ++ it_guid it ++ "_" ++ tag) ["1"; "2"; "3"]
    /\ map (fun h => m_horizon_min h) [h1; h2; h3] = [JInt 30; JInt 90; JInt 150]
    /\ Forall (fun h => kml_abs_of conf h
                        = Some (path_join (PLUMES_D conf) (m_stem h ++ ".kml"))
                        /\ m_guid h = it_guid it /\ m_lat h = lat /\ m_lon h = lon
                        /\ 1 <= m_wspd h /\ 1 <= m_wdir h <= 360)
              [h1; h2; h3].
Proof.
  unfold smoke_simulator.process_item, bind, lift. simpl.
  destruct (link_lat_lon env (it_link it)) as [[lat lon]|]; [|discriminate]. simpl.
  pose proof (single_horizon_spec env conf (it_guid it) lat lon "1" 30 w) as [[Hd1 _] _].
  destruct (smoke_simulator._single_horizon env conf (it_guid it) lat lon "1" 30 w)
    as [[h1|] w1] eqn:E1; [|discriminate].
  pose proof (single_horizon_spec env conf (it_guid it) lat lon "2" 90 w1) as [[Hd2 _] _].
  destruct (smoke_simulator._single_horizon env conf (it_guid it) lat lon "2" 90 w1)
    as [[h2|] w2] eqn:E2; [|discriminate].
  destruct (smoke_simulator._single_horizon env conf (it_guid it) lat lon "3" 150 w2)
    as [[h3|] w3] eqn:E3; [|discriminate].
  simpl in Hd1, Hd2.
  unfold write_text, print, log. simpl. intros [= <-]. simpl.
  apply single_horizon_fields in E1 as (S1 & _ & G1 & A1 & O1 & M1 & P1 & D1 & K1 & _).
  apply single_horizon_fields in E2 as (S2 & _ & G2 & A2 & O2 & M2 & P2 & D2 & K2 & _).
  apply single_horizon_fields in E3 as (S3 & _ & G3 & A3 & O3 & M3 & P3 & D3 & K3 & _).
  rewrite Hd1 in S2. rewrite Hd2, Hd1 in S3.
  exists lat, lon, h1, h2, h3.
  split; [reflexivity|]. split; [apply lookup_insert_eq|].
  split; [simpl; now rewrite S1, S2, S3|].
  split; [simpl; now rewrite M1, M2, M3|].
  constructor; [tauto|]. constructor; [tauto|]. constructor; [tauto|]. constructor.
Qed.

(** X8: what the bundle of a processed incident holds: the incident's id,
    the coordinates parsed from its link, and under the labels 0.5h, 1.5h,
    2.5h the results of the runs tagged 1, 2, 3 with 30, 90 and 150 minutes,
    each pointing at its own artifact in the plume directory. *)
Theorem bundle_contents (env : Env) (conf : FSConfig) (firemap_json : string)
        (it : Item) (w w' : World) :
  smoke_simulator.process_item env conf firemap_json it w = (Ok tt, w') ->
  exists lat lon h1 h2 h3,
    link_lat_lon env (it_link it) = Ok (lat, lon)
    /\ files w' !! smoke_simulator.bundle_path conf firemap_json (it_guid it)
       = Some (FBundle {| b_guid := it_guid it; b_lat := lat; b_lon := lon;
                          b_horizons := [("0.5h", h1); ("1.5h", h2); ("2.5h", h3)] |})
    /\ map (fun h => m_stem h) [h1; h2; h3]
       = map (fun tag => today w ++ "_" ++ it_guid it ++ "_" ++ tag) ["1"; "2"; "3"]
    /\ map (fun h => m_horizon_min h) [h1; h2; h3] = [JInt 30; JInt 90; JInt 150]
    /\ Forall (fun h => kml_abs_of conf h
                        = Some (path_join (PLUMES_D conf) (m_stem h ++ ".kml"))
                        /\ m_guid h = it_guid it /\ m_lat h = lat /\ m_lon h = lon
                        /\ 1 <= m_wspd h /\ 1 <= m_wdir h <= 360)
              [h1; h2; h3].
Proof. apply process_item_bundle. Qed.

Lemma bundle_contents_witness :
  exists lat lon h1 h2 h3,
    link_lat_lon demo_env (it_link demo_item) = Ok (lat, lon)
    /\ files (snd (smoke_simulator.process_item demo_env demo_conf demo_snapshot_path
                     demo_item fresh_world))
         !! smoke_simulator.bundle_path demo_conf demo_snapshot_path (it_guid demo_item)
       = Some (FBundle {| b_guid := it_guid demo_item; b_lat := lat; b_lon := lon;
                          b_horizons := [("0.5h", h1); ("1.5h", h2); ("2.5h", h3)] |})
    /\ map (fun h => m_stem h) [h1; h2; h3]
       = map (fun tag => today fresh_world ++ "_" ++ it_guid demo_item ++ "_" ++ tag)
             ["1"; "2"; "3"]
    /\ map (fun h => m_horizon_min h) [h1; h2; h3] = [JInt 30; JInt 90; JInt 150]
    /\ Forall (fun h => kml_abs_of demo_conf h
                        = Some (path_join (PLUMES_D demo_conf) (m_stem h ++ ".kml"))
                        /\ m_guid h = it_guid demo_item /\ m_lat h = lat /\ m_lon h = lon
                        /\ 1 <= m_wspd h /\ 1 <= m_wdir h <= 360)
              [h1; h2; h3].
Proof.
  apply (bundle_contents demo_env demo_conf demo_snapshot_path demo_item fresh_world).
  vm_compute. reflexivity.
Defined.

(** X9: when the solver exits non-zero, the horizon run raises a
    [RuntimeError] with the solver's stripped output, the converter is never
    started, and the descriptor written before stays on disk; when the solver
    succeeds but the converter exits non-zero, the run raises with the
    converter's stripped output. *)
Theorem single_horizon_engine_failure (env : Env) (conf : FSConfig)
        (guid : string) (lat lon : float) (tag : string) (mins : Z)
        (w : World) (wb : WxBlock) :
  smoke_simulator_wx (get_hourly_wx env (ticks w) lat lon) = Ok wb ->
  let d := descriptor conf (today w) guid lat lon tag mins (wb_wspd wb) (wb_wdir wb) in
  let ipt := input_path conf (today w) guid tag in
  (forall rc out,
      solver env (S (ticks w)) = (rc, out) -> rc <> 0 ->
      smoke_simulator._single_horizon env conf guid lat lon tag mins w
      = (Raise (RuntimeError ("VSmoke solver failed:" ++ newline ++ strip out)),
         mkWorld (<[ipt := FInput d]> (files w)) (today w) (S (S (ticks w)))
                 (RanSolver :: Wrote ipt (FInput d) :: AskedWx lat lon :: trace w)))
  /\ (forall out rc2 out2 k,
        solver env (S (ticks w)) = (0, out) ->
        converter env (S (S (ticks w))) ipt = (rc2, out2, k) -> rc2 <> 0 ->
        fst (smoke_simulator._single_horizon env conf guid lat lon tag mins w)
        = Raise (RuntimeError ("runvsmoke.py failed:" ++ newline ++ strip out2))).
Proof.
  intros Hwx d ipt. split.
  - intros rc out Hs Hrc.
    unfold smoke_simulator._single_horizon, bind, now_date. simpl.
    rewrite wx_block_run, Hwx.
    unfold smoke_simulator._build_input, bind, write_text, ret. simpl.
    unfold smoke_simulator._run_vsmoke, bind, tick, log. simpl.
    rewrite Hs. destruct (Z.eqb_spec rc 0) as [->|_]; [congruence|]. reflexivity.
  - intros out rc2 out2 k Hs Hc Hrc.
    unfold smoke_simulator._single_horizon, bind, now_date. simpl.
    rewrite wx_block_run, Hwx.
    unfold smoke_simulator._build_input, bind, write_text, ret. simpl.
    unfold smoke_simulator._run_vsmoke, bind, tick, log. simpl.
    rewrite Hs. simpl. unfold ipt, input_path in Hc. simpl in Hc. rewrite Hc.
    match goal with
    | |- context [smoke_simulator.converter_leaves conf ?p k ?w2] =>
        pose proof (converter_leaves_spec conf p k w2) as (Hok & _ & _);
        destruct (smoke_simulator.converter_leaves conf p k w2) as [r3 w3]
    end.
    simpl in Hok. subst r3.
    destruct (Z.eqb_spec rc2 0) as [->|_]; [congruence|]. reflexivity.
Qed.

Lemma single_horizon_engine_failure_witness :
  smoke_simulator_wx
    (get_hourly_wx failing_env 3 30.30 (-97.73)) = Ok (mkWxBlock 4 180)
  /\ fst (smoke_simulator._single_horizon failing_env demo_conf "A1" 30.30 (-97.73)
            "2" 90 (mkWorld (files fresh_world) "2025-05-11" 3 []))
     = Raise (RuntimeError ("VSmoke solver failed:" ++ newline ++ strip "U < 0.1 mph")).
Proof.
  split; [reflexivity|].
  rewrite (proj1 (single_horizon_engine_failure failing_env demo_conf "A1" 30.30 (-97.73)
                    "2" 90 (mkWorld (files fresh_world) "2025-05-11" 3 [])
                    (mkWxBlock 4 180) eq_refl) 1 "U < 0.1 mph" eq_refl);
    [reflexivity | discriminate].
Defined.


Lemma for_each_fails {A} (body : A -> M unit) x xs :
  In x xs ->
  (forall w, is_ok (fst (body x w)) = false) ->
  forall w, is_ok (fst (for_each body xs w)) = false.
Proof.
  intros Hin Hx. induction xs as [|y ys IH]; [destruct Hin|].
  intros w. simpl. unfold bind. destruct Hin as [->|Hin].
  - specialize (Hx w). destruct (body x w) as [[[]|e] w1]; [discriminate Hx | reflexivity].
  - destruct (body y w) as [[[]|e] w1]; [now apply IH | reflexivity].
Qed.

Lemma map_res_fails {A B} (f : A -> res B) x xs :
  In x xs -> is_ok (f x) = false -> is_ok (map_res f xs) = false.
Proof.
  intros Hin Hx. induction xs as [|y ys IH]; [destruct Hin|].
  simpl. destruct Hin as [->|Hin].
  - destruct (f x); [discriminate Hx | reflexivity].
  - destruct (f y); [|reflexivity]. simpl.
    specialize (IH Hin). destruct (map_res f ys); [discriminate IH | reflexivity].
Qed.



Lemma link_lat_lon_no_marker env link :
  occurs "q=" link = false -> link_lat_lon env link = Raise IndexError.
Proof. intros H. unfold link_lat_lon. now rewrite split_absent. Qed.

Lemma prefix_extend p : forall a b,
  String.prefix p a = true -> String.prefix p (a ++ b) = true.
Proof.
  induction p as [|c p IH]; intros a b H; [now destruct (a ++ b)|].
  destruct a as [|x a]; [discriminate H|].
  rewrite app_cons. simpl in *. destruct (ascii_dec c x); [now apply IH | discriminate H].
Qed.

Lemma occurs_app_l sep a b : occurs sep (a ++ b) = false -> occurs sep a = false.
Proof.
  induction a as [|c a IH]; intros H.
  - destruct sep as [|x sep]; [|reflexivity].
    rewrite app_nil_l in H. destruct b; discriminate H.
  - rewrite app_cons in H. cbn [occurs] in H. apply orb_false_iff in H as [Hp Ha].
    cbn [occurs]. rewrite (IH Ha), orb_false_r.
    destruct (String.prefix sep (String c a)) eqn:Hq; [|reflexivity].
    apply (prefix_extend _ _ b) in Hq. rewrite app_cons in Hq. congruence.
Qed.

Lemma split_from_head sep s : forall cur,
  exists hd tl rest,
    PyStr.split_from sep 0 cur s = hd :: tl /\ cur ++ s = hd ++ rest.
Proof.
  induction s as [|c s IH]; intros cur.
  - exists cur, [], "". split; reflexivity.
  - cbn [PyStr.split_from]. destruct (String.prefix sep (String c s)).
    + exists cur, (PyStr.split_from sep (String.length sep - 1) "" s), (String c s).
      split; reflexivity.
    + destruct (IH (PyStr.snoc cur c)) as (hd & tl & rest & H1 & H2).
      exists hd, tl, rest. split; [exact H1|]. now rewrite <- H2, snoc_app.
Qed.

Lemma fires_point_no_marker env link :
  occurs "q=" link = false -> is_ok (arcgis_api.fires_point env link) = false.
Proof.
  intros H. unfold arcgis_api.fires_point.
  destruct (PyStr.item (PyStr.split "," link) 1) as [lon_txt|]; [|reflexivity]. simpl.
  destruct (float_of env lon_txt); [|reflexivity]. simpl.
  destruct (split_from_head "," link "") as (hd & tl & rest & H1 & H2).
  change (PyStr.split_from "," 0 "" link) with (PyStr.split "," link) in H1.
  rewrite H1. simpl.
  rewrite app_nil_l in H2. rewrite H2 in H. apply occurs_app_l in H.
  now rewrite split_absent.
Qed.

(** X11: an incident whose link carries no "q=" marker makes the coordinate
    parser raise [IndexError]; the simulator then fails on that incident
    without touching the disk, and a snapshot holding such an incident
    makes the whole simulator run fail, the fires layer of that day fail,
    and layer fusion fail without writing anything. *)
Theorem link_without_marker (env : Env) (conf : FSConfig) (it : Item) :
  occurs "q=" (it_link it) = false ->
  link_lat_lon env (it_link it) = Raise IndexError
  /\ transform_to_geojson.incident_feature env it = Raise IndexError
  /\ is_ok (arcgis_api.fires_feature env it) = false
  /\ (forall firemap_json w,
         smoke_simulator.process_item env conf firemap_json it w = (Raise IndexError, w))
  /\ (forall firemap_json doc w,
         files w !! firemap_json = Some (FSnapshot doc) ->
         In it (items_of doc) ->
         is_ok (fst (smoke_simulator.process_firemap env conf firemap_json w)) = false)
  /\ (forall day save doc w,
         files w !! fire_ingester._target conf day = Some (FSnapshot doc) ->
         In it (items_of doc) ->
         is_ok (fst (transform_to_geojson.build env conf day save w)) = false
         /\ files (snd (transform_to_geojson.build env conf day save w)) = files w)
  /\ (forall day doc w,
         String.eqb day "latest" = false ->
         files w !! fire_ingester._target conf day = Some (FSnapshot doc) ->
         In it (items_of doc) ->
         is_ok (fst (arcgis_api.layer_fires env conf day w)) = false).
Proof.
  intros H. pose proof (link_lat_lon_no_marker env _ H) as Hl.
  assert (forall firemap_json w,
             smoke_simulator.process_item env conf firemap_json it w = (Raise IndexError, w))
    as Hitem.
  { intros fj w. unfold smoke_simulator.process_item, bind, lift. now rewrite Hl. }
  split; [exact Hl|].
  split; [unfold transform_to_geojson.incident_feature; now rewrite Hl|].
  split.
  { unfold arcgis_api.fires_feature.
    pose proof (fires_point_no_marker env _ H) as Hp.
    destruct (arcgis_api.fires_point env (it_link it)); [discriminate Hp | reflexivity]. }
  split; [exact Hitem|]. split; [|split].
  - intros fj doc w Hf Hin.
    unfold smoke_simulator.process_firemap, bind, read_file. rewrite Hf.
    apply (for_each_fails _ it); [exact Hin|].
    intros w0. now rewrite Hitem.
  - intros day save doc w Hf Hin.
    unfold transform_to_geojson.build, bind.
    unfold transform_to_geojson._read_incidents, bind, read_file.
    unfold fire_ingester._target in Hf. rewrite Hf. unfold lift.
    assert (is_ok (map_res (transform_to_geojson.incident_feature env) (items_of doc)) = false)
      as Hm.
    { apply (map_res_fails _ it); [exact Hin|].
      unfold transform_to_geojson.incident_feature. now rewrite Hl. }
    destruct (map_res _ (items_of doc)); [discriminate Hm|]. split; reflexivity.
  - intros day doc w Hday Hf Hin.
    unfold arcgis_api.layer_fires, arcgis_api._pick_latest, bind, ret, read_file.
    rewrite Hday. simpl. unfold fire_ingester._target in Hf. rewrite Hf. unfold lift.
    assert (is_ok (arcgis_api.fires_feature env it) = false) as Hfeat.
    { unfold arcgis_api.fires_feature.
      pose proof (fires_point_no_marker env _ H) as Hp.
      destruct (arcgis_api.fires_point env (it_link it)); [discriminate Hp | reflexivity]. }
    pose proof (map_res_fails (arcgis_api.fires_feature env) it (items_of doc) Hin Hfeat) as Hm.
    destruct (map_res _ (items_of doc)); [discriminate Hm | reflexivity].
Qed.

Lemma link_without_marker_witness :
  link_lat_lon demo_env "http://maps.google.com/?ll=30.30,-97.73" = Raise IndexError
  /\ arcgis_api.fires_point demo_env "http://maps.google.com/?ll=30.30,-97.73"
     = Raise IndexError.
Proof.
  pose proof (link_without_marker demo_env demo_conf
                {| it_guid := "A1"; it_title := "Brush fire";
                   it_description := None; it_pubDate := None;
                   it_link := "http://maps.google.com/?ll=30.30,-97.73" |}
                eq_refl) as [Hl _].
  split; [exact Hl | reflexivity].
Defined.

(** X12: the [save] argument of [build]: left out, the configured
    [save_to_disk] decides; when saving, the result is the path
    [FireSmokeMap_<day>.geojson] in the GeoJSON directory and that file is the
    only change on disk; when not saving, the collection itself is returned
    and no file changes; a failing call changes no file either.  The
    collection is titled [FireSmokeMap_<day>]. *)
Theorem build_save_flag (env : Env) (conf : FSConfig) (day : string)
        (save : option bool) (w : World) :
  let on := match save with None => geojson_save_to_disk conf | Some b => b end in
  let out := path_join (GEOJSON_D conf) ("FireSmokeMap_" ++ day ++ ".geojson") in
  let r := fst (transform_to_geojson.build env conf day save w) in
  let w' := snd (transform_to_geojson.build env conf day save w) in
  transform_to_geojson.build env conf day save w
  = transform_to_geojson.build env conf day (Some on) w
  /\ (forall q, q <> out -> files w' !! q = files w !! q)
  /\ (forall e, r = Raise e -> files w' = files w)
  /\ (forall x, r = Ok x ->
        if on
        then x = Saved out
             /\ exists gj, files w' = <[out := FGeoJson gj]> (files w)
                           /\ fc_title gj = "FireSmokeMap_" ++ day
        else files w' = files w
             /\ exists gj, x = Built gj /\ fc_title gj = "FireSmokeMap_" ++ day).
Proof.
  intros on out r w'. split; [now destruct save|].
  subst r w'. unfold transform_to_geojson.build, bind. fold on.
  pose proof (read_incidents_world env conf day w) as Hw.
  destruct (transform_to_geojson._read_incidents env conf day w) as [[incidents|e] w1].
  2:{ simpl in Hw. subst w1. simpl. split; [reflexivity|].
      split; [reflexivity | intros x Hx; discriminate Hx]. }
  simpl in Hw. subst w1.
  pose proof (read_plumes_and_meta_run env conf day w) as [_ Hfiles].
  destruct (transform_to_geojson._read_plumes_and_meta env conf day w)
    as [[layers|e] w2]; simpl in Hfiles.
  2:{ simpl. split; [intros; now rewrite Hfiles|].
      split; [intros; exact Hfiles | intros x Hx; discriminate Hx]. }
  destruct on.
  - unfold write_text, ret. simpl. fold out. rewrite Hfiles. split; [|split].
    + intros q Hq. now rewrite lookup_insert_ne by congruence.
    + discriminate.
    + intros x [= <-]. split; [reflexivity|]. eexists. split; reflexivity.
  - unfold ret. simpl. split; [|split].
    + intros q _. now rewrite Hfiles.
    + discriminate.
    + intros x [= <-]. split; [exact Hfiles|]. eexists. split; reflexivity.
Qed.

Lemma length_app (a b : string) :
  String.length (a ++ b) = (String.length a + String.length b)%nat.
Proof. induction a as [|c a IH]; [reflexivity|]. rewrite app_cons. simpl. now rewrite IH. Qed.

Lemma rev_app_app a : forall b acc,
  String.rev_app (a ++ b) acc = String.rev_app b (String.rev_app a acc).
Proof.
  induction a as [|c a IH]; intros b acc; [reflexivity|].
  rewrite app_cons. simpl. apply IH.
Qed.

Lemma rev_app_acc a : forall acc, String.rev_app a acc = String.rev a ++ acc.
Proof.
  unfold String.rev. induction a as [|c a IH]; intros acc; [reflexivity|].
  simpl. rewrite IH, (IH (String c "")). now rewrite app_assoc_s.
Qed.

Lemma rev_app_s a b : String.rev (a ++ b) = String.rev b ++ String.rev a.
Proof. unfold String.rev at 1. rewrite rev_app_app. apply rev_app_acc. Qed.

Lemma split_char_absent c s :
  has_char c s = false -> PyStr.split (String c "") s = [s].
Proof. intros H. apply split_none. now apply clean_char. Qed.

Lemma last_split_char c x a : forall cur,
  has_char c x = false ->
  List.last (PyStr.split_from (String c "") 0 cur (a ++ String c x)) "" = x.
Proof.
  induction a as [|d a IH]; intros cur Hx.
  - rewrite app_nil_l. cbn [PyStr.split_from]. rewrite prefix_one, Ascii.eqb_refl.
    cbn [String.length Nat.sub].
    change (PyStr.split_from (String c "") 0 "" x) with (PyStr.split (String c "") x).
    now rewrite split_char_absent.
  - rewrite app_cons. cbn [PyStr.split_from]. rewrite prefix_one.
    destruct (Ascii.eqb d c).
    + cbn [String.length Nat.sub].
      pose proof (split_from_nonempty (String c "") (a ++ String c x) 0 "") as Hne.
      specialize (IH "" Hx).
      destruct (PyStr.split_from (String c "") 0 "" (a ++ String c x)) as [|y ys];
        [now destruct Hne | exact IH].
    + now apply IH.
Qed.

Lemma name_path_join dir x :
  has_char "/" x = false -> PyPath.name (path_join dir x) = x.
Proof.
  intros H. unfold PyPath.name, path_join, PyStr.split.
  change ("/" ++ x) with (String "/" x). now apply last_split_char.
Qed.

Lemma stem_json dir x :
  plain_name x = true -> PyStr.is_empty x = false ->
  PyPath.stem (path_join dir (x ++ ".json")) = x.
Proof.
  unfold plain_name. intros H Hne.
  apply andb_true_iff in H as [Hs Hd]. apply negb_true_iff in Hs, Hd.
  unfold PyPath.stem. rewrite name_path_join by (now rewrite has_char_app, Hs).
  change (x ++ ".json") with (x ++ "." ++ "json").
  rewrite split_first by (now apply clean_char).
  change (PyStr.split "." "json") with ["json"]. simpl. rewrite ?app_empty_r.
  now rewrite Hne.
Qed.

Lemma bundle_path_of_target conf d guid :
  plain_name d = true ->
  smoke_simulator.bundle_path conf (fire_ingester._target conf d) guid
  = path_join (META_D conf) ("FireMap_" ++ d ++ "_" ++ guid ++ ".json").
Proof.
  intros H. unfold smoke_simulator.bundle_path, fire_ingester._target.
  change ("FireMap_" ++ d ++ ".json") with (("FireMap_" ++ d) ++ ".json").
  rewrite stem_json; [now rewrite app_assoc_s | | reflexivity].
  unfold plain_name in *. now rewrite !has_char_app.
Qed.

Lemma in_dir_matching_join dir pre mid suf nm :
  nm = pre ++ mid ++ suf ->
  has_char "/" nm = false ->
  in_dir_matching dir pre suf (path_join dir nm) = true.
Proof.
  intros -> H. unfold in_dir_matching, path_join.
  rewrite <- app_assoc_s, strip_prefix_refl.
  rewrite split_char_absent by assumption. simpl.
  unfold name_matches. rewrite prefix_app. simpl.
  rewrite <- app_assoc_s, rev_app_s, prefix_app. simpl.
  apply Nat.leb_le. rewrite !length_app. lia.
Qed.

Lemma digit_not_F c : PyStr.is_digit c = true -> Ascii.eqb c "F" = false.
Proof.
  intros H. destruct (Ascii.eqb c "F") eqn:E; [|reflexivity].
  apply Ascii.eqb_eq in E. subst c. discriminate H.
Qed.

Section Naming.
Variable env : Env.
Variable conf : FSConfig.

Lemma descriptor_not_matched day date guid tag c rest :
  date = String c rest -> PyStr.is_digit c = true ->
  in_dir_matching (META_D conf) ("FireMap_" ++ day ++ "_") ".json"
                  (input_path conf date guid tag) = false.
Proof.
  intros -> Hc. unfold in_dir_matching, input_path, path_join.
  rewrite <- app_assoc_s, strip_prefix_refl.
  unfold name_matches.
  assert (String.prefix ("FireMap_" ++ day ++ "_")
            ((String c rest ++ "_" ++ guid ++ "_" ++ tag) ++ ".json") = false) as ->.
  { rewrite !app_cons. cbn [String.prefix].
    destruct (ascii_dec "F" c) as [<-|]; [discriminate Hc | reflexivity]. }
  now rewrite andb_false_r.
Qed.

Lemma processed_bundle_on_disk d it w w' :
  plain_name d = true ->
  smoke_simulator.process_item env conf (fire_ingester._target conf d) it w = (Ok tt, w') ->
  exists b,
    files w' !! path_join (META_D conf) ("FireMap_" ++ d ++ "_" ++ it_guid it ++ ".json")
    = Some (FBundle b)
    /\ complete3 b.
Proof.
  intros Hd H.
  pose proof (process_item_spec env conf (fire_ingester._target conf d) it w) as (_ & evs & _ & Hc).
  rewrite H in Hc. simpl in Hc.
  destruct Hc as [(b & _ & _ & Hc3 & Hf & _) | (e & [=] & _)].
  rewrite bundle_path_of_target in Hf by assumption.
  exists b. split; assumption.
Qed.

End Naming.

(** X13: the simulator and layer fusion agree on where bundles are.  For a
    day without separator, dot or glob character and an incident id without
    separator, the bundle the simulator writes for the day's snapshot is
    [FireMap_<day>_<guid>.json] in the meta directory, and after the incident
    has been processed the fusion's search for [FireMap_<day>_*.json] finds
    it; the engine's descriptors, which lie in the same directory under
    [<today>_<guid>_<tag>.json], are not matched as long as the date starts
    with a digit. *)
Theorem bundle_found_by_fusion (env : Env) (conf : FSConfig) (d : string)
        (it : Item) (w w' : World) :
  plain_name d = true ->
  glob_literal d = true ->
  has_char "/" (it_guid it) = false ->
  smoke_simulator.process_item env conf (fire_ingester._target conf d) it w = (Ok tt, w') ->
  let p := path_join (META_D conf) ("FireMap_" ++ d ++ "_" ++ it_guid it ++ ".json") in
  smoke_simulator.bundle_path conf (fire_ingester._target conf d) (it_guid it) = p
  /\ PyPath.name p = "FireMap_" ++ d ++ "_" ++ it_guid it ++ ".json"
  /\ In p (bundle_files conf d (files w'))
  /\ (forall tag c rest,
        today w = String c rest -> PyStr.is_digit c = true ->
        ~ In (input_path conf (today w) (it_guid it) tag) (bundle_files conf d (files w'))).
Proof.
  intros Hd _ Hg H p.
  assert (has_char "/" ("FireMap_" ++ d ++ "_" ++ it_guid it ++ ".json") = false) as Hn.
  { unfold plain_name in Hd. apply andb_true_iff in Hd as [Hs _]. apply negb_true_iff in Hs.
    now rewrite !has_char_app, Hs, Hg. }
  split; [now apply bundle_path_of_target|].
  split; [now apply name_path_join|]. split.
  - destruct (processed_bundle_on_disk env conf d it w w' Hd H) as (b & Hf & _).
    unfold bundle_files, glob_list. apply List.filter_In. split.
    + apply in_map_iff. exists (p, FBundle b). split; [reflexivity|].
      apply list_elem_of_In, elem_of_map_to_list. exact Hf.
    + apply (in_dir_matching_join (META_D conf) ("FireMap_" ++ d ++ "_") (it_guid it) ".json");
        [now rewrite !app_assoc_s | exact Hn].
  - intros tag c rest Ht Hc Hin.
    unfold bundle_files, glob_list in Hin. apply List.filter_In in Hin as [_ Hm].
    rewrite (descriptor_not_matched conf d (today w) (it_guid it) tag c rest Ht Hc) in Hm.
    discriminate Hm.
Qed.

Lemma bundle_found_by_fusion_witness :
  smoke_simulator.bundle_path demo_conf demo_snapshot_path "A1" = demo_bundle_path
  /\ PyPath.name demo_bundle_path = "FireMap_2025-05-11_A1.json"
  /\ In demo_bundle_path
        (bundle_files demo_conf "2025-05-11"
           (files (snd (smoke_simulator.process_item demo_env demo_conf demo_snapshot_path
                          demo_item fresh_world))))
  /\ (forall tag c rest,
        "2025-05-11" = String c rest -> PyStr.is_digit c = true ->
        ~ In (input_path demo_conf "2025-05-11" "A1" tag)
             (bundle_files demo_conf "2025-05-11"
                (files (snd (smoke_simulator.process_item demo_env demo_conf
                               demo_snapshot_path demo_item fresh_world))))).
Proof.
  apply (bundle_found_by_fusion demo_env demo_conf "2025-05-11" demo_item fresh_world
           (snd (smoke_simulator.process_item demo_env demo_conf demo_snapshot_path
                   demo_item fresh_world))
           eq_refl eq_refl eq_refl).
  vm_compute. reflexivity.
Defined.

(** X14: the metadata endpoint reads what the simulator wrote: after an
    incident of the day's snapshot has been processed, [meta(day, guid)]
    returns its bundle (the incident's id, the coordinates of its link, the
    three horizon labels); for a day and id without bundle file it answers
    404 "Metadata not found" and reads nothing. *)
Theorem meta_endpoint_returns_bundle (env : Env) (conf : FSConfig) :
  (forall d it w w',
      plain_name d = true ->
      smoke_simulator.process_item env conf (fire_ingester._target conf d) it w
      = (Ok tt, w') ->
      exists b,
        data_api.meta conf d (it_guid it) w' = (Ok (FBundle b), w')
        /\ b_guid b = it_guid it
        /\ link_lat_lon env (it_link it) = Ok (b_lat b, b_lon b)
        /\ map fst (b_horizons b) = ["0.5h"; "1.5h"; "2.5h"])
  /\ (forall day guid w,
        files w !! path_join (META_D conf) ("FireMap_" ++ day ++ "_" ++ guid ++ ".json")
        = None ->
        data_api.meta conf day guid w
        = (Raise (HTTPException 404 "Metadata not found"), w)).
Proof.
  split.
  - intros d it w w' Hd H.
    destruct (process_item_bundle env conf _ it w w' H)
      as (lat & lon & h1 & h2 & h3 & Hl & Hf & _).
    rewrite bundle_path_of_target in Hf by assumption.
    eexists. split; [|split; [|split]].
    + unfold data_api.meta, bind, path_exists, read_file, lift. simpl.
      rewrite bool_decide_eq_true_2 by (rewrite Hf; eauto). simpl.
      rewrite Hf. reflexivity.
    + reflexivity.
    + exact Hl.
    + reflexivity.
  - intros day guid w Hf.
    unfold data_api.meta, bind, path_exists. simpl. rewrite Hf.
    rewrite bool_decide_eq_false_2; [reflexivity|]. intros [? [=]].
Qed.

Lemma meta_endpoint_returns_bundle_witness :
  exists b,
    data_api.meta demo_conf "2025-05-11" "A1"
      (snd (smoke_simulator.process_item demo_env demo_conf demo_snapshot_path
              demo_item fresh_world))
    = (Ok (FBundle b),
       snd (smoke_simulator.process_item demo_env demo_conf demo_snapshot_path
              demo_item fresh_world))
    /\ b_guid b = "A1"
    /\ link_lat_lon demo_env (it_link demo_item) = Ok (b_lat b, b_lon b)
    /\ map fst (b_horizons b) = ["0.5h"; "1.5h"; "2.5h"].
Proof.
  apply (proj1 (meta_endpoint_returns_bundle demo_env demo_conf)
           "2025-05-11" demo_item fresh_world); [reflexivity|].
  vm_compute. reflexivity.
Defined.






Lemma isdigit_token s :
  PyStr.isdigit s = true ->
  PyStr.is_empty s = false /\ PyStr.all_chars not_space s = true.
Proof.
  unfold PyStr.isdigit. intros H. apply andb_true_iff in H as [Hne Hd].
  apply negb_true_iff in Hne. split; [exact Hne|]. clear Hne.
  induction s as [|c s IH]; [reflexivity|].
  simpl in Hd. apply andb_true_iff in Hd as [Hc Hs]. simpl. rewrite (IH Hs), andb_true_r.
  unfold not_space. destruct (PyStr.is_space c) eqn:E; [|reflexivity].
  exfalso. revert Hc E. unfold PyStr.is_digit, PyStr.is_space.
  destruct c as [[] [] [] [] [] [] [] []]; simpl; congruence.
Qed.

Lemma wspd_of_token s tok rest :
  PyStr.split_ws s = tok :: rest ->
  smoke_simulator.wspd_of s
  = (let? wspd := if PyStr.isdigit tok then PyStr.int tok else Ok 0 in
     Ok (if wspd <? 1 then 1 else wspd))%res.
Proof. intros H. unfold smoke_simulator.wspd_of. rewrite H. reflexivity. Qed.

Lemma split_ws_digits_mph tok :
  PyStr.isdigit tok = true ->
  PyStr.split_ws (tok ++ " mph") = [tok; "mph"].
Proof.
  intros H. destruct (isdigit_token tok H) as [Hne Hns].
  pose proof (split_ws_leading "" tok " mph" eq_refl Hne Hns eq_refl) as Hs.
  rewrite app_nil_l in Hs. exact Hs.
Qed.

Lemma wspd_of_normalised tok :
  smoke_simulator.wspd_of (if PyStr.isdigit tok then tok ++ " mph" else "0 mph")
  = (let? wspd := if PyStr.isdigit tok then PyStr.int tok else Ok 0 in
     Ok (if wspd <? 1 then 1 else wspd))%res.
Proof.
  destruct (PyStr.isdigit tok) eqn:Hd.
  - rewrite (wspd_of_token _ tok ["mph"] (split_ws_digits_mph tok Hd)).
    rewrite Hd. reflexivity.
  - reflexivity.
Qed.

Lemma wdir_of_normalised d :
  smoke_simulator.wdir_of
    (if negb (PyStr.contains smoke_simulator._dirs d) then "N" else d)
  = smoke_simulator.wdir_of d.
Proof.
  destruct (PyStr.contains smoke_simulator._dirs d) eqn:E; [reflexivity|].
  cbn [negb]. unfold smoke_simulator.wdir_of at 2. rewrite E. reflexivity.
Qed.

Lemma wind_dirs_same : weather.wind_dirs = smoke_simulator._dirs.
Proof. vm_compute. reflexivity. Qed.

Lemma normalised_dir_known d :
  PyStr.contains smoke_simulator._dirs
    (if negb (PyStr.contains smoke_simulator._dirs d) then "N" else d) = true.
Proof.
  destruct (PyStr.contains smoke_simulator._dirs d) eqn:E;
    [exact E | vm_compute; reflexivity].
Qed.

Lemma normalise_cases p :
  match PyStr.split_ws (p_windSpeed p) with
  | [] => weather.normalise p = Raise IndexError
  | tok :: _ =>
      weather.normalise p
      = Ok {| windSpeed := if PyStr.isdigit tok then tok ++ " mph" else "0 mph";
              windDirection :=
                if negb (PyStr.contains smoke_simulator._dirs (p_windDirection p))
                then "N" else p_windDirection p |}
  end.
Proof.
  unfold weather.normalise. rewrite wind_dirs_same.
  destruct (PyStr.split_ws (p_windSpeed p)) as [|tok rest]; [reflexivity|].
  cbn [PyStr.item nth_error res_bind]. reflexivity.
Qed.

Lemma normalise_same_block (p : Period) :
  smoke_simulator_wx (weather.normalise p) = smoke_simulator_wx (Ok (raw_wx p)).
Proof.
  pose proof (normalise_cases p) as Hn.
  destruct (PyStr.split_ws (p_windSpeed p)) as [|tok rest] eqn:Hs; rewrite Hn.
  - unfold smoke_simulator_wx, raw_wx. cbn [res_bind windSpeed].
    unfold smoke_simulator.wspd_of. rewrite Hs. reflexivity.
  - unfold smoke_simulator_wx, raw_wx. cbn [res_bind windSpeed windDirection].
    rewrite wspd_of_normalised, wdir_of_normalised, (wspd_of_token _ _ _ Hs).
    reflexivity.
Qed.

(** X16: the normalisation in the forecast fallback changes nothing for the
    simulator: the wind block computed from the normalised entry is the one
    computed from the raw entry, exception included.  The fallback raises
    only [IndexError], on a speed text without token; what it returns has a
    compass label the table knows and a speed of the form [<digits> mph]. *)
Theorem fallback_normalisation_is_invisible (p : Period) :
  smoke_simulator_wx (weather.normalise p) = smoke_simulator_wx (Ok (raw_wx p))
  /\ (forall e, weather.normalise p = Raise e ->
        e = IndexError /\ PyStr.split_ws (p_windSpeed p) = [])
  /\ (forall wx, weather.normalise p = Ok wx ->
        PyStr.contains smoke_simulator._dirs (windDirection wx) = true
        /\ exists tok, PyStr.split_ws (windSpeed wx) = [tok; "mph"]
                       /\ PyStr.isdigit tok = true).
Proof.
  split; [apply normalise_same_block|].
  pose proof (normalise_cases p) as Hn.
  destruct (PyStr.split_ws (p_windSpeed p)) as [|tok rest] eqn:Hs.
  - rewrite Hn. split.
    + intros e [= <-]. split; reflexivity.
    + intros wx [=].
  - rewrite Hn. split.
    + intros e [=].
    + intros wx [= <-]. cbv beta iota delta [windSpeed windDirection]. split.
      * apply normalised_dir_known.
      * destruct (PyStr.isdigit tok) eqn:Hd.
        -- exists tok. split; [now apply split_ws_digits_mph | exact Hd].
        -- exists "0". split; vm_compute; reflexivity.
Qed.

Lemma first_current_skip now before : forall rest,
  Forall (in_the_past now) before ->
  weather.first_current now (before ++ rest)%list = weather.first_current now rest.
Proof.
  induction before as [|q before IH]; intros rest H; [reflexivity|].
  inversion H as [|? ? (t & Ht & Hlt) Hrest]; subst.
  simpl. rewrite Ht. simpl.
  destruct (Z.leb_spec now t); [lia|]. now apply IH.
Qed.

Lemma first_current_none now periods :
  Forall (in_the_past now) periods -> weather.first_current now periods = Ok None.
Proof.
  intros H. rewrite <- (app_nil_r periods). now rewrite first_current_skip.
Qed.

(** X17: which forecast entry is used.  Without an hourly URL in the points
    payload the answer is the calm default, from which the simulator computes
    speed 1 and direction 360; an empty forecast raises [RuntimeError]; the
    first entry that does not start in the past is returned as it is; and
    when every entry starts in the past the last one is returned normalised,
    which gives the simulator the same wind block as the raw last entry. *)
Theorem get_hourly_wx_selection (nws : Nws) (lat lon : float) :
  (points nws lat lon = Ok None ->
   weather.get_hourly_wx nws lat lon = Ok {| windSpeed := "0 mph"; windDirection := "N" |}
   /\ smoke_simulator_wx (weather.get_hourly_wx nws lat lon) = Ok (mkWxBlock 1 360))
  /\ (forall url,
        points nws lat lon = Ok (Some url) -> hourly nws url = Ok [] ->
        weather.get_hourly_wx nws lat lon
        = Raise (RuntimeError "Empty hourly forecast from NWS"))
  /\ (forall url before p after t,
        points nws lat lon = Ok (Some url) ->
        hourly nws url = Ok (before ++ p :: after)%list ->
        Forall (in_the_past (utcnow nws)) before ->
        p_startTime p = Ok t -> utcnow nws <= t ->
        weather.get_hourly_wx nws lat lon = Ok (raw_wx p))
  /\ (forall url front p,
        points nws lat lon = Ok (Some url) ->
        hourly nws url = Ok (front ++ [p])%list ->
        Forall (in_the_past (utcnow nws)) (front ++ [p])%list ->
        weather.get_hourly_wx nws lat lon = weather.normalise p
        /\ smoke_simulator_wx (weather.get_hourly_wx nws lat lon)
           = smoke_simulator_wx (Ok (raw_wx p))).
Proof.
  split; [|split; [|split]].
  - intros Hp. unfold weather.get_hourly_wx. rewrite Hp. split; reflexivity.
  - intros url Hp Hh. unfold weather.get_hourly_wx. rewrite Hp. cbn [res_bind].
    now rewrite Hh.
  - intros url before p after t Hp Hh Hpast Ht Hle.
    unfold weather.get_hourly_wx. rewrite Hp. cbn [res_bind]. rewrite Hh. cbn [res_bind].
    assert (weather.first_current (utcnow nws) (before ++ p :: after)%list = Ok (Some p))
      as Hfc.
    { rewrite first_current_skip by assumption. simpl. rewrite Ht. simpl.
      destruct (Z.leb_spec (utcnow nws) t); [reflexivity | lia]. }
    destruct (before ++ p :: after)%list as [|first rest] eqn:E;
      [now destruct before|].
    rewrite Hfc. reflexivity.
  - intros url front p Hp Hh Hpast.
    assert (weather.get_hourly_wx nws lat lon = weather.normalise p) as Hget.
    { unfold weather.get_hourly_wx. rewrite Hp. cbn [res_bind]. rewrite Hh. cbn [res_bind].
      pose proof (first_current_none _ _ Hpast) as Hfc.
      pose proof (last_last front p) as Hlast.
      destruct (front ++ [p])%list as [|first rest] eqn:E; [now destruct front|].
      rewrite Hfc. cbn [res_bind]. now rewrite Hlast. }
    split; [exact Hget|]. rewrite Hget. apply normalise_same_block.
Qed.

Lemma get_hourly_wx_selection_witness :
  weather.get_hourly_wx (demo_nws [stale_period; current_period]) 30.30 (-97.73)
  = Ok {| windSpeed := "Calm"; windDirection := "SW" |}
  /\ weather.get_hourly_wx (demo_nws [current_period; stale_period]) 30.30 (-97.73)
     = Ok {| windSpeed := "Calm"; windDirection := "SW" |}
  /\ weather.get_hourly_wx (demo_nws [stale_period]) 30.30 (-97.73)
     = Ok {| windSpeed := "12 mph"; windDirection := "N" |}.
Proof.
  pose proof (get_hourly_wx_selection (demo_nws [stale_period; current_period])
                30.30 (-97.73)) as (_ & _ & H1 & _).
  pose proof (get_hourly_wx_selection (demo_nws [current_period; stale_period])
                30.30 (-97.73)) as (_ & _ & H2 & _).
  pose proof (get_hourly_wx_selection (demo_nws [stale_period])
                30.30 (-97.73)) as (_ & _ & _ & H3).
  split; [|split].
  - apply (H1 _ [stale_period] current_period [] 300 eq_refl eq_refl);
      [|reflexivity | simpl; lia].
    constructor; [|constructor]. exists 100. split; [reflexivity | simpl; lia].
  - apply (H2 _ [] current_period [stale_period] 300 eq_refl eq_refl);
      [constructor | reflexivity | simpl; lia].
  - destruct (H3 _ [] stale_period eq_refl eq_refl) as [H _].
    + constructor; [|constructor]. exists 100. split; [reflexivity | simpl; lia].
    + rewrite H. vm_compute. reflexivity.
Defined.
